(** * BuildUHT: the unit history table, embedded and verified

    A shallow embedding of [BuildUHT.py]: the per-unit daily status
    simulator [unitdailystatus], the day truncation [dayofdatetime] and the
    script that assembles the table [unithistorytable].

    Conventions of the embedding.
    - A [datetime]/[Timestamp] is the number of seconds since an arbitrary
      epoch, a [Z]; [dt.timedelta(days=1)] is [day] seconds.  A value that
      pandas may return as [NaT] is an [option Z], [None] being [NaT];
      every ordering comparison against [NaT] is [False].
    - The [topupvalue] column holds Python objects ([None], a number read
      from the lookup sheet).  The sheet maps 3 to 1 week and 4 to 4 weeks:
      the main development takes top-up values as whole numbers of weeks,
      on which the float arithmetic of the simulator is exact, and carries
      it out in [Z].  The simulator is also given on a float column with
      fractions of a week, as rationals; on whole weeks the two agree
      ([status_frac_as_floats]).
    - A data frame is a list of rows in index order; a cell of the
      [unitstatus] column is ['S'], ['U'], a number, or [NaN] where nothing
      was ever assigned. *)

From Stdlib Require Import ZArith Lia Bool QArith Qreduction.
From stdpp Require Import base tactics option list sorting strings gmap.

Local Open Scope Z_scope.

(** ** Dates *)

(** [dt.timedelta(days=1)], in seconds. *)
Definition day : Z := 86400.

(** [dayofdatetime(datetimeobject, nextday)]: midnight of the day of
    [datetimeobject], or of the following day. *)
Definition dayofdatetime (datetimeobject : Z) (nextday : bool) : Z :=
  let dayonly := day * (datetimeobject / day) in
  if nextday then dayonly + day else dayonly.

(** [n] consecutive daily stamps starting at [t]. *)
Fixpoint days_from (t : Z) (n : nat) : list Z :=
  match n with
  | O => []
  | S n' => t :: days_from (t + day) n'
  end.

(** [pd.date_range(start, end, freq='d')]: [start], [start + 1 day], ...
    as long as the stamp does not exceed [end]. *)
Definition date_range (start end_ : Z) : list Z :=
  days_from start (if start <=? end_ then Z.to_nat ((end_ - start) / day + 1) else O).

(** [Index.min()] and [Index.max()]; [NaT] on an empty index. *)
Definition index_min (idx : list Z) : option Z :=
  match idx with
  | [] => None
  | t :: rest => Some (foldr Z.min t rest)
  end.

Definition index_max (idx : list Z) : option Z :=
  match idx with
  | [] => None
  | t :: rest => Some (foldr Z.max t rest)
  end.

(** [index >= d] and [index < d] for one label, [d] possibly [NaT]. *)
Definition ge_dt (t : Z) (d : option Z) : bool :=
  match d with
  | Some x => x <=? t
  | None => false
  end.

Definition lt_dt (t : Z) (d : option Z) : bool :=
  match d with
  | Some x => t <? x
  | None => false
  end.

(** ** The transaction log *)

(** A value of the [topupvalue] column. *)
Inductive pyvalue : Type :=
  | PyNone
  | PyInt (w : Z)
  | PyFloat (w : Z)
  | PyNaN.

(** One row of [translog]; the index of the frame is [timestamp]. *)
Record transaction : Type := {
  timestamp : Z;
  unit_id : string;
  function_code : Z;
  topupvalue : pyvalue
}.

(** [Series.astype(float)] on one value. *)
Definition astype_float (v : pyvalue) : pyvalue :=
  match v with
  | PyNone => PyNaN
  | PyInt w => PyFloat w
  | PyFloat w => PyFloat w
  | PyNaN => PyNaN
  end.

(** The number held by a float cell; [None] for a null. *)
Definition float_value (v : pyvalue) : option Z :=
  match v with
  | PyFloat w => Some w
  | _ => None
  end.

(** [unittrans.topupvalue = unittrans.topupvalue.astype(float)]: the
    argument frame is updated in place. *)
Definition set_topupvalue_float (unittrans : list transaction) : list transaction :=
  map (fun e => {| timestamp := timestamp e; unit_id := unit_id e;
                   function_code := function_code e;
                   topupvalue := astype_float (topupvalue e) |}) unittrans.

(** ** Daily totals *)

(** The non-null values that fall in the daily bin starting at [t]. *)
Definition bin_values (unittrans : list transaction) (t : Z) : list Z :=
  omap (fun e => if (t <=? timestamp e) && (timestamp e <? t + day)
                 then float_value (topupvalue e) else None) unittrans.

(** The sum of a bin; a bin without any value is null. *)
Definition bin_sum (unittrans : list transaction) (t : Z) : option Z :=
  match bin_values unittrans t with
  | [] => None
  | vs => Some (foldr Z.add 0 vs)
  end.

(** [unittrans.topupvalue.resample('d', how='sum')]: one bin per calendar
    day from the day of the first to the day of the last transaction. *)
Definition resample_d_sum (unittrans : list transaction) : list (Z * option Z) :=
  match index_min (map timestamp unittrans), index_max (map timestamp unittrans) with
  | Some lo, Some hi =>
      map (fun t => (t, bin_sum unittrans t))
          (date_range (dayofdatetime lo false) (dayofdatetime hi false))
  | _, _ => []
  end.

(** [df.loc[df.col.isnull(), col] = 0] on one value. *)
Definition fillna0 (v : option Z) : Z :=
  match v with
  | Some x => x
  | None => 0
  end.

(** The row labelled [t] of a frame with a single column. *)
Fixpoint loc {A : Type} (t : Z) (df : list (Z * A)) : option A :=
  match df with
  | [] => None
  | (t', v) :: rest => if t' =? t then Some v else loc t rest
  end.

(** ** The daily history of one unit *)

Inductive cell : Type :=
  | NaN
  | Str_S
  | Str_U
  | Num (v : Z).

Record row : Type := {
  index : Z;
  dailytopuptotal : Z;
  unitstatus : cell
}.

Definition set_value (r : row) (v : cell) : row :=
  {| index := index r; dailytopuptotal := dailytopuptotal r; unitstatus := v |}.

(** [dailyhistory.loc[mask, 'unitstatus'] = v]. *)
Definition loc_set (mask : Z -> bool) (v : cell) (dailyhistory : list row) : list row :=
  map (fun r => if mask (index r) then set_value r v else r) dailyhistory.

(** The two counters of the walk over the days. *)
Record counters : Type := {
  dayscreditremaining : Z;
  continuousdaysooc : Z
}.

(** The body of the [for index, row in ...iterrows()] loop: the value
    written for the day, and the counters after it. *)
Definition loop_body (r : row) (c : counters) : cell * counters :=
  let credit := dayscreditremaining c + dailytopuptotal r * 7 in
  if 0 <? credit
  then (Num credit,
        {| dayscreditremaining := credit + -1; continuousdaysooc := 0 |})
  else (Num (- continuousdaysooc c),
        {| dayscreditremaining := credit;
           continuousdaysooc := continuousdaysooc c + 1 |}).

(** The loop over the rows selected by the boolean mask, in index order.
    Labels are unique, so [set_value(index, ...)] writes the row being
    visited; rows outside the mask are neither visited nor written. *)
Fixpoint iterrows (selected : Z -> bool) (dailyhistory : list row) (c : counters)
  : list row * counters :=
  match dailyhistory with
  | [] => ([], c)
  | r :: rest =>
      if selected (index r)
      then let '(v, c') := loop_body r c in
           let '(rest', c_end) := iterrows selected rest c' in
           (set_value r v :: rest', c_end)
      else let '(rest', c_end) := iterrows selected rest c in
           (r :: rest', c_end)
  end.

(** The rows whose function code is 5 (unlock). *)
Definition unlock_rows (unittrans : list transaction) : list transaction :=
  filter (fun e => function_code e = 5) unittrans.

(** Lines 143-146: the daily totals of the unit, nulls set to zero. *)
Definition dailytotals (unittrans : list transaction) : list (Z * Z) :=
  map (fun b => (b.1, fillna0 b.2)) (resample_d_sum (set_topupvalue_float unittrans)).

(** Lines 149-150: [installdate], [None] standing for the default [""];
    the default is the first day of the resampled frame. *)
Definition resolve_installdate (unittrans : list transaction) (installdate : option Z)
  : option Z :=
  match installdate with
  | Some i => Some i
  | None => index_min (map fst (dailytotals unittrans))
  end.

(** Lines 156-159: the frame on the full axis, totals joined from the
    left and nulls set to zero; no status assigned yet. *)
Definition joined (unittrans : list transaction) (startdate enddate : Z) : list row :=
  map (fun t => {| index := t;
                   dailytopuptotal := fillna0 (loc t (dailytotals unittrans));
                   unitstatus := NaN |})
      (date_range startdate enddate).

(** Lines 165-174: stock days, then the first unlock row of the frame,
    truncated to its day; without one, a bound far after [enddate]. *)
Definition mark_stock_unlock (unittrans : list transaction) (enddate : Z)
    (install : option Z) (dailyhistory : list row) : list row * Z :=
  let dailyhistory := loc_set (fun t => lt_dt t install) Str_S dailyhistory in
  match unlock_rows unittrans with
  | e :: _ =>
      let unlockdate := dayofdatetime (timestamp e) false in
      (loc_set (fun t => unlockdate <=? t) Str_U dailyhistory, unlockdate)
  | [] => (dailyhistory, enddate + 365 * day)
  end.

(** Lines 204-206: [unlockdate] is recomputed as the smallest unlock
    timestamp, not truncated; it is [NaT] without an unlock row, which
    [is not np.nan], so the assignment always runs and compares against
    [NaT] in that case. *)
Definition overwrite_unlocked (unittrans : list transaction) (dailyhistory : list row)
  : list row :=
  let unlockdate := index_min (map timestamp (unlock_rows unittrans)) in
  loc_set (fun t => ge_dt t unlockdate) Str_U dailyhistory.

Definition counters0 : counters :=
  {| dayscreditremaining := 0; continuousdaysooc := 0 |}.

(** The frame [dailyhistory] at the end of [unitdailystatus], before
    columns are dropped.  The range is meant non-empty
    ([startdate <= enddate]), as it is in the script; nothing is stated
    about a call on an empty range, where the frame has no row for
    line 165 to write the new column on. *)
Definition dailyhistory_rows (unittrans : list transaction) (startdate enddate : Z)
    (installdate : option Z) : list row :=
  let install := resolve_installdate unittrans installdate in
  let '(dailyhistory, unlockdate) :=
    mark_stock_unlock unittrans enddate install (joined unittrans startdate enddate) in
  let '(dailyhistory, _) :=
    iterrows (fun t => ge_dt t install && (t <? unlockdate)) dailyhistory counters0 in
  overwrite_unlocked unittrans dailyhistory.

(** A returned frame: its index and its named columns, in column order. *)
Record DataFrame : Type := {
  df_index : list Z;
  df_columns : list (string * list cell)
}.

(** [unitdailystatus(unittrans, startdate, enddate, installdate,
    includetopupvalues)]: the argument frame as the call leaves it, and
    the returned history. *)
Definition unitdailystatus (unittrans : list transaction) (startdate enddate : Z)
    (installdate : option Z) (includetopupvalues : bool)
  : list transaction * DataFrame :=
  let dailyhistory := dailyhistory_rows unittrans startdate enddate installdate in
  (set_topupvalue_float unittrans,
   {| df_index := map index dailyhistory;
      df_columns :=
        (if includetopupvalues
         then [("dailytopuptotal"%string, map (fun r => Num (dailytopuptotal r)) dailyhistory)]
         else [])
        ++ [("unitstatus"%string, map unitstatus dailyhistory)] |}).

(** ** Reading a returned history *)

(** The column called [name]. *)
Fixpoint column (name : string) (cols : list (string * list cell)) : option (list cell) :=
  match cols with
  | [] => None
  | (n, c) :: rest => if decide (n = name) then Some c else column name rest
  end.

(** [df.loc[t, name]]. *)
Definition at_label (df : DataFrame) (name : string) (t : Z) : option cell :=
  match column name (df_columns df) with
  | Some c => loc t (zip (df_index df) c)
  | None => None
  end.

(** The status of the unit on the day labelled [t], as returned by a call
    with the default [includetopupvalues]. *)
Definition status (unittrans : list transaction) (startdate enddate : Z)
    (installdate : option Z) (t : Z) : option cell :=
  at_label (unitdailystatus unittrans startdate enddate installdate false).2
           "unitstatus" t.

(** The reading of a cell given by the docstring of [unitdailystatus]:
    "the number of days credit remaining (+) or out of credit (-)",
    ['S'] for stock and ['U'] for unlocked. *)
Inductive DailyStatus : Type :=
  | Stock
  | CreditRemaining (n : Z)
  | OutOfCredit (k : Z)
  | Unlocked
  | Absent.

Definition classify (c : cell) : DailyStatus :=
  match c with
  | NaN => Absent
  | Str_S => Stock
  | Str_U => Unlocked
  | Num v => if 0 <? v then CreditRemaining v else OutOfCredit (- v)
  end.

(** ** The table *)

(** [df.rename(columns={old: new})]. *)
Definition rename_column (old new : string) (df : DataFrame) : DataFrame :=
  {| df_index := df_index df;
     df_columns := map (fun c => (if decide (c.1 = old) then new else c.1, c.2))
                       (df_columns df) |}.

(** A column of [right] aligned on the labels of [left]: the value of the
    row of [right] with the same label, null when there is none. *)
Definition reindex (left_index right_index : list Z) (col : list cell) : list cell :=
  map (fun t => default NaN (loc t (zip right_index col))) left_index.

(** [left.join(right, how='left')]: the columns of [right] are appended,
    aligned on the index of [left]; pandas raises when a column name of
    [right] is already a column of [left]. *)
Definition join_left (left right : DataFrame) : option DataFrame :=
  if decide (Forall (fun c => c.1 ∉ (df_columns left).*1) (df_columns right))
  then Some {| df_index := df_index left;
               df_columns := df_columns left ++
                 map (fun c => (c.1, reindex (df_index left) (df_index right) c.2))
                     (df_columns right) |}
  else None.

(** [translog.groupby('unit_id')]: one group per distinct key, keys in
    sorted order, each group holding the rows of its key in frame order. *)
Definition groupby_unit_id (translog : list transaction)
  : list (string * list transaction) :=
  map (fun u => (u, filter (fun e => unit_id e = u) translog))
      (merge_sort String.le (remove_dups (map unit_id translog))).

(** Lines 241-244: the bounds of the table, from the whole log. *)
Definition table_startdate (translog : list transaction) : option Z :=
  match index_min (map timestamp translog) with
  | Some lo => Some (dayofdatetime lo false)
  | None => None
  end.

Definition table_enddate (translog : list transaction) : option Z :=
  match index_max (map timestamp translog) with
  | Some hi => Some (dayofdatetime hi false + day)
  | None => None
  end.

(** Lines 257-263: the loop over the groups.  The progress counter and
    its printing touch nothing that the table is computed from and are
    left out. *)
Fixpoint merge_units (groups : list (string * list transaction))
    (startdate enddate : Z) (unithistorytable : DataFrame) : option DataFrame :=
  match groups with
  | [] => Some unithistorytable
  | (unitID, unittrans) :: rest =>
      if (0 <? length unittrans)%nat
      then
        let unithist := (unitdailystatus unittrans startdate enddate None false).2 in
        match join_left unithistorytable (rename_column "unitstatus" unitID unithist) with
        | Some joined_table => merge_units rest startdate enddate joined_table
        | None => None
        end
      else merge_units rest startdate enddate unithistorytable
  end.

(** The script from line 241 on: [None] when it raises (an empty log has
    no first timestamp to truncate). *)
Definition unithistorytable (translog : list transaction) : option DataFrame :=
  match table_startdate translog, table_enddate translog with
  | Some startdate, Some enddate =>
      merge_units (groupby_unit_id translog) startdate enddate
                  {| df_index := date_range startdate enddate; df_columns := [] |}
  | _, _ => None
  end.

(** ** Sample logs *)

(** A top-up row of [w] weeks, and an unlock row, which carries no
    value. *)
Definition topup (t : Z) (u : string) (code w : Z) : transaction :=
  {| timestamp := t; unit_id := u; function_code := code; topupvalue := PyInt w |}.

Definition unlock (t : Z) (u : string) : transaction :=
  {| timestamp := t; unit_id := u; function_code := 5; topupvalue := PyNone |}.

(** Two logs that share the rows of unit ["b"] and the bounds. *)
Definition sample_log : list transaction :=
  [topup 3600 "b" 3 1; topup (day + 5) "a" 4 4; unlock (2 * day) "b"].

Definition sample_log_other : list transaction :=
  [topup 60 "c" 4 4; topup 3600 "b" 3 1; unlock (2 * day) "b"; unlock (2 * day + 7) "c"].

(** The log of a unit with a single event. *)
Definition single_event (ts : Z) (u : string) (code : Z) (v : pyvalue)
  : list transaction :=
  [ {| timestamp := ts; unit_id := u; function_code := code; topupvalue := v |} ].

(** ** Vocabulary of the statements *)

(** The weeks of credit carried by a transaction; none for a row without
    a value. *)
Definition weeks (e : transaction) : Z :=
  match topupvalue e with
  | PyInt w | PyFloat w => w
  | PyNone | PyNaN => 0
  end.

(** The total top-up of the unit on the calendar day [d] (a midnight). *)
Definition topup_total_on (unittrans : list transaction) (d : Z) : Z :=
  foldr Z.add 0
    (map weeks (filter (fun e => dayofdatetime (timestamp e) false = d) unittrans)).

(** ** The walk seen from one day *)

(** The frame as the loop finds it. *)
Definition before_loop (unittrans : list transaction) (startdate enddate : Z)
    (installdate : option Z) : list row :=
  (mark_stock_unlock unittrans enddate (resolve_installdate unittrans installdate)
                     (joined unittrans startdate enddate)).1.

(** The exclusive upper bound of the loop, [unlockdate] of lines 168-174. *)
Definition loop_bound (unittrans : list transaction) (enddate : Z) : Z :=
  (mark_stock_unlock unittrans enddate None []).2.

(** The mask of the loop at label [t]. *)
Definition visited (unittrans : list transaction) (enddate : Z)
    (installdate : option Z) (t : Z) : bool :=
  ge_dt t (resolve_installdate unittrans installdate) && (t <? loop_bound unittrans enddate).

(** The counters when the loop reaches the day labelled [t]: the loop run
    on the rows of the earlier days only. *)
Definition counters_at (unittrans : list transaction) (startdate enddate : Z)
    (installdate : option Z) (t : Z) : counters :=
  (iterrows (visited unittrans enddate installdate)
            (filter (fun r => index r < t)
                    (before_loop unittrans startdate enddate installdate))
            counters0).2.

(** The row of day [t] as the loop finds it. *)
Definition day_row (unittrans : list transaction) (installdate : option Z) (t : Z) : row :=
  {| index := t;
     dailytopuptotal := topup_total_on unittrans t;
     unitstatus :=
       match unlock_rows unittrans with
       | e :: _ =>
           if dayofdatetime (timestamp e) false <=? t then Str_U
           else if lt_dt t (resolve_installdate unittrans installdate) then Str_S
           else NaN
       | [] =>
           if lt_dt t (resolve_installdate unittrans installdate) then Str_S else NaN
       end |}.

(** The status of day [t] at the end of the call, from the counters with
    which the loop reaches that day. *)
Definition final_status (unittrans : list transaction) (enddate : Z)
    (installdate : option Z) (t : Z) (c : counters) : cell :=
  if ge_dt t (index_min (map timestamp (unlock_rows unittrans))) then Str_U
  else if visited unittrans enddate installdate t
       then (loop_body (day_row unittrans installdate t) c).1
       else unitstatus (day_row unittrans installdate t).

(** [unlockDate]: the calendar day of the earliest unlock event, if any. *)
Definition unlockDate (unittrans : list transaction) : option Z :=
  match index_min (map timestamp (unlock_rows unittrans)) with
  | Some m => Some (dayofdatetime m false)
  | None => None
  end.

(** Day [t] lies strictly before [unlockDate]; no constraint for a unit
    that is never unlocked. *)
Definition before_unlock (unittrans : list transaction) (t : Z) : Prop :=
  match unlockDate unittrans with
  | Some u => t < u
  | None => True
  end.

(** A day shown in credit: a positive number in the status column. *)
Definition in_credit (c : cell) : bool :=
  match c with
  | Num v => 0 <? v
  | _ => false
  end.

(** The number of days a frame shows in credit. *)
Definition days_in_credit (rows : list row) : Z :=
  Z.of_nat (length (filter (fun r => in_credit (unitstatus r) = true) rows)).

(** The weeks of top-up a frame records on the days from [from] on. *)
Definition weeks_bought (from : option Z) (rows : list row) : Z :=
  foldr Z.add 0
    (map dailytopuptotal (filter (fun r => ge_dt (index r) from = true) rows)).

(** ** Preparing the log *)

(** The clean-up of a unit identifier read as text, line 69:
    [x[:-2] if x[-2:] == '.0' else x].  A slice that starts before the
    beginning of the text starts at its beginning. *)
Definition last_two (x : string) : string :=
  String.substring (String.length x - 2) 2 x.

Definition all_but_last_two (x : string) : string :=
  String.substring 0 (String.length x - 2) x.

Definition clean_unit_id (x : string) : string :=
  if decide (last_two x = ".0"%string) then all_but_last_two x else x.

(** A row with another top-up value. *)
Definition with_topupvalue (e : transaction) (v : pyvalue) : transaction :=
  {| timestamp := timestamp e; unit_id := unit_id e;
     function_code := function_code e; topupvalue := v |}.

(** [translog.loc[translog['function_code'] == key, 'topupvalue'] = value]. *)
Definition assign_topupvalue (key value : Z) (translog : list transaction)
  : list transaction :=
  map (fun e => if decide (function_code e = key)
                then with_topupvalue e (PyInt value) else e) translog.

(** The loop [for key in valuedict] of [topupvalues], over the items of
    the dictionary in the order [items], on a frame whose [topupvalue]
    column was first set to [None]. *)
Definition topupvalues_in_order (translog : list transaction) (items : list (Z * Z))
  : list transaction :=
  foldl (fun frame kv => assign_topupvalue kv.1 kv.2 frame)
        (map (fun e => with_topupvalue e PyNone) translog) items.

(** [topupvalues(translog, filepath)], the sheet [topupvalues] of the
    workbook given as the dictionary [valuedict] read from it. *)
Definition topupvalues (translog : list transaction) (valuedict : gmap Z Z)
  : list transaction :=
  topupvalues_in_order translog (map_to_list valuedict).

(** The value the dictionary gives to the function code of a row. *)
Definition value_for (valuedict : gmap Z Z) (e : transaction) : pyvalue :=
  match valuedict !! function_code e with
  | Some v => PyInt v
  | None => PyNone
  end.

(** ** The columns of the loaded log *)

(** The default of the parameter [droplist] of [loadtransactionlog]: one
    list, built when the function is defined and shared by all the calls
    that pass no list of their own. *)
Definition default_droplist : list string :=
  ["Web Login"; "E-payment Reference"; "E-Payment Provider"; "E-Payment Amount";
   "Error Detail"; "Outgoing Message"; "Unit Check Digit"; "Gateway Number";
   "Scratch- card Serial Number"; "Scratch-card PIN"; "Timestamp"; "Unit Id"]%string.

(** [translog[c] = ...]: a new column is added last, an existing one is
    replaced where it stands. *)
Definition set_column (c : string) (columns : list string) : list string :=
  if decide (c ∈ columns) then columns else columns ++ [c].

(** [translog.drop(dropcol, axis=1, inplace=True)]: pandas raises when no
    column carries the label. *)
Definition drop_column (dropcol : string) (columns : list string)
  : option (list string) :=
  if decide (dropcol ∈ columns)
  then Some (filter (fun c => c <> dropcol) columns)
  else None.

(** [for dropcol in droplist: translog.drop(dropcol, ...)]. *)
Fixpoint drop_columns (droplist columns : list string) : option (list string) :=
  match droplist with
  | [] => Some columns
  | dropcol :: rest =>
      match drop_column dropcol columns with
      | Some columns' => drop_columns rest columns'
      | None => None
      end
  end.

(** [translog.rename(columns=renamedict)]. *)
Definition rename_columns (renamedict : gmap string string) (columns : list string)
  : list string :=
  map (fun c => default c (renamedict !! c)) columns.

(** Lines 83-91: the drops, the renaming unless the dictionary is empty,
    and [set_index('timestamp')], which takes the column out of the frame
    and raises when there is none. *)
Definition drop_rename_index (droplist : list string)
    (renamedict : gmap string string) (columns : list string)
  : option (list string) :=
  match drop_columns droplist columns with
  | Some columns =>
      let columns := if decide (renamedict = ∅) then columns
                     else rename_columns renamedict columns in
      if decide ("timestamp"%string ∈ columns)
      then Some (filter (fun c => c <> "timestamp"%string) columns)
      else None
  | None => None
  end.

(** [loadtransactionlog] from line 65 on, as far as the columns go: the
    frame read from the files is given by the list of its column names,
    and the result is the list object [droplist] as the call leaves it
    together with the columns of the returned frame, [None] when the call
    raises. *)
Definition loadtransactionlog_columns (columns : list string) (successonly : bool)
    (renamedict : gmap string string) (droplist : list string)
  : list string * option (list string) :=
  if decide ("Unit Id"%string ∈ columns) then
    let columns := set_column "Unit ID" columns in
    if decide ("Timestamp"%string ∈ columns) then
      let columns := set_column "timestamp" columns in
      if successonly then
        if decide ("Success"%string ∈ columns) then
          let droplist := droplist ++ ["Success"%string] in
          (droplist, drop_rename_index droplist renamedict columns)
        else (droplist, None)
      else (droplist, drop_rename_index droplist renamedict columns)
    else (droplist, None)
  else (droplist, None).

(** The columns of the files, as far as [loadtransactionlog] names them. *)
Definition sample_columns : list string :=
  ["Timestamp"; "Unit Id"; "Success"; "Function Code"; "Web Login";
   "E-payment Reference"; "E-Payment Provider"; "E-Payment Amount";
   "Error Detail"; "Outgoing Message"; "Unit Check Digit"; "Gateway Number";
   "Scratch- card Serial Number"; "Scratch-card PIN"]%string.

(** ** The simulator on fractions of a week *)

(** The frame [unittrans] after line 143, as far as the simulator reads
    it: the timestamp, the function code and the float [topupvalue] of
    each row, a null being [None].  A float is the fraction it stands for,
    kept in lowest terms ([Qred]) so that equal numbers are equal terms. *)
Record float_transaction : Type := {
  f_timestamp : Z;
  f_function_code : Z;
  f_topupvalue : option Q
}.

(** Line 143 on a log of whole weeks: every number becomes a float. *)
Definition as_floats (unittrans : list transaction) : list float_transaction :=
  map (fun e => {| f_timestamp := timestamp e;
                   f_function_code := function_code e;
                   f_topupvalue := inject_Z <$> float_value (astype_float (topupvalue e)) |})
      unittrans.

(** Float addition, exact. *)
Definition fadd (a b : Q) : Q := Qred (a + b)%Q.

(** [x > 0] on floats. *)
Definition is_positive (x : Q) : bool := negb (Qle_bool x 0).

Definition bin_values_frac (unittrans : list float_transaction) (t : Z) : list Q :=
  omap (fun e => if (t <=? f_timestamp e) && (f_timestamp e <? t + day)
                 then f_topupvalue e else None) unittrans.

Definition bin_sum_frac (unittrans : list float_transaction) (t : Z) : option Q :=
  match bin_values_frac unittrans t with
  | [] => None
  | vs => Some (foldr fadd (inject_Z 0) vs)
  end.

Definition resample_d_sum_frac (unittrans : list float_transaction)
  : list (Z * option Q) :=
  match index_min (map f_timestamp unittrans), index_max (map f_timestamp unittrans) with
  | Some lo, Some hi =>
      map (fun t => (t, bin_sum_frac unittrans t))
          (date_range (dayofdatetime lo false) (dayofdatetime hi false))
  | _, _ => []
  end.

Definition fillna0_frac (v : option Q) : Q :=
  match v with
  | Some x => x
  | None => inject_Z 0
  end.

Definition dailytotals_frac (unittrans : list float_transaction) : list (Z * Q) :=
  map (fun b => (b.1, fillna0_frac b.2)) (resample_d_sum_frac unittrans).

(** The [dailytopuptotal] that lines 143-159 put on the label [t]. *)
Definition daily_total_frac (unittrans : list float_transaction) (t : Z) : Q :=
  fillna0_frac (loc t (dailytotals_frac unittrans)).

Definition resolve_installdate_frac (unittrans : list float_transaction)
    (installdate : option Z) : option Z :=
  match installdate with
  | Some i => Some i
  | None => index_min (map fst (dailytotals_frac unittrans))
  end.

Inductive cell_frac : Type :=
  | NaN_frac
  | Str_S_frac
  | Str_U_frac
  | Num_frac (v : Q).

Record row_frac : Type := {
  index_frac : Z;
  dailytopuptotal_frac : Q;
  unitstatus_frac : cell_frac
}.

Definition set_value_frac (r : row_frac) (v : cell_frac) : row_frac :=
  {| index_frac := index_frac r; dailytopuptotal_frac := dailytopuptotal_frac r;
     unitstatus_frac := v |}.

Definition loc_set_frac (mask : Z -> bool) (v : cell_frac) (dailyhistory : list row_frac)
  : list row_frac :=
  map (fun r => if mask (index_frac r) then set_value_frac r v else r) dailyhistory.

(** The counters: the credit is a float, the streak a Python integer. *)
Record counters_frac : Type := {
  dayscreditremaining_frac : Q;
  continuousdaysooc_frac : Z
}.

(** The body of the loop, lines 186-199. *)
Definition loop_body_frac (r : row_frac) (c : counters_frac) : cell_frac * counters_frac :=
  let credit := Qred (dayscreditremaining_frac c + dailytopuptotal_frac r * inject_Z 7)%Q in
  if is_positive credit
  then (Num_frac credit,
        {| dayscreditremaining_frac := Qred (credit + inject_Z (-1))%Q;
           continuousdaysooc_frac := 0 |})
  else (Num_frac (inject_Z (- continuousdaysooc_frac c)),
        {| dayscreditremaining_frac := credit;
           continuousdaysooc_frac := continuousdaysooc_frac c + 1 |}).

Fixpoint iterrows_frac (selected : Z -> bool) (dailyhistory : list row_frac)
    (c : counters_frac) : list row_frac * counters_frac :=
  match dailyhistory with
  | [] => ([], c)
  | r :: rest =>
      if selected (index_frac r)
      then let '(v, c') := loop_body_frac r c in
           let '(rest', c_end) := iterrows_frac selected rest c' in
           (set_value_frac r v :: rest', c_end)
      else let '(rest', c_end) := iterrows_frac selected rest c in
           (r :: rest', c_end)
  end.

Definition unlock_rows_frac (unittrans : list float_transaction)
  : list float_transaction :=
  filter (fun e => f_function_code e = 5) unittrans.

Definition joined_frac (unittrans : list float_transaction) (startdate enddate : Z)
  : list row_frac :=
  map (fun t => {| index_frac := t;
                   dailytopuptotal_frac := daily_total_frac unittrans t;
                   unitstatus_frac := NaN_frac |})
      (date_range startdate enddate).

Definition mark_stock_unlock_frac (unittrans : list float_transaction) (enddate : Z)
    (install : option Z) (dailyhistory : list row_frac) : list row_frac * Z :=
  let dailyhistory := loc_set_frac (fun t => lt_dt t install) Str_S_frac dailyhistory in
  match unlock_rows_frac unittrans with
  | e :: _ =>
      let unlockdate := dayofdatetime (f_timestamp e) false in
      (loc_set_frac (fun t => unlockdate <=? t) Str_U_frac dailyhistory, unlockdate)
  | [] => (dailyhistory, enddate + 365 * day)
  end.

Definition overwrite_unlocked_frac (unittrans : list float_transaction)
    (dailyhistory : list row_frac) : list row_frac :=
  let unlockdate := index_min (map f_timestamp (unlock_rows_frac unittrans)) in
  loc_set_frac (fun t => ge_dt t unlockdate) Str_U_frac dailyhistory.

Definition counters0_frac : counters_frac :=
  {| dayscreditremaining_frac := inject_Z 0; continuousdaysooc_frac := 0 |}.

(** The frame [dailyhistory] at the end of [unitdailystatus], lines
    144-206, on a float column. *)
Definition dailyhistory_rows_frac (unittrans : list float_transaction)
    (startdate enddate : Z) (installdate : option Z) : list row_frac :=
  let install := resolve_installdate_frac unittrans installdate in
  let '(dailyhistory, unlockdate) :=
    mark_stock_unlock_frac unittrans enddate install
                           (joined_frac unittrans startdate enddate) in
  let '(dailyhistory, _) :=
    iterrows_frac (fun t => ge_dt t install && (t <? unlockdate)) dailyhistory
                  counters0_frac in
  overwrite_unlocked_frac unittrans dailyhistory.

(** The status returned for the day labelled [t]. *)
Definition status_frac (unittrans : list float_transaction) (startdate enddate : Z)
    (installdate : option Z) (t : Z) : option cell_frac :=
  let dailyhistory := dailyhistory_rows_frac unittrans startdate enddate installdate in
  loc t (zip (map index_frac dailyhistory) (map unitstatus_frac dailyhistory)).

(** The counters with which the loop reaches the day labelled [t]. *)
Definition counters_at_frac (unittrans : list float_transaction)
    (startdate enddate : Z) (installdate : option Z) (t : Z) : counters_frac :=
  let install := resolve_installdate_frac unittrans installdate in
  let '(dailyhistory, unlockdate) :=
    mark_stock_unlock_frac unittrans enddate install
                           (joined_frac unittrans startdate enddate) in
  (iterrows_frac (fun t => ge_dt t install && (t <? unlockdate))
                 (filter (fun r => index_frac r < t) dailyhistory)
                 counters0_frac).2.

(** The whole numbers among the floats. *)
Definition cell_as_float (c : cell) : cell_frac :=
  match c with
  | NaN => NaN_frac
  | Str_S => Str_S_frac
  | Str_U => Str_U_frac
  | Num v => Num_frac (inject_Z v)
  end.

Definition row_as_float (r : row) : row_frac :=
  {| index_frac := index r;
     dailytopuptotal_frac := inject_Z (dailytopuptotal r);
     unitstatus_frac := cell_as_float (unitstatus r) |}.

Definition counters_as_float (c : counters) : counters_frac :=
  {| dayscreditremaining_frac := inject_Z (dayscreditremaining c);
     continuousdaysooc_frac := continuousdaysooc c |}.

(** A float that is a whole number. *)
Definition whole (q : Q) : Prop := q = inject_Z (Qnum q).

(** A float column that holds whole numbers of weeks only. *)
Definition whole_weeks (unittrans : list float_transaction) : Prop :=
  Forall (fun e => match f_topupvalue e with
                   | Some q => whole q
                   | None => True
                   end) unittrans.

(** The log of integers behind a float column of whole weeks. *)
Definition as_integers (unittrans : list float_transaction) : list transaction :=
  map (fun e => {| timestamp := f_timestamp e; unit_id := "";
                   function_code := f_function_code e;
                   topupvalue := match f_topupvalue e with
                                 | Some q => PyFloat (Qnum q)
                                 | None => PyNaN
                                 end |}) unittrans.

(** [unlockDate] and the days before it, on the float frame. *)
Definition unlockDate_frac (unittrans : list float_transaction) : option Z :=
  match index_min (map f_timestamp (unlock_rows_frac unittrans)) with
  | Some m => Some (dayofdatetime m false)
  | None => None
  end.

Definition before_unlock_frac (unittrans : list float_transaction) (t : Z) : Prop :=
  match unlockDate_frac unittrans with
  | Some u => t < u
  | None => True
  end.

(** A week on day 0, then four weeks on day 9. *)
Definition whole_weeks_log : list float_transaction :=
  [ {| f_timestamp := 3600; f_function_code := 3; f_topupvalue := Some (inject_Z 1) |};
    {| f_timestamp := 9 * day + 5; f_function_code := 4;
       f_topupvalue := Some (inject_Z 4) |} ].

(** Half a week on day 0, then a week on day 5. *)
Definition half_week_log : list float_transaction :=
  [ {| f_timestamp := 60; f_function_code := 3; f_topupvalue := Some (1 # 2)%Q |};
    {| f_timestamp := 5 * day + 60; f_function_code := 3;
       f_topupvalue := Some (inject_Z 1) |} ].

(** * Properties *)

Ltac day_arith :=
  unfold dayofdatetime, day in *; Z.div_mod_to_equations; lia.

(** ** Calendar arithmetic *)

Lemma dayofdatetime_le (t : Z) : dayofdatetime t false <= t.
Proof. day_arith. Qed.

Lemma dayofdatetime_gt (t : Z) : t < dayofdatetime t false + day.
Proof. day_arith. Qed.

Lemma dayofdatetime_mono (t u : Z) :
  t <= u -> dayofdatetime t false <= dayofdatetime u false.
Proof. intros H. day_arith. Qed.

Lemma dayofdatetime_aligned (t : Z) :
  exists k, dayofdatetime t false = day * k.
Proof. exists (t / day). reflexivity. Qed.

Lemma dayofdatetime_midnight (k : Z) : dayofdatetime (day * k) false = day * k.
Proof. day_arith. Qed.

Lemma dayofdatetime_bin (k ts : Z) :
  day * k <= ts < day * k + day <-> dayofdatetime ts false = day * k.
Proof. split; intros H; day_arith. Qed.

Lemma days_from_app (t : Z) (n m : nat) :
  days_from t (n + m) = days_from t n ++ days_from (t + day * Z.of_nat n) m.
Proof.
  revert t. induction n as [|n IH]; intros t.
  - simpl. f_equal. lia.
  - cbn [days_from Nat.add app]. rewrite IH. do 3 f_equal. unfold day. lia.
Qed.

Lemma elem_of_days_from (x t : Z) (n : nat) :
  x ∈ days_from t n <-> exists k : nat, (k < n)%nat /\ x = t + day * Z.of_nat k.
Proof.
  revert t. induction n as [|n IH]; intros t; simpl.
  - rewrite elem_of_nil. split; [tauto | intros (k & Hk & _); lia].
  - rewrite elem_of_cons, IH. split.
    + intros [-> | (k & Hk & ->)].
      * exists 0%nat. split; lia.
      * exists (S k). split; [lia | unfold day; lia].
    + intros (k & Hk & ->). destruct k as [|k].
      * left. lia.
      * right. exists k. split; [lia | unfold day; lia].
Qed.

Lemma NoDup_days_from (t : Z) (n : nat) : NoDup (days_from t n).
Proof.
  revert t. induction n as [|n IH]; intros t; simpl; constructor; [|apply IH].
  rewrite elem_of_days_from. intros (k & _ & Hk). unfold day in Hk. lia.
Qed.

Lemma NoDup_date_range (a b : Z) : NoDup (date_range a b).
Proof. apply NoDup_days_from. Qed.

Lemma elem_of_date_range (x a b : Z) :
  x ∈ date_range a b <-> exists k, 0 <= k /\ x = a + day * k /\ x <= b.
Proof.
  unfold date_range. rewrite elem_of_days_from. split.
  - intros (k & Hk & ->). exists (Z.of_nat k).
    destruct (a <=? b) eqn:E; [|lia]. apply Z.leb_le in E.
    split; [lia|]. split; [reflexivity|].
    assert (Z.of_nat k <= (b - a) / day) by lia. day_arith.
  - intros (k & Hk & -> & Hb). exists (Z.to_nat k).
    assert (a <= b) as E by (unfold day in *; lia).
    apply Z.leb_le in E as E'. rewrite E'.
    assert (k <= (b - a) / day) by day_arith.
    split; [|rewrite Z2Nat.id by lia; reflexivity].
    apply Z2Nat.inj_lt; lia.
Qed.

Lemma date_range_empty (a b : Z) : b < a -> date_range a b = [].
Proof.
  intros H. unfold date_range.
  destruct (a <=? b) eqn:E; [apply Z.leb_le in E; lia | reflexivity].
Qed.

Lemma date_range_cons (a b : Z) :
  a <= b -> date_range a b = a :: date_range (a + day) b.
Proof.
  intros H. unfold date_range.
  apply Z.leb_le in H as H'. rewrite H'.
  destruct (a + day <=? b) eqn:E.
  - apply Z.leb_le in E.
    replace (Z.to_nat ((b - a) / day + 1))
      with (S (Z.to_nat ((b - (a + day)) / day + 1))); [reflexivity|].
    day_arith.
  - apply Z.leb_gt in E.
    replace (Z.to_nat ((b - a) / day + 1)) with 1%nat; [reflexivity|].
    day_arith.
Qed.

(** The axis cut at one of its days. *)
Lemma date_range_split (x a b : Z) :
  x ∈ date_range a b ->
  date_range a b = date_range a (x - day) ++ x :: date_range (x + day) b.
Proof.
  rewrite elem_of_date_range. intros (k & Hk & -> & Hb).
  revert a Hb. pattern k. apply natlike_ind; [| |exact Hk].
  - intros a Hb. replace (a + day * 0) with a in * by lia.
    rewrite (date_range_empty a (a - day)) by (unfold day; lia).
    simpl. apply date_range_cons. lia.
  - intros j Hj IH a Hb.
    rewrite (date_range_cons a b) by (unfold day in *; lia).
    rewrite (date_range_cons a (a + day * Z.succ j - day)) by (unfold day in *; lia).
    simpl. f_equal.
    replace (a + day * Z.succ j) with ((a + day) + day * j) by (unfold day; lia).
    apply IH. unfold day in *; lia.
Qed.

(** ** Smallest and largest timestamp *)

Lemma foldr_min_le (t : Z) (l : list Z) :
  foldr Z.min t l <= t /\ forall x, x ∈ l -> foldr Z.min t l <= x.
Proof.
  induction l as [|y l [IH1 IH2]]; simpl.
  - split; [lia | intros x Hx; inversion Hx].
  - split; [lia|]. intros x [->|Hx]%elem_of_cons; [lia|].
    specialize (IH2 x Hx). lia.
Qed.

Lemma foldr_min_elem (t : Z) (l : list Z) : foldr Z.min t l ∈ t :: l.
Proof.
  induction l as [|y l IH]; simpl; [left|].
  destruct (Z.min_spec y (foldr Z.min t l)) as [[_ ->]|[_ ->]].
  - right; left.
  - apply elem_of_cons in IH as [->|IH]; [left | right; right; exact IH].
Qed.

Lemma foldr_max_ge (t : Z) (l : list Z) :
  t <= foldr Z.max t l /\ forall x, x ∈ l -> x <= foldr Z.max t l.
Proof.
  induction l as [|y l [IH1 IH2]]; simpl.
  - split; [lia | intros x Hx; inversion Hx].
  - split; [lia|]. intros x [->|Hx]%elem_of_cons; [lia|].
    specialize (IH2 x Hx). lia.
Qed.

Lemma foldr_max_elem (t : Z) (l : list Z) : foldr Z.max t l ∈ t :: l.
Proof.
  induction l as [|y l IH]; simpl; [left|].
  destruct (Z.max_spec y (foldr Z.max t l)) as [[_ ->]|[_ ->]].
  - apply elem_of_cons in IH as [->|IH]; [left | right; right; exact IH].
  - right; left.
Qed.

Lemma index_min_le (idx : list Z) (m : Z) :
  index_min idx = Some m -> forall t, t ∈ idx -> m <= t.
Proof.
  destruct idx as [|t0 l]; [discriminate|]. intros [= <-] t Ht.
  destruct (foldr_min_le t0 l) as [H1 H2].
  apply elem_of_cons in Ht as [->|Ht]; auto.
Qed.

Lemma index_min_elem (idx : list Z) (m : Z) : index_min idx = Some m -> m ∈ idx.
Proof.
  destruct idx as [|t0 l]; [discriminate|]. intros [= <-]. apply foldr_min_elem.
Qed.

Lemma index_max_ge (idx : list Z) (m : Z) :
  index_max idx = Some m -> forall t, t ∈ idx -> t <= m.
Proof.
  destruct idx as [|t0 l]; [discriminate|]. intros [= <-] t Ht.
  destruct (foldr_max_ge t0 l) as [H1 H2].
  apply elem_of_cons in Ht as [->|Ht]; auto.
Qed.

Lemma index_max_elem (idx : list Z) (m : Z) : index_max idx = Some m -> m ∈ idx.
Proof.
  destruct idx as [|t0 l]; [discriminate|]. intros [= <-]. apply foldr_max_elem.
Qed.

(** ** Daily totals *)

Lemma loc_graph {A : Type} (f : Z -> A) (t : Z) (l : list Z) :
  loc t (map (fun x => (x, f x)) l) = if decide (t ∈ l) then Some (f t) else None.
Proof.
  induction l as [|y l IH]; simpl.
  - destruct (decide (t ∈ [])) as [H|_]; [inversion H | reflexivity].
  - destruct (Z.eqb_spec y t) as [->|Hne].
    + destruct (decide (t ∈ t :: l)) as [_|H]; [reflexivity|].
      exfalso. apply H. left.
    + rewrite IH. destruct (decide (t ∈ l)) as [H|H];
        destruct (decide (t ∈ y :: l)) as [H'|H']; try reflexivity.
      * exfalso. apply H'. right. exact H.
      * apply elem_of_cons in H' as [->|H']; [congruence | contradiction].
Qed.

Lemma timestamp_set_topupvalue_float (unittrans : list transaction) :
  map timestamp (set_topupvalue_float unittrans) = map timestamp unittrans.
Proof.
  unfold set_topupvalue_float. rewrite map_map. reflexivity.
Qed.

Lemma float_value_astype (v : pyvalue) :
  fillna0 (float_value (astype_float v)) =
  match v with PyInt w | PyFloat w => w | _ => 0 end.
Proof. destruct v; reflexivity. Qed.

Lemma fillna0_bin_sum (unittrans : list transaction) (t : Z) :
  fillna0 (bin_sum unittrans t) = foldr Z.add 0 (bin_values unittrans t).
Proof. unfold bin_sum. destruct (bin_values unittrans t); reflexivity. Qed.

(** On a midnight, the bin of the resampling holds the events of that
    calendar day. *)
Lemma bin_sum_total (unittrans : list transaction) (k : Z) :
  fillna0 (bin_sum (set_topupvalue_float unittrans) (day * k))
  = topup_total_on unittrans (day * k).
Proof.
  rewrite fillna0_bin_sum. unfold bin_values, topup_total_on.
  induction unittrans as [|e l IH]; [reflexivity|].
  cbn [set_topupvalue_float map omap list_omap]. fold (set_topupvalue_float l).
  cbn [timestamp topupvalue]. rewrite filter_cons.
  destruct (decide (dayofdatetime (timestamp e) false = day * k)) as [Hd|Hd].
  - apply dayofdatetime_bin in Hd as Hb.
    replace ((day * k <=? timestamp e) && (timestamp e <? day * k + day)) with true
      by (symmetry; apply andb_true_iff; split; [apply Z.leb_le | apply Z.ltb_lt]; lia).
    cbn [map foldr]. rewrite <- IH. unfold weeks.
    destruct (topupvalue e); cbn [astype_float float_value foldr]; lia.
  - replace ((day * k <=? timestamp e) && (timestamp e <? day * k + day)) with false.
    + exact IH.
    + symmetry. apply andb_false_iff.
      destruct (Z.leb_spec (day * k) (timestamp e)) as [H1|H1]; [|left; reflexivity].
      right. apply Z.ltb_ge.
      destruct (Z.le_gt_cases (day * k + day) (timestamp e)) as [H2|H2]; [exact H2|].
      exfalso. apply Hd. apply dayofdatetime_bin. lia.
Qed.

Lemma topup_total_on_none (unittrans : list transaction) (d : Z) :
  (forall e, e ∈ unittrans -> dayofdatetime (timestamp e) false <> d) ->
  topup_total_on unittrans d = 0.
Proof.
  intros H. unfold topup_total_on.
  induction unittrans as [|e l IH]; [reflexivity|].
  rewrite filter_cons. destruct (decide _) as [Hd|Hd].
  - exfalso. apply (H e); [left | exact Hd].
  - apply IH. intros e' He'. apply H. right. exact He'.
Qed.

(** Lines 143-159 put on each row of the axis the total top-up of its
    calendar day. *)
Lemma joined_total (unittrans : list transaction) (t : Z) :
  fillna0 (loc t (dailytotals unittrans)) = topup_total_on unittrans t.
Proof.
  unfold dailytotals, resample_d_sum. rewrite timestamp_set_topupvalue_float.
  destruct (index_min (map timestamp unittrans)) as [lo|] eqn:Elo.
  2:{ destruct unittrans; [reflexivity | discriminate]. }
  destruct (index_max (map timestamp unittrans)) as [hi|] eqn:Ehi.
  2:{ destruct unittrans; [reflexivity | discriminate]. }
  rewrite map_map. cbn [fst snd].
  rewrite (loc_graph (fun x => fillna0 (bin_sum (set_topupvalue_float unittrans) x))).
  destruct (decide _) as [Hin|Hout].
  - apply elem_of_date_range in Hin as (k & _ & -> & _).
    destruct (dayofdatetime_aligned lo) as [k0 ->].
    replace (day * k0 + day * k) with (day * (k0 + k)) by (unfold day; lia).
    apply bin_sum_total.
  - simpl. symmetry. apply topup_total_on_none. intros e He Hd.
    apply Hout. apply elem_of_date_range.
    assert (timestamp e ∈ map timestamp unittrans) as Hts
      by (apply list_elem_of_fmap; exists e; split; [reflexivity | exact He]).
    pose proof (index_min_le _ _ Elo _ Hts) as H1.
    pose proof (index_max_ge _ _ Ehi _ Hts) as H2.
    exists (timestamp e / day - lo / day). subst t.
    split; [|split]; day_arith.
Qed.

(** ** The loop *)

Lemma iterrows_cons (sel : Z -> bool) (r : row) (l : list row) (c : counters) :
  iterrows sel (r :: l) c =
  ((if sel (index r) then set_value r (loop_body r c).1 else r)
     :: (iterrows sel l (if sel (index r) then (loop_body r c).2 else c)).1,
   (iterrows sel l (if sel (index r) then (loop_body r c).2 else c)).2).
Proof.
  cbn [iterrows]. destruct (sel (index r)).
  - destruct (loop_body r c) as [v c']. cbn [fst snd].
    destruct (iterrows sel l c'); reflexivity.
  - destruct (iterrows sel l c); reflexivity.
Qed.

Lemma iterrows_app (sel : Z -> bool) (l1 l2 : list row) (c : counters) :
  iterrows sel (l1 ++ l2) c =
  ((iterrows sel l1 c).1 ++ (iterrows sel l2 (iterrows sel l1 c).2).1,
   (iterrows sel l2 (iterrows sel l1 c).2).2).
Proof.
  revert c. induction l1 as [|r l1 IH]; intros c.
  - cbn [app iterrows fst snd]. destruct (iterrows sel l2 c); reflexivity.
  - rewrite <- app_comm_cons, !iterrows_cons, IH. reflexivity.
Qed.

Lemma iterrows_index (sel : Z -> bool) (l : list row) (c : counters) :
  map index (iterrows sel l c).1 = map index l.
Proof.
  revert c. induction l as [|r l IH]; intros c; [reflexivity|].
  rewrite iterrows_cons. cbn [fst map]. rewrite IH.
  destruct (sel (index r)); reflexivity.
Qed.

Lemma loc_set_index (mask : Z -> bool) (v : cell) (l : list row) :
  map index (loc_set mask v l) = map index l.
Proof.
  unfold loc_set. rewrite map_map. apply map_ext.
  intros r. destruct (mask (index r)); reflexivity.
Qed.

(** Reading a label of a frame whose earlier rows carry other labels. *)
Lemma loc_rows_split (A B : list row) (r : row) :
  index r ∉ map index A ->
  loc (index r) (zip (map index (A ++ r :: B)) (map unitstatus (A ++ r :: B)))
  = Some (unitstatus r).
Proof.
  induction A as [|a A IH]; intros Hn; cbn.
  - rewrite Z.eqb_refl. reflexivity.
  - destruct (Z.eqb_spec (index a) (index r)) as [E|_].
    + exfalso. apply Hn. cbn. rewrite E. left.
    + apply IH. intros H. apply Hn. cbn. right. exact H.
Qed.

Lemma loc_rows_None (A : list row) (t : Z) :
  t ∉ map index A -> loc t (zip (map index A) (map unitstatus A)) = None.
Proof.
  induction A as [|a A IH]; intros Hn; cbn; [reflexivity|].
  destruct (Z.eqb_spec (index a) t) as [E|_].
  - exfalso. apply Hn. cbn. rewrite E. left.
  - apply IH. intros H. apply Hn. cbn. right. exact H.
Qed.

(** ** The frame of one unit, row by row *)

Lemma loop_bound_eq (unittrans : list transaction) (enddate : Z)
    (install : option Z) (df : list row) :
  (mark_stock_unlock unittrans enddate install df).2 = loop_bound unittrans enddate.
Proof.
  unfold loop_bound, mark_stock_unlock.
  destruct (unlock_rows unittrans); reflexivity.
Qed.

Lemma before_loop_rows (unittrans : list transaction) (startdate enddate : Z)
    (installdate : option Z) :
  before_loop unittrans startdate enddate installdate
  = map (day_row unittrans installdate) (date_range startdate enddate).
Proof.
  unfold before_loop, mark_stock_unlock, joined, day_row, loc_set.
  destruct (unlock_rows unittrans) as [|e l]; cbn [fst];
    rewrite !map_map; apply map_ext; intros t; cbn [index];
    rewrite joined_total.
  - destruct (lt_dt t _); reflexivity.
  - destruct (lt_dt t _); cbn [index set_value];
      destruct (dayofdatetime (timestamp e) false <=? t); reflexivity.
Qed.

Lemma dailyhistory_rows_eq (unittrans : list transaction) (startdate enddate : Z)
    (installdate : option Z) :
  dailyhistory_rows unittrans startdate enddate installdate
  = overwrite_unlocked unittrans
      (iterrows (visited unittrans enddate installdate)
                (before_loop unittrans startdate enddate installdate) counters0).1.
Proof.
  unfold dailyhistory_rows, before_loop, visited.
  rewrite <- (loop_bound_eq unittrans enddate
               (resolve_installdate unittrans installdate)
               (joined unittrans startdate enddate)).
  destruct (mark_stock_unlock _ _ _ _) as [df u]. cbn [fst snd].
  destruct (iterrows _ df counters0); reflexivity.
Qed.

Lemma status_rows (unittrans : list transaction) (startdate enddate : Z)
    (installdate : option Z) (t : Z) :
  status unittrans startdate enddate installdate t
  = loc t (zip (map index (dailyhistory_rows unittrans startdate enddate installdate))
               (map unitstatus (dailyhistory_rows unittrans startdate enddate installdate))).
Proof. reflexivity. Qed.

Lemma filter_all {A : Type} (P : A -> Prop) `{forall x, Decision (P x)} (l : list A) :
  (forall x, x ∈ l -> P x) -> filter P l = l.
Proof.
  induction l as [|a l IH]; intros Hall; [reflexivity|].
  rewrite filter_cons_True by (apply Hall; left).
  f_equal. apply IH. intros x Hx. apply Hall. right. exact Hx.
Qed.

Lemma filter_none {A : Type} (P : A -> Prop) `{forall x, Decision (P x)} (l : list A) :
  (forall x, x ∈ l -> ~ P x) -> filter P l = [].
Proof.
  induction l as [|a l IH]; intros Hall; [reflexivity|].
  rewrite filter_cons_False by (apply Hall; left).
  apply IH. intros x Hx. apply Hall. right. exact Hx.
Qed.

Lemma elem_of_map_day_row (unittrans : list transaction) (installdate : option Z)
    (r : row) (l : list Z) :
  r ∈ map (day_row unittrans installdate) l -> index r ∈ l.
Proof.
  intros (t & -> & Ht)%list_elem_of_fmap. exact Ht.
Qed.

(** The rows that precede day [t] of the axis. *)
Lemma rows_before (unittrans : list transaction) (startdate enddate : Z)
    (installdate : option Z) (t : Z) :
  t ∈ date_range startdate enddate ->
  filter (fun r => index r < t) (before_loop unittrans startdate enddate installdate)
  = map (day_row unittrans installdate) (date_range startdate (t - day)).
Proof.
  intros Ht. rewrite before_loop_rows, (date_range_split _ _ _ Ht).
  rewrite map_app, filter_app. cbn [map].
  rewrite (filter_all _ (map _ (date_range startdate (t - day)))).
  2:{ intros r (k & _ & Hr & Hle)%elem_of_map_day_row%elem_of_date_range.
      unfold day in *. lia. }
  rewrite filter_cons_False by (cbn; lia).
  rewrite filter_none; [apply app_nil_r|].
  intros r (k & Hk & Hr & _)%elem_of_map_day_row%elem_of_date_range.
  unfold day in *. lia.
Qed.

(** The rows up to and including day [t] of the axis. *)
Lemma rows_upto (unittrans : list transaction) (startdate enddate : Z)
    (installdate : option Z) (t : Z) :
  t ∈ date_range startdate enddate ->
  filter (fun r => index r < t + day)
         (before_loop unittrans startdate enddate installdate)
  = map (day_row unittrans installdate) (date_range startdate (t - day))
    ++ [day_row unittrans installdate t].
Proof.
  intros Ht. rewrite before_loop_rows, (date_range_split _ _ _ Ht).
  rewrite map_app, filter_app. cbn [map].
  rewrite (filter_all _ (map _ (date_range startdate (t - day)))).
  2:{ intros r (k & _ & Hr & Hle)%elem_of_map_day_row%elem_of_date_range.
      unfold day in *. lia. }
  rewrite filter_cons_True by (cbn; unfold day; lia).
  rewrite filter_none; [reflexivity|].
  intros r (k & Hk & Hr & _)%elem_of_map_day_row%elem_of_date_range.
  unfold day in *. lia.
Qed.

(** The counters at the first day of the axis, or at any earlier stamp. *)
Lemma counters_at_start (unittrans : list transaction) (startdate enddate : Z)
    (installdate : option Z) (t : Z) :
  t <= startdate ->
  counters_at unittrans startdate enddate installdate t = counters0.
Proof.
  intros Ht. unfold counters_at. rewrite filter_none; [reflexivity|].
  rewrite before_loop_rows.
  intros r (k & Hk & Hr & _)%elem_of_map_day_row%elem_of_date_range.
  unfold day in *. lia.
Qed.

(** One day of the walk: a day outside the mask leaves the counters as
    they are, a day inside runs the body once. *)
Lemma counters_at_next (unittrans : list transaction) (startdate enddate : Z)
    (installdate : option Z) (t : Z) :
  t ∈ date_range startdate enddate ->
  counters_at unittrans startdate enddate installdate (t + day)
  = if visited unittrans enddate installdate t
    then (loop_body (day_row unittrans installdate t)
                    (counters_at unittrans startdate enddate installdate t)).2
    else counters_at unittrans startdate enddate installdate t.
Proof.
  intros Ht. unfold counters_at.
  rewrite (rows_upto _ _ _ _ _ Ht), (rows_before _ _ _ _ _ Ht).
  rewrite iterrows_app. cbn [snd]. rewrite iterrows_cons. cbn [snd iterrows index day_row].
  reflexivity.
Qed.

Lemma loc_overwritten (mask : Z -> bool) (v : cell) (A B : list row) (r : row) (t : Z) :
  index r = t ->
  t ∉ map index A ->
  loc t (zip (map index (loc_set mask v (A ++ r :: B)))
             (map unitstatus (loc_set mask v (A ++ r :: B))))
  = Some (if mask t then v else unitstatus r).
Proof.
  intros <- Hn. unfold loc_set. rewrite map_app. cbn [map].
  replace (index r) with (index (if mask (index r) then set_value r v else r)) at 1
    by (destruct (mask (index r)); reflexivity).
  rewrite loc_rows_split.
  - destruct (mask (index r)); reflexivity.
  - fold (loc_set mask v A). rewrite loc_set_index.
    destruct (mask (index r)); exact Hn.
Qed.

(** The status returned for a day of the axis. *)
Lemma status_at (unittrans : list transaction) (startdate enddate : Z)
    (installdate : option Z) (t : Z) :
  t ∈ date_range startdate enddate ->
  status unittrans startdate enddate installdate t
  = Some (final_status unittrans enddate installdate t
            (counters_at unittrans startdate enddate installdate t)).
Proof.
  intros Ht. rewrite status_rows, dailyhistory_rows_eq.
  unfold counters_at. rewrite (rows_before _ _ _ _ _ Ht).
  rewrite before_loop_rows, (date_range_split _ _ _ Ht), map_app. cbn [map].
  rewrite iterrows_app. cbn [fst]. rewrite iterrows_cons. cbn [fst].
  unfold overwrite_unlocked. rewrite loc_overwritten.
  - unfold final_status. cbn [index day_row].
    destruct (ge_dt t _); [reflexivity|].
    destruct (visited _ _ _ t); reflexivity.
  - cbn [index day_row]. destruct (visited _ _ _ t); reflexivity.
  - rewrite iterrows_index, map_map. cbn [index day_row]. rewrite map_id.
    intros (k & _ & Hk & Hle)%elem_of_date_range. unfold day in *. lia.
Qed.

(** A stamp that is not a day of the axis has no row. *)
Lemma status_off_axis (unittrans : list transaction) (startdate enddate : Z)
    (installdate : option Z) (t : Z) :
  t ∉ date_range startdate enddate ->
  status unittrans startdate enddate installdate t = None.
Proof.
  intros Ht. rewrite status_rows. apply loc_rows_None.
  rewrite dailyhistory_rows_eq. unfold overwrite_unlocked.
  rewrite loc_set_index, iterrows_index, before_loop_rows, map_map.
  cbn [index day_row]. rewrite map_id. exact Ht.
Qed.

(** ** Facts used by several properties *)

Lemma loop_body_ooc_nonneg (r : row) (c : counters) :
  0 <= continuousdaysooc c -> 0 <= continuousdaysooc (loop_body r c).2.
Proof.
  intros H. unfold loop_body. destruct (0 <? _); cbn; lia.
Qed.

Lemma iterrows_ooc_nonneg (sel : Z -> bool) (l : list row) (c : counters) :
  0 <= continuousdaysooc c -> 0 <= continuousdaysooc (iterrows sel l c).2.
Proof.
  revert c. induction l as [|r l IH]; intros c Hc; [exact Hc|].
  rewrite iterrows_cons. cbn [snd]. apply IH.
  destruct (sel (index r)); [apply loop_body_ooc_nonneg|]; exact Hc.
Qed.

(** The streak counter is never negative. *)
Lemma counters_at_ooc_nonneg (unittrans : list transaction) (startdate enddate : Z)
    (installdate : option Z) (t : Z) :
  0 <= continuousdaysooc (counters_at unittrans startdate enddate installdate t).
Proof. apply iterrows_ooc_nonneg. cbn. lia. Qed.

Lemma status_on_axis (unittrans : list transaction) (startdate enddate : Z)
    (installdate : option Z) (t : Z) :
  is_Some (status unittrans startdate enddate installdate t) ->
  t ∈ date_range startdate enddate.
Proof.
  intros [c Hc]. destruct (decide (t ∈ date_range startdate enddate)) as [H|H]; [exact H|].
  rewrite status_off_axis in Hc by exact H. discriminate.
Qed.

Lemma next_day_on_axis (startdate enddate t : Z) :
  t ∈ date_range startdate enddate -> t + day <= enddate ->
  t + day ∈ date_range startdate enddate.
Proof.
  rewrite !elem_of_date_range. intros (k & Hk & -> & _) Hle.
  exists (k + 1). split; [lia|]. split; [unfold day; lia | exact Hle].
Qed.

Lemma axis_le_enddate (startdate enddate t : Z) :
  t ∈ date_range startdate enddate -> startdate <= t <= enddate.
Proof.
  rewrite elem_of_date_range. intros (k & Hk & -> & Hle). unfold day in *. lia.
Qed.

(** A day before the first unlock day is not overwritten at the end. *)
Lemma before_unlock_kept (unittrans : list transaction) (t : Z) :
  before_unlock unittrans t ->
  ge_dt t (index_min (map timestamp (unlock_rows unittrans))) = false.
Proof.
  unfold before_unlock, unlockDate.
  destruct (index_min _) as [m|]; [|reflexivity].
  intros H. cbn. apply Z.leb_gt. pose proof (dayofdatetime_le m). lia.
Qed.

(** A day of the range before the first unlock day is below the bound of
    the loop. *)
Lemma before_unlock_bound (unittrans : list transaction) (enddate t : Z) :
  before_unlock unittrans t -> t <= enddate ->
  (t <? loop_bound unittrans enddate) = true.
Proof.
  unfold before_unlock, unlockDate, loop_bound, mark_stock_unlock.
  intros H Hle. apply Z.ltb_lt.
  destruct (unlock_rows unittrans) as [|e0 l] eqn:E; cbn [snd].
  - unfold day. lia.
  - destruct (index_min (map timestamp (e0 :: l))) as [m|] eqn:Em; [|discriminate].
    assert (m <= timestamp e0) as Hm
      by (apply (index_min_le _ _ Em); left).
    apply dayofdatetime_mono in Hm. lia.
Qed.

Lemma ge_dt_mono (t t' : Z) (d : option Z) :
  ge_dt t d = true -> t <= t' -> ge_dt t' d = true.
Proof.
  destruct d as [x|]; cbn; [|discriminate].
  rewrite !Z.leb_le. lia.
Qed.

(** A number in the returned frame was written by the loop. *)
Lemma final_status_Num (unittrans : list transaction) (enddate : Z)
    (installdate : option Z) (t v : Z) (c : counters) :
  final_status unittrans enddate installdate t c = Num v ->
  visited unittrans enddate installdate t = true /\
  (loop_body (day_row unittrans installdate t) c).1 = Num v.
Proof.
  unfold final_status. destruct (ge_dt t (index_min _)); [discriminate|].
  destruct (visited _ _ _ t); [auto|].
  unfold day_row. cbn [unitstatus].
  destruct (unlock_rows unittrans) as [|e0 l];
    repeat (destruct (_ <=? _) || destruct (lt_dt _ _)); discriminate.
Qed.

(** The status of a day that the loop visits and that is not overwritten. *)
Lemma final_status_visited (unittrans : list transaction) (enddate : Z)
    (installdate : option Z) (t : Z) (c : counters) :
  ge_dt t (index_min (map timestamp (unlock_rows unittrans))) = false ->
  visited unittrans enddate installdate t = true ->
  final_status unittrans enddate installdate t c
  = (loop_body (day_row unittrans installdate t) c).1.
Proof. intros H1 H2. unfold final_status. rewrite H1, H2. reflexivity. Qed.

Lemma classify_CreditRemaining (c : cell) (n : Z) :
  classify c = CreditRemaining n -> c = Num n /\ 0 < n.
Proof.
  destruct c as [| | |v]; try discriminate. cbn.
  destruct (Z.ltb_spec 0 v); [|discriminate]. intros [= <-]. auto.
Qed.

Lemma classify_OutOfCredit (c : cell) (k : Z) :
  classify c = OutOfCredit k -> c = Num (- k) /\ 0 <= k.
Proof.
  destruct c as [| | |v]; try discriminate. cbn.
  destruct (Z.ltb_spec 0 v); [discriminate|]. intros [= <-].
  split; [f_equal|]; lia.
Qed.

(** The next day of the range, when it precedes the unlock day, is
    visited by the loop whenever the day itself is. *)
Lemma visited_next (unittrans : list transaction) (enddate : Z)
    (installdate : option Z) (t : Z) :
  visited unittrans enddate installdate t = true ->
  before_unlock unittrans (t + day) -> t + day <= enddate ->
  visited unittrans enddate installdate (t + day) = true.
Proof.
  unfold visited. intros [H1 _]%andb_true_iff Hu Hle.
  apply andb_true_iff. split.
  - apply (ge_dt_mono t); [exact H1 | unfold day; lia].
  - apply before_unlock_bound; assumption.
Qed.

(** ** The decrement law and the growth of the streak *)

(** C3 (decrement law).  If the status of day [d] is [CreditRemaining n],
    the next day [d + day] is still in the range, has a zero total top-up
    and lies strictly before the unlock day, then the status of the next
    day is [CreditRemaining (n - 1)] when [n - 1 > 0] and [OutOfCredit 0]
    when [n - 1 = 0]; one of the two cases always applies. *)
Theorem decrement_law (unittrans : list transaction) (startdate enddate : Z)
    (installdate : option Z) (d n : Z) :
  classify <$> status unittrans startdate enddate installdate d
    = Some (CreditRemaining n) ->
  d + day <= enddate ->
  topup_total_on unittrans (d + day) = 0 ->
  before_unlock unittrans (d + day) ->
  (0 < n - 1 ->
   classify <$> status unittrans startdate enddate installdate (d + day)
     = Some (CreditRemaining (n - 1))) /\
  (n - 1 = 0 ->
   classify <$> status unittrans startdate enddate installdate (d + day)
     = Some (OutOfCredit 0)) /\
  (0 < n - 1 \/ n - 1 = 0).
Proof.
  intros Hd Hle Htot Hu.
  assert (d ∈ date_range startdate enddate) as Hax.
  { apply (status_on_axis unittrans _ _ installdate).
    destruct (status _ _ _ _ d); [eauto | discriminate]. }
  rewrite (status_at _ _ _ _ _ Hax) in Hd. cbn in Hd.
  injection Hd as Hd. apply classify_CreditRemaining in Hd as [Hd Hn].
  apply final_status_Num in Hd as [Hv Hd].
  pose proof (counters_at_ooc_nonneg unittrans startdate enddate installdate d) as Hooc.
  pose proof (next_day_on_axis _ _ _ Hax Hle) as Hax'.
  rewrite (status_at _ _ _ _ _ Hax').
  rewrite final_status_visited
    by (auto using before_unlock_kept, visited_next).
  rewrite (counters_at_next _ _ _ _ _ Hax), Hv.
  revert Hd. unfold loop_body. cbn [dailytopuptotal day_row]. rewrite Htot.
  set (c := counters_at unittrans startdate enddate installdate d) in *.
  destruct (Z.ltb_spec 0 (dayscreditremaining c + topup_total_on unittrans d * 7))
    as [Hpos|Hneg]; cbn [fst snd dayscreditremaining continuousdaysooc].
  2:{ intros [= E]. lia. }
  intros [= E]. rewrite E.
  replace (n + -1 + 0 * 7) with (n - 1) by lia.
  split; [|split].
  - intros H. apply Z.ltb_lt in H as H'. rewrite H'. cbn. rewrite H'. reflexivity.
  - intros H. rewrite H. reflexivity.
  - lia.
Qed.

Lemma decrement_law_witness :
  classify <$> status [topup 3600 "u" 3 1] 0 (10 * day) None (0 + day)
    = Some (CreditRemaining (7 - 1)).
Proof.
  apply (decrement_law [topup 3600 "u" 3 1] 0 (10 * day) None 0 7).
  - reflexivity.
  - vm_compute. discriminate.
  - reflexivity.
  - exact I.
  - lia.
Defined.

(** C4 (streak growth).  If the status of day [d] is [OutOfCredit k], the
    next day [d + day] is still in the range, has a zero total top-up and
    lies strictly before the unlock day, then the status of the next day
    is [OutOfCredit (k + 1)]. *)
Theorem streak_growth (unittrans : list transaction) (startdate enddate : Z)
    (installdate : option Z) (d k : Z) :
  classify <$> status unittrans startdate enddate installdate d
    = Some (OutOfCredit k) ->
  d + day <= enddate ->
  topup_total_on unittrans (d + day) = 0 ->
  before_unlock unittrans (d + day) ->
  classify <$> status unittrans startdate enddate installdate (d + day)
    = Some (OutOfCredit (k + 1)).
Proof.
  intros Hd Hle Htot Hu.
  assert (d ∈ date_range startdate enddate) as Hax.
  { apply (status_on_axis unittrans _ _ installdate).
    destruct (status _ _ _ _ d); [eauto | discriminate]. }
  rewrite (status_at _ _ _ _ _ Hax) in Hd. cbn in Hd.
  injection Hd as Hd. apply classify_OutOfCredit in Hd as [Hd Hk].
  apply final_status_Num in Hd as [Hv Hd].
  pose proof (counters_at_ooc_nonneg unittrans startdate enddate installdate d) as Hooc.
  pose proof (next_day_on_axis _ _ _ Hax Hle) as Hax'.
  rewrite (status_at _ _ _ _ _ Hax').
  rewrite final_status_visited
    by (auto using before_unlock_kept, visited_next).
  rewrite (counters_at_next _ _ _ _ _ Hax), Hv.
  revert Hd. unfold loop_body. cbn [dailytopuptotal day_row]. rewrite Htot.
  set (c := counters_at unittrans startdate enddate installdate d) in *.
  destruct (Z.ltb_spec 0 (dayscreditremaining c + topup_total_on unittrans d * 7))
    as [Hpos|Hneg]; cbn [fst snd dayscreditremaining continuousdaysooc].
  { intros [= E]. lia. }
  intros [= E].
  replace (dayscreditremaining c + topup_total_on unittrans d * 7 + 0 * 7)
    with (dayscreditremaining c + topup_total_on unittrans d * 7) by lia.
  destruct (Z.ltb_spec 0 (dayscreditremaining c + topup_total_on unittrans d * 7));
    [lia|].
  cbn [fst fmap option_fmap option_map classify].
  destruct (Z.ltb_spec 0 (- (continuousdaysooc c + 1))); [lia|].
  do 2 f_equal. lia.
Qed.

Lemma streak_growth_witness :
  classify <$> status [topup 3600 "u" 3 1] 0 (10 * day) None (8 * day + day)
    = Some (OutOfCredit (1 + 1)).
Proof.
  apply (streak_growth [topup 3600 "u" 3 1] 0 (10 * day) None (8 * day) 1).
  - reflexivity.
  - vm_compute. discriminate.
  - reflexivity.
  - exact I.
Defined.

Lemma iterrows_unvisited (sel : Z -> bool) (l : list row) (c : counters) :
  (forall r, r ∈ l -> sel (index r) = false) -> iterrows sel l c = (l, c).
Proof.
  induction l as [|r l IH]; intros Hn; [reflexivity|].
  rewrite iterrows_cons, (Hn r) by left.
  rewrite IH by (intros r' Hr'; apply Hn; right; exact Hr'). reflexivity.
Qed.

(** The counters are untouched until the loop visits a first day. *)
Lemma counters_at_unvisited (unittrans : list transaction) (startdate enddate : Z)
    (installdate : option Z) (t : Z) :
  (forall t', t' < t -> visited unittrans enddate installdate t' = false) ->
  counters_at unittrans startdate enddate installdate t = counters0.
Proof.
  intros Hn. unfold counters_at. rewrite iterrows_unvisited; [reflexivity|].
  intros r [Hlt _]%list_elem_of_filter. apply Hn. exact Hlt.
Qed.

(** ** One week of credit *)

Lemma dayofdatetime_day_0 (ts : Z) : 0 <= ts < day -> dayofdatetime ts false = 0.
Proof. intros H. day_arith. Qed.

Section OneWeek.

Variables (startdate enddate ts code : Z) (u : string) (v : pyvalue)
          (installdate : option Z).

Hypothesis start_aligned : exists k, 0 <= k /\ startdate = - (day * k).
Hypothesis end_late : 9 * day <= enddate.
Hypothesis on_day_0 : 0 <= ts < day.
Hypothesis not_unlock : code <> 5.
Hypothesis one_week : v = PyInt 1 \/ v = PyFloat 1.
Hypothesis installed_day_0 : installdate = None \/ installdate = Some 0.

Local Lemma week_install : resolve_installdate (single_event ts u code v) installdate = Some 0.
Proof.
  destruct installed_day_0 as [-> | ->]; [|reflexivity].
  unfold resolve_installdate, dailytotals, resample_d_sum, single_event.
  rewrite timestamp_set_topupvalue_float.
  cbn [map index_min index_max foldr timestamp].
  rewrite (dayofdatetime_day_0 ts on_day_0). reflexivity.
Qed.

Local Lemma week_no_unlock : unlock_rows (single_event ts u code v) = [].
Proof.
  unfold unlock_rows, single_event. rewrite filter_cons_False; [reflexivity|].
  cbn. exact not_unlock.
Qed.

Local Lemma week_axis (k : Z) :
  0 <= k <= 9 -> day * k ∈ date_range startdate enddate.
Proof.
  intros Hk. destruct start_aligned as (m & Hm & ->).
  apply elem_of_date_range. exists (k + m).
  unfold day in *. lia.
Qed.

Local Lemma week_visited (k : Z) :
  0 <= k <= 9 -> visited (single_event ts u code v) enddate installdate (day * k) = true.
Proof.
  intros Hk. unfold visited, loop_bound, mark_stock_unlock.
  rewrite week_install, week_no_unlock. cbn [ge_dt snd].
  apply andb_true_iff. split; [apply Z.leb_le | apply Z.ltb_lt];
    unfold day in *; lia.
Qed.

Local Lemma week_kept (t : Z) :
  ge_dt t (index_min (map timestamp (unlock_rows (single_event ts u code v)))) = false.
Proof. rewrite week_no_unlock. reflexivity. Qed.

Local Lemma week_total (k : Z) :
  topup_total_on (single_event ts u code v) (day * k) = if k =? 0 then 1 else 0.
Proof.
  unfold topup_total_on, single_event.
  pose proof (dayofdatetime_day_0 ts on_day_0) as E.
  destruct (Z.eqb_spec k 0) as [-> | Hk].
  - rewrite filter_cons_True by (cbn [timestamp]; rewrite E; reflexivity).
    unfold weeks. cbn. destruct one_week as [-> | ->]; reflexivity.
  - rewrite filter_cons_False; [reflexivity|].
    cbn [timestamp]. rewrite E. unfold day. lia.
Qed.

Local Lemma week_counters_0 :
  counters_at (single_event ts u code v) startdate enddate installdate (day * 0) = counters0.
Proof.
  apply counters_at_unvisited. intros t Ht. unfold visited.
  rewrite week_install. cbn [ge_dt].
  replace (0 <=? t) with false by (symmetry; apply Z.leb_gt; unfold day in *; lia).
  reflexivity.
Qed.

(** One day of the scenario: its status and the counters left for the
    following day. *)
Local Lemma week_step (k : Z) (c : counters) :
  0 <= k <= 9 ->
  counters_at (single_event ts u code v) startdate enddate installdate (day * k) = c ->
  let today :=
    loop_body {| index := day * k;
                 dailytopuptotal := if k =? 0 then 1 else 0;
                 unitstatus := NaN |} c in
  status (single_event ts u code v) startdate enddate installdate (day * k) = Some today.1 /\
  counters_at (single_event ts u code v) startdate enddate installdate (day * (k + 1)) = today.2.
Proof.
  intros Hk Hc today.
  assert (loop_body (day_row (single_event ts u code v) installdate (day * k)) c = today) as Hb.
  { unfold today, loop_body. cbn [dailytopuptotal day_row].
    rewrite week_total. reflexivity. }
  split.
  - rewrite (status_at _ _ _ _ _ (week_axis k Hk)).
    rewrite final_status_visited by auto using week_kept, week_visited.
    rewrite Hc, Hb. reflexivity.
  - replace (day * (k + 1)) with (day * k + day) by (unfold day; lia).
    rewrite (counters_at_next _ _ _ _ _ (week_axis k Hk)).
    rewrite week_visited by exact Hk. rewrite Hc, Hb. reflexivity.
Qed.

(** C2 (one week of credit).  A unit installed on day 0 whose only
    event is a top-up of one week on day 0, with no unlock and a range
    that reaches day 9, shows 7, 6, 5, 4, 3, 2, 1 on days 0 to 6, then
    0, -1 and -2 on days 7, 8 and 9: [CreditRemaining 7] down to
    [CreditRemaining 1], then [OutOfCredit 0], [OutOfCredit 1] and
    [OutOfCredit 2]. *)
Theorem one_week_scenario :
  map (fun k => status (single_event ts u code v) startdate enddate installdate (day * k))
      [0; 1; 2; 3; 4; 5; 6; 7; 8; 9]
  = map Some [Num 7; Num 6; Num 5; Num 4; Num 3; Num 2; Num 1;
              Num 0; Num (-1); Num (-2)]
  /\
  map (fun k => classify <$> status (single_event ts u code v) startdate enddate
                                     installdate (day * k))
      [0; 1; 2; 3; 4; 5; 6; 7; 8; 9]
  = map Some [CreditRemaining 7; CreditRemaining 6; CreditRemaining 5;
              CreditRemaining 4; CreditRemaining 3; CreditRemaining 2;
              CreditRemaining 1; OutOfCredit 0; OutOfCredit 1; OutOfCredit 2].
Proof.
  destruct (week_step 0 _ ltac:(lia) week_counters_0) as [S0 C1].
  destruct (week_step 1 _ ltac:(lia) C1) as [S1 C2].
  destruct (week_step 2 _ ltac:(lia) C2) as [S2 C3].
  destruct (week_step 3 _ ltac:(lia) C3) as [S3 C4].
  destruct (week_step 4 _ ltac:(lia) C4) as [S4 C5].
  destruct (week_step 5 _ ltac:(lia) C5) as [S5 C6].
  destruct (week_step 6 _ ltac:(lia) C6) as [S6 C7].
  destruct (week_step 7 _ ltac:(lia) C7) as [S7 C8].
  destruct (week_step 8 _ ltac:(lia) C8) as [S8 C9].
  destruct (week_step 9 _ ltac:(lia) C9) as [S9 _].
  cbn [map]. rewrite S0, S1, S2, S3, S4, S5, S6, S7, S8, S9.
  split; reflexivity.
Qed.

End OneWeek.

Lemma one_week_scenario_witness :
  map (fun k => status (single_event 3600 "u" 3 (PyInt 1)) 0 (9 * day) None (day * k))
      [0; 1; 2; 3; 4; 5; 6; 7; 8; 9]
  = map Some [Num 7; Num 6; Num 5; Num 4; Num 3; Num 2; Num 1;
              Num 0; Num (-1); Num (-2)].
Proof.
  apply (one_week_scenario 0 (9 * day) 3600 3 "u" (PyInt 1) None).
  - exists 0. split; [lia | reflexivity].
  - lia.
  - unfold day. lia.
  - discriminate.
  - left. reflexivity.
  - left. reflexivity.
Defined.

(** ** Unlocked days *)

Lemma index_min_unlock_row (unittrans : list transaction) (m : Z) :
  index_min (map timestamp (unlock_rows unittrans)) = Some m ->
  exists e, e ∈ unlock_rows unittrans /\ timestamp e = m.
Proof.
  intros (e & -> & He)%index_min_elem%list_elem_of_fmap. eauto.
Qed.

(** Every day from the day of the first unlock row of the frame on is
    ['U']. *)
Lemma unlocked_from_first_row (unittrans rest : list transaction) (e0 : transaction)
    (startdate enddate : Z) (installdate : option Z) (d : Z) :
  unlock_rows unittrans = e0 :: rest ->
  d ∈ date_range startdate enddate ->
  dayofdatetime (timestamp e0) false <= d ->
  status unittrans startdate enddate installdate d = Some Str_U.
Proof.
  intros E Hax Hd. rewrite (status_at _ _ _ _ _ Hax). f_equal.
  unfold final_status. destruct (ge_dt d (index_min _)); [reflexivity|].
  unfold visited, loop_bound, mark_stock_unlock, day_row. rewrite E. cbn [snd unitstatus].
  apply Z.leb_le in Hd as Hd'. rewrite Hd'.
  replace (d <? dayofdatetime (timestamp e0) false) with false
    by (symmetry; apply Z.ltb_ge; exact Hd).
  rewrite andb_false_r. reflexivity.
Qed.

(** When the first unlock row of the frame is also the earliest one, as
    in a log kept in time order, every day from [unlockDate] on is
    ['U']. *)
Lemma unlocked_from_unlockDate_in_order (unittrans rest : list transaction)
    (e0 : transaction) (startdate enddate : Z) (installdate : option Z) (d u : Z) :
  unlock_rows unittrans = e0 :: rest ->
  (forall e, e ∈ rest -> timestamp e0 <= timestamp e) ->
  unlockDate unittrans = Some u ->
  d ∈ date_range startdate enddate ->
  u <= d ->
  classify <$> status unittrans startdate enddate installdate d = Some Unlocked.
Proof.
  intros E Hord Hu Hax Hd.
  rewrite (unlocked_from_first_row _ _ _ _ _ _ _ E Hax); [reflexivity|].
  revert Hu. unfold unlockDate. rewrite E.
  destruct (index_min (map timestamp (e0 :: rest))) as [m|] eqn:Em; [|discriminate].
  intros [= <-].
  assert (timestamp e0 <= m) as Hm.
  { apply index_min_elem in Em. cbn [map] in Em.
    apply elem_of_cons in Em as [-> | (e & -> & He)%list_elem_of_fmap]; [lia|].
    apply Hord. exact He. }
  apply dayofdatetime_mono in Hm. clear - Hm Hd. day_arith.
Qed.

(** C1 (unlock override), on a log that is not in time order.  The unit
    has two unlock rows, the one of day 10 listed before the one of day 5
    at noon, so [unlockDate] is day 5; yet day 5 is returned out of
    credit, not unlocked, and so is it in the column of the table. *)
Theorem unlock_override_out_of_order :
  let unittrans := [unlock (10 * day) "u"; unlock (5 * day + 43200) "u"] in
  unlockDate unittrans = Some (5 * day) /\
  5 * day ∈ date_range (5 * day) (11 * day) /\
  status unittrans (5 * day) (11 * day) None (5 * day) = Some (Num 0) /\
  classify <$> status unittrans (5 * day) (11 * day) None (5 * day)
    = Some (OutOfCredit 0) /\
  unithistorytable unittrans
    = Some {| df_index := date_range (5 * day) (11 * day);
              df_columns :=
                [("u"%string, [Num 0; Str_U; Str_U; Str_U; Str_U; Str_U; Str_U])] |}.
Proof.
  cbv zeta. split; [reflexivity|]. split; [|split; [|split]]; try reflexivity.
  apply elem_of_date_range. exists 0. unfold day. lia.
Qed.

(** ** Stock days *)

(** Without an explicit [installdate], the install date is the calendar
    day of the earliest event. *)
Lemma default_installdate (unittrans : list transaction) (lo : Z) :
  index_min (map timestamp unittrans) = Some lo ->
  resolve_installdate unittrans None = Some (dayofdatetime lo false).
Proof.
  intros Elo. unfold resolve_installdate, dailytotals, resample_d_sum.
  rewrite timestamp_set_topupvalue_float, Elo.
  destruct (index_max (map timestamp unittrans)) as [hi|] eqn:Ehi.
  2:{ destruct unittrans; discriminate. }
  rewrite !map_map. cbn [fst]. rewrite map_id.
  assert (lo <= hi) as Hle.
  { apply (index_max_ge _ _ Ehi). apply (index_min_elem _ _ Elo). }
  apply dayofdatetime_mono in Hle.
  rewrite date_range_cons by exact Hle. cbn [index_min]. f_equal.
  destruct (foldr_min_le (dayofdatetime lo false)
              (date_range (dayofdatetime lo false + day) (dayofdatetime hi false)))
    as [H1 H2].
  pose proof (foldr_min_elem (dayofdatetime lo false)
                (date_range (dayofdatetime lo false + day) (dayofdatetime hi false))) as H3.
  apply elem_of_cons in H3 as [H3 | (k & Hk & H3 & _)%elem_of_date_range]; [exact H3|].
  unfold day in *. lia.
Qed.

Lemma default_installdate_empty : resolve_installdate [] None = None.
Proof. reflexivity. Qed.

(** C5, as the code has it.  A day of the range strictly before the
    install date is ['S'] provided it is also strictly before the day of
    every unlock row; this covers an install date given explicitly, even
    after the first event.  With the default install date, which is the
    calendar day of the earliest event, the proviso always holds. *)
Theorem stock_before_install (unittrans : list transaction) (startdate enddate : Z)
    (installdate : option Z) (d inst : Z) :
  d ∈ date_range startdate enddate ->
  resolve_installdate unittrans installdate = Some inst ->
  d < inst ->
  installdate = None \/
    (forall e, e ∈ unlock_rows unittrans -> d < dayofdatetime (timestamp e) false) ->
  classify <$> status unittrans startdate enddate installdate d = Some Stock /\
  (installdate = None ->
   exists lo, index_min (map timestamp unittrans) = Some lo /\
              (forall e, e ∈ unittrans -> lo <= timestamp e) /\
              inst = dayofdatetime lo false).
Proof.
  intros Hax Hinst Hd Hside.
  assert (installdate = None ->
          exists lo, index_min (map timestamp unittrans) = Some lo /\
                     (forall e, e ∈ unittrans -> lo <= timestamp e) /\
                     inst = dayofdatetime lo false) as Hdefault.
  { intros ->. destruct (index_min (map timestamp unittrans)) as [lo|] eqn:Elo.
    - exists lo. split; [reflexivity|]. split.
      + intros e He. apply (index_min_le _ _ Elo).
        apply list_elem_of_fmap. eauto.
      + rewrite (default_installdate _ _ Elo) in Hinst. congruence.
    - destruct unittrans; [|discriminate]. discriminate. }
  split; [|exact Hdefault].
  assert (forall e, e ∈ unlock_rows unittrans -> d < dayofdatetime (timestamp e) false)
    as Hunl.
  { destruct Hside as [Hnone | H]; [|exact H].
    destruct (Hdefault Hnone) as (lo & _ & Hlo & ->).
    intros e [_ He]%list_elem_of_filter.
    pose proof (dayofdatetime_mono _ _ (Hlo e He)). lia. }
  rewrite (status_at _ _ _ _ _ Hax). cbn. f_equal.
  unfold final_status, visited, day_row. rewrite Hinst. cbn [ge_dt lt_dt unitstatus].
  replace (inst <=? d) with false by (symmetry; apply Z.leb_gt; exact Hd).
  replace (d <? inst) with true by (symmetry; apply Z.ltb_lt; exact Hd).
  cbn [andb].
  destruct (index_min (map timestamp (unlock_rows unittrans))) as [m|] eqn:Em.
  - destruct (index_min_unlock_row _ _ Em) as (e & He & <-).
    pose proof (Hunl e He). pose proof (dayofdatetime_le (timestamp e)).
    cbn [ge_dt]. replace (timestamp e <=? d) with false by (symmetry; apply Z.leb_gt; lia).
    destruct (unlock_rows unittrans) as [|e0 l] eqn:E; [reflexivity|].
    replace (dayofdatetime (timestamp e0) false <=? d) with false; [reflexivity|].
    symmetry. apply Z.leb_gt. apply Hunl. left.
  - destruct (unlock_rows unittrans) as [|e0 l]; [reflexivity | discriminate].
Qed.

Lemma stock_before_install_witness :
  classify <$> status [topup (2 * day + 60) "u" 3 1] 0 (4 * day) None day = Some Stock.
Proof.
  apply (stock_before_install [topup (2 * day + 60) "u" 3 1] 0 (4 * day) None day (2 * day)).
  - apply elem_of_date_range. exists 1. unfold day. lia.
  - reflexivity.
  - unfold day. lia.
  - left. reflexivity.
Defined.

(** A day before the install date that is not stock: the only event is an
    unlock on day 0 and the install date is given as day 3; day 1 is before
    the install date and is returned unlocked. *)
Lemma stock_before_install_counterexample :
  let unittrans := [unlock 0 "u"] in
  let installdate := Some (3 * day) in
  day ∈ date_range 0 (4 * day) /\
  resolve_installdate unittrans installdate = Some (3 * day) /\
  day < 3 * day /\
  classify <$> status unittrans 0 (4 * day) installdate day = Some Unlocked /\
  classify <$> status unittrans 0 (4 * day) installdate day <> Some Stock.
Proof.
  cbv zeta. split; [|split; [|split; [|split]]]; try reflexivity; try discriminate.
  apply elem_of_date_range. exists 1. unfold day. lia.
Qed.

(** ** A unit without events *)

(** C7, as the code has it.  On an empty frame the call returns a row
    for every day of the range.  Without an explicit [installdate] the
    install date is [NaT]: no day compares before it, none is visited by
    the loop, and every status is left unassigned.  With an explicit
    [installdate] the days strictly before it are ['S']. *)
Theorem empty_unit_history (startdate enddate : Z) (installdate : option Z) (d : Z) :
  d ∈ date_range startdate enddate ->
  (installdate = None ->
   classify <$> status [] startdate enddate installdate d = Some Absent) /\
  (forall inst, installdate = Some inst -> d < inst ->
   classify <$> status [] startdate enddate installdate d = Some Stock).
Proof.
  intros Hax. rewrite (status_at _ _ _ _ _ Hax). split.
  - intros ->. reflexivity.
  - intros inst -> Hd. cbn. f_equal.
    unfold final_status, visited, day_row. cbn.
    replace (inst <=? d) with false by (symmetry; apply Z.leb_gt; exact Hd).
    replace (d <? inst) with true by (symmetry; apply Z.ltb_lt; exact Hd).
    reflexivity.
Qed.

Lemma empty_unit_history_witness :
  classify <$> status [] 0 (4 * day) None day = Some Absent.
Proof.
  apply (empty_unit_history 0 (4 * day) None day).
  - apply elem_of_date_range. exists 1. unfold day. lia.
  - reflexivity.
Defined.

(** On the default call for a unit without events no day of the range is
    marked as stock. *)
Lemma empty_unit_history_counterexample :
  0 ∈ date_range 0 (4 * day) /\
  status [] 0 (4 * day) None 0 = Some NaN /\
  classify <$> status [] 0 (4 * day) None 0 <> Some Stock.
Proof.
  split; [|split]; [|reflexivity|discriminate].
  apply elem_of_date_range. exists 0. unfold day. lia.
Qed.

(** ** The credit counter *)

Lemma loop_body_credit_nonneg (r : row) (c : counters) :
  0 <= dailytopuptotal r -> 0 <= dayscreditremaining c ->
  0 <= dayscreditremaining (loop_body r c).2.
Proof.
  intros Hr Hc. unfold loop_body.
  destruct (Z.ltb_spec 0 (dayscreditremaining c + dailytopuptotal r * 7)); cbn; lia.
Qed.

Lemma iterrows_credit_nonneg (sel : Z -> bool) (l : list row) (c : counters) :
  (forall r, r ∈ l -> 0 <= dailytopuptotal r) ->
  0 <= dayscreditremaining c ->
  0 <= dayscreditremaining (iterrows sel l c).2.
Proof.
  revert c. induction l as [|r l IH]; intros c Hl Hc; [exact Hc|].
  rewrite iterrows_cons. cbn [snd]. apply IH.
  - intros r' Hr'. apply Hl. right. exact Hr'.
  - destruct (sel (index r)); [|exact Hc].
    apply loop_body_credit_nonneg; [apply Hl; left | exact Hc].
Qed.

Lemma counters_at_credit_nonneg (unittrans : list transaction) (startdate enddate : Z)
    (installdate : option Z) (t : Z) :
  (forall t', t' ∈ date_range startdate enddate -> 0 <= topup_total_on unittrans t') ->
  0 <= dayscreditremaining (counters_at unittrans startdate enddate installdate t).
Proof.
  intros Hnn. unfold counters_at. apply iterrows_credit_nonneg; [|cbn; lia].
  intros r [_ Hr]%list_elem_of_filter. rewrite before_loop_rows in Hr.
  apply list_elem_of_fmap in Hr as (t' & -> & Ht'). cbn. apply Hnn. exact Ht'.
Qed.

Lemma topup_total_nonneg (unittrans : list transaction) (t : Z) :
  Forall (fun e => 0 <= weeks e) unittrans -> 0 <= topup_total_on unittrans t.
Proof.
  intros Hall. unfold topup_total_on.
  induction Hall as [|e l He Hl IH]; [cbn; lia|].
  rewrite filter_cons. destruct (decide _); [|exact IH].
  cbn [map foldr]. lia.
Qed.

(** No debt, in whole weeks.  If the total top-up of every day of the range
    is non-negative, the credit counter is never negative when the loop
    reaches a day; a day returned out of credit leaves the counter at
    exactly 0; so a top-up of [w] weeks on the day after a day out of
    credit, before the unlock day, gives exactly [CreditRemaining (7 * w)]
    on that day. *)
Theorem credit_never_negative (unittrans : list transaction) (startdate enddate : Z)
    (installdate : option Z) :
  (forall t, t ∈ date_range startdate enddate -> 0 <= topup_total_on unittrans t) ->
  (forall t,
     0 <= dayscreditremaining (counters_at unittrans startdate enddate installdate t)) /\
  (forall d k,
     classify <$> status unittrans startdate enddate installdate d
       = Some (OutOfCredit k) ->
     dayscreditremaining (counters_at unittrans startdate enddate installdate (d + day))
       = 0) /\
  (forall d k w,
     classify <$> status unittrans startdate enddate installdate d
       = Some (OutOfCredit k) ->
     d + day <= enddate ->
     before_unlock unittrans (d + day) ->
     topup_total_on unittrans (d + day) = w ->
     0 < w ->
     classify <$> status unittrans startdate enddate installdate (d + day)
       = Some (CreditRemaining (7 * w))).
Proof.
  intros Hnn.
  assert (forall d k,
     classify <$> status unittrans startdate enddate installdate d
       = Some (OutOfCredit k) ->
     d ∈ date_range startdate enddate /\
     visited unittrans enddate installdate d = true /\
     dayscreditremaining (counters_at unittrans startdate enddate installdate (d + day))
       = 0) as Hzero.
  { intros d k Hd.
    assert (d ∈ date_range startdate enddate) as Hax.
    { apply (status_on_axis unittrans _ _ installdate).
      destruct (status _ _ _ _ d); [eauto | discriminate]. }
    rewrite (status_at _ _ _ _ _ Hax) in Hd. cbn in Hd.
    injection Hd as Hd. apply classify_OutOfCredit in Hd as [Hd Hk].
    apply final_status_Num in Hd as [Hv Hd].
    split; [exact Hax|]. split; [exact Hv|].
    rewrite (counters_at_next _ _ _ _ _ Hax), Hv.
    pose proof (counters_at_credit_nonneg unittrans startdate enddate installdate d Hnn)
      as Hc.
    pose proof (Hnn d Hax) as Ht.
    revert Hd. unfold loop_body. cbn [dailytopuptotal day_row].
    set (c := counters_at unittrans startdate enddate installdate d) in *.
    destruct (Z.ltb_spec 0 (dayscreditremaining c + topup_total_on unittrans d * 7));
      cbn [fst snd dayscreditremaining]; intros [= E]; lia. }
  split; [|split].
  - intros t. apply counters_at_credit_nonneg. exact Hnn.
  - intros d k Hd. apply (Hzero d k Hd).
  - intros d k w Hd Hle Hu Hw Hpos.
    destruct (Hzero d k Hd) as (Hax & Hv & Hc).
    pose proof (next_day_on_axis _ _ _ Hax Hle) as Hax'.
    rewrite (status_at _ _ _ _ _ Hax').
    rewrite final_status_visited
      by (auto using before_unlock_kept, visited_next).
    unfold loop_body. cbn [dailytopuptotal day_row]. rewrite Hc, Hw.
    replace (0 <? 0 + w * 7) with true by (symmetry; apply Z.ltb_lt; lia).
    cbn [fst fmap option_fmap option_map classify].
    replace (0 <? 0 + w * 7) with true by (symmetry; apply Z.ltb_lt; lia).
    do 2 f_equal. lia.
Qed.

Lemma credit_never_negative_witness :
  classify <$> status [topup 3600 "u" 3 1; topup (9 * day + 5) "u" 4 4]
                      0 (10 * day) None (8 * day + day)
    = Some (CreditRemaining (7 * 4)).
Proof.
  refine (proj2 (proj2 (credit_never_negative
                          [topup 3600 "u" 3 1; topup (9 * day + 5) "u" 4 4]
                          0 (10 * day) None _)) (8 * day) 1 4 _ _ _ _ _).
  - intros t _. apply topup_total_nonneg. repeat constructor; cbn; lia.
  - reflexivity.
  - vm_compute. discriminate.
  - exact I.
  - reflexivity.
  - lia.
Defined.

(** ** The returned frame *)

Lemma dailyhistory_index (unittrans : list transaction) (startdate enddate : Z)
    (installdate : option Z) :
  map index (dailyhistory_rows unittrans startdate enddate installdate)
  = date_range startdate enddate.
Proof.
  rewrite dailyhistory_rows_eq. unfold overwrite_unlocked.
  rewrite loc_set_index, iterrows_index, before_loop_rows, map_map.
  cbn [index day_row]. apply map_id.
Qed.

(** A column aligned on its own index is itself. *)
Lemma reindex_rows (A rows : list row) :
  NoDup (map index (A ++ rows)) ->
  map (fun t => default NaN (loc t (zip (map index (A ++ rows))
                                        (map unitstatus (A ++ rows)))))
      (map index rows)
  = map unitstatus rows.
Proof.
  revert A. induction rows as [|r rows IH]; intros A Hnd; [reflexivity|].
  cbn [map]. f_equal.
  - rewrite loc_rows_split; [reflexivity|].
    rewrite map_app in Hnd. cbn [map] in Hnd.
    apply NoDup_app in Hnd as (_ & Hdisj & _).
    intros Hin. apply (Hdisj _ Hin). left.
  - specialize (IH (A ++ [r])). rewrite <- !app_assoc in IH. apply IH. exact Hnd.
Qed.

Lemma reindex_same (rows : list row) :
  NoDup (map index rows) ->
  reindex (map index rows) (map index rows) (map unitstatus rows) = map unitstatus rows.
Proof. intros Hnd. apply (reindex_rows [] rows). exact Hnd. Qed.

(** ** Merging one history into the table *)

(** The history of a unit, joined under the name of the unit into a
    table on the same axis that has no such column yet. *)
Lemma join_unit_history (table : DataFrame) (unitID : string)
    (unittrans : list transaction) (startdate enddate : Z) :
  df_index table = date_range startdate enddate ->
  unitID ∉ (df_columns table).*1 ->
  join_left table
    (rename_column "unitstatus" unitID
       (unitdailystatus unittrans startdate enddate None false).2)
  = Some {| df_index := df_index table;
            df_columns := df_columns table ++
              [(unitID, map unitstatus
                          (dailyhistory_rows unittrans startdate enddate None))] |}.
Proof.
  intros Hidx Hfresh. unfold join_left, rename_column, unitdailystatus.
  cbn [snd df_index df_columns app map fst].
  destruct (decide ("unitstatus"%string = "unitstatus"%string)); [|congruence].
  rewrite decide_True by (repeat constructor; exact Hfresh).
  do 3 f_equal. rewrite Hidx.
  rewrite <- (dailyhistory_index unittrans startdate enddate None).
  rewrite reindex_same; [reflexivity|].
  rewrite dailyhistory_index. apply NoDup_date_range.
Qed.

Lemma column_app_fresh (name : string) (cols new : list (string * list cell)) :
  name ∉ new.*1 -> column name (cols ++ new) = column name cols.
Proof.
  intros Hn. induction cols as [|[n c] cols IH]; cbn.
  - induction new as [|[n c] new IH]; [reflexivity|]. cbn.
    rewrite decide_False.
    + apply IH. intros H. apply Hn. right. exact H.
    + intros ->. apply Hn. left.
  - destruct (decide (n = name)); [reflexivity | exact IH].
Qed.

Lemma column_app_new (name : string) (c : list cell) (cols : list (string * list cell)) :
  name ∉ cols.*1 -> column name (cols ++ [(name, c)]) = Some c.
Proof.
  intros Hn. induction cols as [|[n c'] cols IH]; cbn.
  - rewrite decide_True by reflexivity. reflexivity.
  - rewrite decide_False.
    + apply IH. intros H. apply Hn. right. exact H.
    + intros ->. apply Hn. left.
Qed.

(** ** The loop over the units *)

Lemma merge_units_columns (groups : list (string * list transaction))
    (startdate enddate : Z) (table : DataFrame) :
  NoDup groups.*1 ->
  (forall u, u ∈ groups.*1 -> u ∉ (df_columns table).*1) ->
  (forall g, g ∈ groups -> g.2 <> []) ->
  df_index table = date_range startdate enddate ->
  merge_units groups startdate enddate table
  = Some {| df_index := date_range startdate enddate;
            df_columns := df_columns table ++
              map (fun g => (g.1, map unitstatus
                                      (dailyhistory_rows g.2 startdate enddate None)))
                  groups |}.
Proof.
  revert table. induction groups as [|[u ut] groups IH]; intros table Hnd Hfresh Hne Hidx.
  - cbn. rewrite app_nil_r, <- Hidx. destruct table; reflexivity.
  - cbn [merge_units].
    assert (ut <> []) as Hut by (apply (Hne (u, ut)); left).
    replace (0 <? length ut)%nat with true
      by (symmetry; apply Nat.ltb_lt; destruct ut; [congruence | cbn; lia]).
    rewrite (join_unit_history table u ut startdate enddate Hidx)
      by (apply Hfresh; left).
    apply NoDup_cons in Hnd as [Hu Hnd].
    rewrite IH.
    + cbn [df_columns map fst snd]. rewrite <- app_assoc. reflexivity.
    + exact Hnd.
    + intros u' Hu'. cbn [df_columns]. rewrite fmap_app. cbn.
      intros [H | H]%elem_of_app.
      * apply (Hfresh u'); [right; exact Hu' | exact H].
      * apply list_elem_of_singleton in H. subst u'. contradiction.
    + intros g Hg. apply Hne. right. exact Hg.
    + cbn [df_index]. exact Hidx.
Qed.

Lemma groupby_keys (translog : list transaction) :
  (groupby_unit_id translog).*1
  = merge_sort String.le (remove_dups (map unit_id translog)).
Proof.
  unfold groupby_unit_id. rewrite <- list_fmap_compose. apply list_fmap_id.
Qed.

Lemma elem_of_groupby_keys (translog : list transaction) (u : string) :
  u ∈ (groupby_unit_id translog).*1 <-> u ∈ map unit_id translog.
Proof.
  rewrite groupby_keys, merge_sort_Permutation. apply elem_of_remove_dups.
Qed.

Lemma NoDup_groupby_keys (translog : list transaction) :
  NoDup (groupby_unit_id translog).*1.
Proof.
  rewrite groupby_keys, merge_sort_Permutation. apply NoDup_remove_dups.
Qed.

Lemma groupby_nonempty (translog : list transaction) (g : string * list transaction) :
  g ∈ groupby_unit_id translog -> g.2 <> [].
Proof.
  unfold groupby_unit_id. intros (u & -> & Hu)%list_elem_of_fmap. cbn.
  rewrite merge_sort_Permutation in Hu.
  apply elem_of_remove_dups, list_elem_of_fmap in Hu as (e & -> & He).
  intros Hnil.
  assert (e ∈ filter (fun e' => unit_id e' = unit_id e) translog) as Hin
    by (apply list_elem_of_filter; auto).
  rewrite Hnil in Hin. inversion Hin.
Qed.

(** The table built by the script. *)
Lemma unithistorytable_eq (translog : list transaction) (startdate enddate : Z) :
  table_startdate translog = Some startdate ->
  table_enddate translog = Some enddate ->
  unithistorytable translog
  = Some {| df_index := date_range startdate enddate;
            df_columns :=
              map (fun g => (g.1, map unitstatus
                                      (dailyhistory_rows g.2 startdate enddate None)))
                  (groupby_unit_id translog) |}.
Proof.
  intros Hs He. unfold unithistorytable. rewrite Hs, He.
  rewrite merge_units_columns; [reflexivity | | | | reflexivity].
  - apply NoDup_groupby_keys.
  - intros u _ H. inversion H.
  - apply groupby_nonempty.
Qed.

Lemma table_bounds (translog : list transaction) :
  translog <> [] ->
  exists lo hi,
    index_min (map timestamp translog) = Some lo /\
    index_max (map timestamp translog) = Some hi /\
    table_startdate translog = Some (dayofdatetime lo false) /\
    table_enddate translog = Some (dayofdatetime hi false + day).
Proof.
  intros Hne. unfold table_startdate, table_enddate.
  destruct translog as [|e l]; [congruence|]. cbn [map index_min index_max].
  do 2 eexists. repeat split.
Qed.

(** The column of a unit in a table with one column per group. *)
Lemma column_groupby (translog : list transaction) (F : list transaction -> list cell)
    (u : string) :
  column u (map (fun g => (g.1, F g.2)) (groupby_unit_id translog))
  = if decide (u ∈ map unit_id translog)
    then Some (F (filter (fun e => unit_id e = u) translog))
    else None.
Proof.
  pose proof (elem_of_groupby_keys translog u) as Hk. revert Hk.
  unfold groupby_unit_id. rewrite <- !list_fmap_compose.
  generalize (merge_sort String.le (remove_dups (map unit_id translog))).
  intros keys Hk. rewrite list_fmap_id in Hk.
  destruct (decide (u ∈ map unit_id translog)) as [Hin|Hout].
  - apply Hk in Hin. clear Hk. induction keys as [|k keys IH]; [inversion Hin|].
    cbn. destruct (decide (k = u)) as [->|Hne]; [reflexivity|].
    apply IH. apply elem_of_cons in Hin as [->|Hin]; [congruence | exact Hin].
  - assert (u ∉ keys) as Hn by (rewrite Hk; exact Hout). clear Hk.
    induction keys as [|k keys IH]; [reflexivity|].
    cbn. rewrite decide_False.
    + apply IH. intros H. apply Hn. right. exact H.
    + intros ->. apply Hn. left.
Qed.

(** ** The date axis of the table *)

(** C6 (date axis).  For a log with at least one row, [startdate] is the
    midnight of the day of the earliest timestamp of the whole log,
    [enddate] the midnight after the day of the latest one; the script
    returns a table whose index is [date_range startdate enddate], that
    is, exactly one label for every midnight from [startdate] to [enddate]
    inclusive; in particular the day of the last event is on the axis. *)
Theorem table_axis (translog : list transaction) :
  translog <> [] ->
  exists lo hi table,
    (lo ∈ map timestamp translog /\ forall t, t ∈ map timestamp translog -> lo <= t) /\
    (hi ∈ map timestamp translog /\ forall t, t ∈ map timestamp translog -> t <= hi) /\
    table_startdate translog = Some (day * (lo / day)) /\
    table_enddate translog = Some (day * (hi / day) + day) /\
    unithistorytable translog = Some table /\
    df_index table = date_range (day * (lo / day)) (day * (hi / day) + day) /\
    (forall t, t ∈ df_index table <->
               exists j, lo / day <= j <= hi / day + 1 /\ t = day * j) /\
    NoDup (df_index table) /\
    dayofdatetime hi false ∈ df_index table.
Proof.
  intros Hne. destruct (table_bounds translog Hne) as (lo & hi & Elo & Ehi & Hs & He).
  exists lo, hi. eexists.
  split; [split; [exact (index_min_elem _ _ Elo) | exact (index_min_le _ _ Elo)]|].
  split; [split; [exact (index_max_elem _ _ Ehi) | exact (index_max_ge _ _ Ehi)]|].
  split; [exact Hs|]. split; [exact He|].
  split; [exact (unithistorytable_eq _ _ _ Hs He)|].
  cbn [df_index].
  assert (lo <= hi) as Hle
    by (apply (index_max_ge _ _ Ehi); exact (index_min_elem _ _ Elo)).
  assert (forall t, t ∈ date_range (dayofdatetime lo false) (dayofdatetime hi false + day)
                    <-> exists j, lo / day <= j <= hi / day + 1 /\ t = day * j) as Hiff.
  { intros t. rewrite elem_of_date_range. unfold dayofdatetime. split.
    - intros (k & Hk & -> & Hb). exists (lo / day + k).
      split; [|unfold day; lia]. unfold day in *. lia.
    - intros (j & Hj & ->). exists (j - lo / day). unfold day in *. lia. }
  split; [reflexivity|]. split; [exact Hiff|]. split; [apply NoDup_date_range|].
  apply Hiff. exists (hi / day). split; [|reflexivity].
  unfold day. Z.div_mod_to_equations. lia.
Qed.

Lemma table_axis_witness :
  exists table,
    unithistorytable sample_log = Some table /\
    df_index table = [0; day; 2 * day; 3 * day].
Proof.
  destruct (table_axis sample_log ltac:(discriminate))
    as (lo & hi & table & _ & _ & _ & _ & Ht & _).
  exists table. split; [exact Ht|].
  vm_compute in Ht. injection Ht as <-. reflexivity.
Defined.

(** ** The columns of the table *)

(** C10 (one column per merge).  Joining the history of a unit into a
    table on the same axis that has no column of that name succeeds and
    appends exactly one column, named after the unit and equal to the
    status column the simulator returned, after the columns already
    there, which are unchanged.  So the script returns a table in which
    the column of every unit of the log is the status column that
    [unitdailystatus] returns for the rows of that unit, and in which no
    other name is a column. *)
Theorem merge_adds_one_column :
  (forall (table : DataFrame) (unitID : string) (unittrans : list transaction)
          (startdate enddate : Z),
     df_index table = date_range startdate enddate ->
     unitID ∉ (df_columns table).*1 ->
     exists col joined_table,
       column "unitstatus"
              (df_columns (unitdailystatus unittrans startdate enddate None false).2)
         = Some col /\
       join_left table
         (rename_column "unitstatus" unitID
            (unitdailystatus unittrans startdate enddate None false).2)
         = Some joined_table /\
       df_index joined_table = df_index table /\
       df_columns joined_table = df_columns table ++ [(unitID, col)] /\
       column unitID (df_columns joined_table) = Some col /\
       (forall other, other <> unitID ->
          column other (df_columns joined_table) = column other (df_columns table))) /\
  (forall translog : list transaction,
     translog <> [] ->
     exists startdate enddate table,
       table_startdate translog = Some startdate /\
       table_enddate translog = Some enddate /\
       unithistorytable translog = Some table /\
       forall u,
         column u (df_columns table)
         = if decide (u ∈ map unit_id translog)
           then column "unitstatus"
                  (df_columns
                     (unitdailystatus (filter (fun e => unit_id e = u) translog)
                                      startdate enddate None false).2)
           else None).
Proof.
  split.
  - intros table unitID unittrans startdate enddate Hidx Hfresh.
    exists (map unitstatus (dailyhistory_rows unittrans startdate enddate None)).
    eexists. split; [reflexivity|].
    split; [exact (join_unit_history _ _ _ _ _ Hidx Hfresh)|].
    cbn [df_index df_columns]. split; [reflexivity|]. split; [reflexivity|].
    split; [apply column_app_new; exact Hfresh|].
    intros other Hne. apply column_app_fresh. cbn.
    intros H. apply list_elem_of_singleton in H. congruence.
  - intros translog Hne.
    destruct (table_bounds translog Hne) as (lo & hi & _ & _ & Hs & He).
    do 2 eexists. eexists. split; [exact Hs|]. split; [exact He|].
    split; [exact (unithistorytable_eq _ _ _ Hs He)|].
    intros u. cbn [df_columns].
    rewrite (column_groupby translog
               (fun ut => map unitstatus
                              (dailyhistory_rows ut (dayofdatetime lo false)
                                                 (dayofdatetime hi false + day) None))).
    destruct (decide _); reflexivity.
Qed.

Lemma merge_adds_one_column_witness :
  exists table,
    unithistorytable sample_log = Some table /\
    column "a" (df_columns table) = Some [Str_S; Num 28; Num 27; Num 26] /\
    column "b" (df_columns table) = Some [Num 7; Num 6; Str_U; Str_U] /\
    column "c" (df_columns table) = None.
Proof.
  destruct (proj2 merge_adds_one_column sample_log ltac:(discriminate))
    as (startdate & enddate & table & Hs & He & Ht & Hcol).
  exists table. split; [exact Ht|].
  vm_compute in Hs. injection Hs as <-.
  vm_compute in He. injection He as <-.
  rewrite !Hcol. repeat split; reflexivity.
Defined.

(** ** Independence of the units *)

Lemma astype_float_idem (v : pyvalue) : astype_float (astype_float v) = astype_float v.
Proof. destruct v; reflexivity. Qed.

Lemma set_topupvalue_float_idem (unittrans : list transaction) :
  set_topupvalue_float (set_topupvalue_float unittrans) = set_topupvalue_float unittrans.
Proof.
  unfold set_topupvalue_float. rewrite map_map. apply map_ext.
  intros e. cbn. rewrite astype_float_idem. reflexivity.
Qed.

Lemma unlock_rows_set_topupvalue_float (unittrans : list transaction) :
  unlock_rows (set_topupvalue_float unittrans)
  = set_topupvalue_float (unlock_rows unittrans).
Proof.
  unfold unlock_rows. induction unittrans as [|e l IH]; [reflexivity|].
  cbn [set_topupvalue_float map]. fold (set_topupvalue_float l).
  rewrite !filter_cons. cbn [function_code].
  destruct (decide (function_code e = 5)); rewrite IH; reflexivity.
Qed.

(** The call computes the same frame from the argument as it left it. *)
Lemma dailyhistory_rows_set_topupvalue_float (unittrans : list transaction)
    (startdate enddate : Z) (installdate : option Z) :
  dailyhistory_rows (set_topupvalue_float unittrans) startdate enddate installdate
  = dailyhistory_rows unittrans startdate enddate installdate.
Proof.
  unfold dailyhistory_rows, resolve_installdate, joined, mark_stock_unlock,
    overwrite_unlocked, dailytotals.
  rewrite set_topupvalue_float_idem, unlock_rows_set_topupvalue_float,
    timestamp_set_topupvalue_float.
  destruct (unlock_rows unittrans) as [|e l]; reflexivity.
Qed.

(** C8 (determinism, independence of the units).  The call reads nothing
    but its arguments; the one thing it changes is the [topupvalue] column
    of its argument, converted to floats in place, and a second call on the
    frame as the first left it returns the same history and leaves the
    frame as it is.  In the table, the column of a unit is determined by
    the rows of that unit and the two bounds: two logs with the same
    bounds and the same rows for a unit give that unit the same column. *)
Theorem unit_history_deterministic :
  (forall (unittrans : list transaction) (startdate enddate : Z)
          (installdate : option Z) (includetopupvalues : bool),
     unitdailystatus
       (unitdailystatus unittrans startdate enddate installdate includetopupvalues).1
       startdate enddate installdate includetopupvalues
     = unitdailystatus unittrans startdate enddate installdate includetopupvalues) /\
  (forall (translog1 translog2 : list transaction) (u : string)
          (startdate enddate : Z),
     table_startdate translog1 = Some startdate ->
     table_startdate translog2 = Some startdate ->
     table_enddate translog1 = Some enddate ->
     table_enddate translog2 = Some enddate ->
     filter (fun e => unit_id e = u) translog1
       = filter (fun e => unit_id e = u) translog2 ->
     exists table1 table2,
       unithistorytable translog1 = Some table1 /\
       unithistorytable translog2 = Some table2 /\
       df_index table1 = df_index table2 /\
       column u (df_columns table1) = column u (df_columns table2)).
Proof.
  split.
  - intros unittrans startdate enddate installdate includetopupvalues.
    unfold unitdailystatus. cbn [fst].
    rewrite set_topupvalue_float_idem, dailyhistory_rows_set_topupvalue_float.
    reflexivity.
  - intros translog1 translog2 u startdate enddate Hs1 Hs2 He1 He2 Hrows.
    do 2 eexists.
    split; [exact (unithistorytable_eq _ _ _ Hs1 He1)|].
    split; [exact (unithistorytable_eq _ _ _ Hs2 He2)|].
    split; [reflexivity|]. cbn [df_columns].
    rewrite !(column_groupby _
                (fun ut => map unitstatus (dailyhistory_rows ut startdate enddate None))).
    rewrite Hrows.
    assert (u ∈ map unit_id translog1 <-> u ∈ map unit_id translog2) as Hiff.
    { assert (forall l : list transaction,
                u ∈ map unit_id l <-> filter (fun e => unit_id e = u) l <> []) as Hf.
      { intros l. split.
        - intros (e & -> & He)%list_elem_of_fmap Hnil.
          assert (e ∈ filter (fun e' => unit_id e' = unit_id e) l) as Hin
            by (apply list_elem_of_filter; auto).
          rewrite Hnil in Hin. inversion Hin.
        - intros Hnn. destruct (filter _ l) as [|e l'] eqn:E; [congruence|].
          assert (e ∈ filter (fun e => unit_id e = u) l) as Hin by (rewrite E; left).
          apply list_elem_of_filter in Hin as [<- Hin].
          apply list_elem_of_fmap. eauto. }
      rewrite !Hf, Hrows. reflexivity. }
    destruct (decide (u ∈ map unit_id translog1)) as [H1|H1];
      destruct (decide (u ∈ map unit_id translog2)) as [H2|H2];
      try reflexivity; exfalso; tauto.
Qed.

Lemma unit_history_deterministic_witness :
  exists table1 table2,
    unithistorytable sample_log = Some table1 /\
    unithistorytable sample_log_other = Some table2 /\
    df_index table1 = df_index table2 /\
    column "b" (df_columns table1) = column "b" (df_columns table2).
Proof.
  apply (proj2 unit_history_deterministic sample_log sample_log_other "b" 0 (3 * day));
    reflexivity.
Defined.

(** * Further properties of the simulator *)

(** ** Length of the axis *)

Lemma length_days_from (t : Z) (n : nat) : length (days_from t n) = n.
Proof. revert t. induction n as [|n IH]; intros t; cbn; [|rewrite IH]; reflexivity. Qed.

(** ** The totals column of the diagnostic mode *)

Lemma iterrows_totals (sel : Z -> bool) (l : list row) (c : counters) :
  map dailytopuptotal (iterrows sel l c).1 = map dailytopuptotal l.
Proof.
  revert c. induction l as [|r l IH]; intros c; [reflexivity|].
  rewrite iterrows_cons. cbn [fst map]. rewrite IH.
  destruct (sel (index r)); reflexivity.
Qed.

Lemma loc_set_totals (mask : Z -> bool) (v : cell) (l : list row) :
  map dailytopuptotal (loc_set mask v l) = map dailytopuptotal l.
Proof.
  unfold loc_set. rewrite map_map. apply map_ext.
  intros r. destruct (mask (index r)); reflexivity.
Qed.

Lemma dailyhistory_totals (unittrans : list transaction) (startdate enddate : Z)
    (installdate : option Z) :
  map dailytopuptotal (dailyhistory_rows unittrans startdate enddate installdate)
  = map (topup_total_on unittrans) (date_range startdate enddate).
Proof.
  rewrite dailyhistory_rows_eq. unfold overwrite_unlocked.
  rewrite loc_set_totals, iterrows_totals, before_loop_rows, map_map.
  reflexivity.
Qed.

Lemma zip_graph {A : Type} (f : Z -> A) (l : list Z) :
  zip l (map f l) = map (fun x => (x, f x)) l.
Proof. induction l as [|x l IH]; cbn; [|rewrite IH]; reflexivity. Qed.

Lemma topup_total_on_unaligned (unittrans : list transaction) (t : Z) :
  t mod day <> 0 -> topup_total_on unittrans t = 0.
Proof.
  intros Ht. apply topup_total_on_none. intros e _ He. apply Ht.
  rewrite <- He. unfold dayofdatetime, day. Z.div_mod_to_equations. lia.
Qed.

(** In the diagnostic mode the [dailytopuptotal] of a day of the range is
    the sum of the weeks of the unit's events of that calendar day: the
    top-ups of one day are added up, an event without a value adds
    nothing, and a label that is not a midnight matches no event. *)
Theorem dailytopuptotal_column (unittrans : list transaction) (startdate enddate : Z)
    (installdate : option Z) (t : Z) :
  t ∈ date_range startdate enddate ->
  at_label (unitdailystatus unittrans startdate enddate installdate true).2
           "dailytopuptotal" t
    = Some (Num (topup_total_on unittrans t)) /\
  (t mod day <> 0 ->
   at_label (unitdailystatus unittrans startdate enddate installdate true).2
            "dailytopuptotal" t
     = Some (Num 0)).
Proof.
  intros Ht.
  assert (at_label (unitdailystatus unittrans startdate enddate installdate true).2
                   "dailytopuptotal" t
          = Some (Num (topup_total_on unittrans t))) as E.
  { unfold at_label, unitdailystatus. cbn [snd df_index df_columns app column].
    destruct (decide ("dailytopuptotal"%string = "dailytopuptotal"%string));
      [|congruence].
    rewrite dailyhistory_index.
    rewrite <- (map_map dailytopuptotal Num), dailyhistory_totals, map_map.
    rewrite (zip_graph (fun x => Num (topup_total_on unittrans x))), loc_graph.
    rewrite decide_True by exact Ht. reflexivity. }
  split; [exact E|].
  intros Hun. rewrite E, (topup_total_on_unaligned _ _ Hun). reflexivity.
Qed.

Lemma dailytopuptotal_column_witness :
  at_label (unitdailystatus [topup 60 "u" 3 1; topup 7200 "u" 4 4; unlock 9000 "u"]
                            0 (2 * day) None true).2
           "dailytopuptotal" 0
  = Some (Num (topup_total_on [topup 60 "u" 3 1; topup 7200 "u" 4 4; unlock 9000 "u"] 0)).
Proof.
  apply (dailytopuptotal_column [topup 60 "u" 3 1; topup 7200 "u" 4 4; unlock 9000 "u"]
                                0 (2 * day) None 0).
  apply elem_of_date_range. exists 0. unfold day. lia.
Defined.

(** ** Which days get which kind of status *)

Lemma loop_bound_cases (unittrans : list transaction) (enddate : Z) :
  loop_bound unittrans enddate
  = match unlock_rows unittrans with
    | e0 :: _ => dayofdatetime (timestamp e0) false
    | [] => enddate + 365 * day
    end.
Proof.
  unfold loop_bound, mark_stock_unlock. destruct (unlock_rows unittrans); reflexivity.
Qed.

Lemma visited_inv (unittrans : list transaction) (enddate : Z)
    (installdate : option Z) (t : Z) :
  visited unittrans enddate installdate t = true ->
  exists inst, resolve_installdate unittrans installdate = Some inst /\
               inst <= t /\ t < loop_bound unittrans enddate.
Proof.
  unfold visited. intros [H1 H2]%andb_true_iff.
  destruct (resolve_installdate unittrans installdate) as [inst|]; [|discriminate].
  exists inst. cbn in H1. apply Z.leb_le in H1. apply Z.ltb_lt in H2. auto.
Qed.

Lemma visited_intro (unittrans : list transaction) (enddate : Z)
    (installdate : option Z) (t inst : Z) :
  resolve_installdate unittrans installdate = Some inst ->
  inst <= t -> t < loop_bound unittrans enddate ->
  visited unittrans enddate installdate t = true.
Proof.
  intros Hi H1 H2. unfold visited. rewrite Hi. cbn.
  apply andb_true_iff. split; [apply Z.leb_le | apply Z.ltb_lt]; assumption.
Qed.

Lemma resolve_installdate_Some (unittrans : list transaction) (installdate : option Z) :
  unittrans <> [] \/ installdate <> None ->
  exists inst, resolve_installdate unittrans installdate = Some inst.
Proof.
  intros H. destruct installdate as [i|]; [exists i; reflexivity|].
  destruct H as [H|H]; [|congruence].
  destruct (index_min (map timestamp unittrans)) as [lo|] eqn:E.
  - eexists. apply (default_installdate _ _ E).
  - destruct unittrans; [congruence | discriminate].
Qed.

Lemma status_not_null (unittrans : list transaction) (startdate enddate : Z)
    (installdate : option Z) (t inst : Z) :
  resolve_installdate unittrans installdate = Some inst ->
  t ∈ date_range startdate enddate ->
  exists c, status unittrans startdate enddate installdate t = Some c /\ c <> NaN.
Proof.
  intros Hi Ht. rewrite (status_at _ _ _ _ _ Ht). eexists. split; [reflexivity|].
  unfold final_status. destruct (ge_dt t (index_min _)); [discriminate|].
  destruct (visited unittrans enddate installdate t) eqn:Hv.
  { unfold loop_body. destruct (0 <? _); discriminate. }
  unfold visited in Hv. rewrite loop_bound_cases, Hi in Hv.
  unfold day_row. cbn [unitstatus]. rewrite Hi. cbn [ge_dt lt_dt] in *.
  apply axis_le_enddate in Ht.
  destruct (unlock_rows unittrans) as [|e0 l].
  - destruct (Z.ltb_spec t inst); [discriminate|].
    exfalso. apply andb_false_iff in Hv as [Hv|Hv].
    + apply Z.leb_gt in Hv. lia.
    + apply Z.ltb_ge in Hv. unfold day in *. lia.
  - destruct (Z.leb_spec (dayofdatetime (timestamp e0) false) t); [discriminate|].
    destruct (Z.ltb_spec t inst); [discriminate|].
    exfalso. apply andb_false_iff in Hv as [Hv|Hv].
    + apply Z.leb_gt in Hv. lia.
    + apply Z.ltb_ge in Hv. lia.
Qed.

(** For a unit with at least one event, or with an explicit install date,
    every day of the range gets a status: ['S'], ['U'] or a number, never
    a null. *)
Theorem status_assigned (unittrans : list transaction) (startdate enddate : Z)
    (installdate : option Z) (t : Z) :
  unittrans <> [] \/ installdate <> None ->
  t ∈ date_range startdate enddate ->
  exists c, status unittrans startdate enddate installdate t = Some c /\
            classify c <> Absent.
Proof.
  intros [inst Hi]%resolve_installdate_Some Ht.
  destruct (status_not_null _ _ _ _ _ _ Hi Ht) as (c & Hc & Hn).
  exists c. split; [exact Hc|]. destruct c as [| | |v]; cbn; try discriminate.
  - congruence.
  - destruct (0 <? v); discriminate.
Qed.

Lemma status_assigned_witness :
  exists c, status [topup (2 * day + 60) "u" 3 1] 0 (4 * day) None day = Some c /\
            classify c <> Absent.
Proof.
  apply (status_assigned [topup (2 * day + 60) "u" 3 1] 0 (4 * day) None day).
  - left. discriminate.
  - apply elem_of_date_range. exists 1. unfold day. lia.
Defined.

Lemma ge_dt_index_min (t : Z) (l : list Z) :
  ge_dt t (index_min l) = true <-> exists x, x ∈ l /\ x <= t.
Proof.
  destruct (index_min l) as [m|] eqn:E; cbn.
  - rewrite Z.leb_le. split.
    + intros H. exists m. split; [exact (index_min_elem _ _ E) | exact H].
    + intros (x & Hx & Hle). pose proof (index_min_le _ _ E _ Hx). lia.
  - destruct l; [|discriminate]. split; [discriminate|].
    intros (x & Hx & _). inversion Hx.
Qed.

(** A day of the range is returned ['U'] exactly when the unit has an
    unlock row and the day is on or after the calendar day of the first
    unlock row of the frame, or its midnight is at or after the timestamp
    of some unlock row.  In particular a unit without unlock row is never
    returned unlocked. *)
Theorem unlocked_iff (unittrans : list transaction) (startdate enddate : Z)
    (installdate : option Z) (d : Z) :
  d ∈ date_range startdate enddate ->
  (status unittrans startdate enddate installdate d = Some Str_U <->
   (exists e0 rest, unlock_rows unittrans = e0 :: rest /\
                    dayofdatetime (timestamp e0) false <= d) \/
   (exists e', e' ∈ unlock_rows unittrans /\ timestamp e' <= d)).
Proof.
  intros Hax. rewrite (status_at _ _ _ _ _ Hax). unfold final_status.
  destruct (ge_dt d (index_min (map timestamp (unlock_rows unittrans)))) eqn:Hge.
  { split; [intros _ | reflexivity]. right.
    apply ge_dt_index_min in Hge as (x & (e' & -> & He')%list_elem_of_fmap & Hle).
    eauto. }
  assert (~ exists e', e' ∈ unlock_rows unittrans /\ timestamp e' <= d) as Hno.
  { intros (e' & He' & Hle).
    assert (ge_dt d (index_min (map timestamp (unlock_rows unittrans))) = true) as H.
    { apply ge_dt_index_min. exists (timestamp e'). split; [|exact Hle].
      apply list_elem_of_fmap. eauto. }
    congruence. }
  destruct (visited unittrans enddate installdate d) eqn:Hv.
  - split.
    + unfold loop_body. destruct (0 <? _); discriminate.
    + intros [(e0 & rest & E & Hle) | H]; [|contradiction].
      apply visited_inv in Hv as (inst & _ & _ & Hb).
      rewrite loop_bound_cases, E in Hb. lia.
  - unfold day_row. cbn [unitstatus].
    destruct (unlock_rows unittrans) as [|e0 l] eqn:E.
    + split.
      * destruct (lt_dt d _); discriminate.
      * intros [(e1 & rest & E1 & _) | H]; [discriminate | contradiction].
    + destruct (Z.leb_spec (dayofdatetime (timestamp e0) false) d) as [Hle|Hgt].
      * split; [intros _ | reflexivity]. left. eauto.
      * split.
        -- destruct (lt_dt d _); discriminate.
        -- intros [(e1 & rest & [= <- <-] & Hle) | H]; [lia | contradiction].
Qed.

Lemma unlocked_iff_witness :
  status [topup 60 "u" 3 1; unlock (2 * day + 5) "u"] 0 (4 * day) None (2 * day)
  = Some Str_U.
Proof.
  apply (unlocked_iff [topup 60 "u" 3 1; unlock (2 * day + 5) "u"] 0 (4 * day) None
                      (2 * day)).
  - apply elem_of_date_range. exists 2. unfold day. lia.
  - left. exists (unlock (2 * day + 5) "u"), []. split; [reflexivity|].
    vm_compute. discriminate.
Defined.

(** A day of the range on or after the install date and strictly before
    the calendar day of every unlock row is returned with a number: the
    loop has visited it. *)
Theorem numeric_while_running (unittrans : list transaction) (startdate enddate : Z)
    (installdate : option Z) (d inst : Z) :
  d ∈ date_range startdate enddate ->
  resolve_installdate unittrans installdate = Some inst ->
  inst <= d ->
  (forall e, e ∈ unlock_rows unittrans -> d < dayofdatetime (timestamp e) false) ->
  exists v, status unittrans startdate enddate installdate d = Some (Num v) /\
            (classify (Num v) = CreditRemaining v \/
             exists k, 0 <= k /\ classify (Num v) = OutOfCredit k).
Proof.
  intros Hax Hi Hle Hun. rewrite (status_at _ _ _ _ _ Hax).
  assert (ge_dt d (index_min (map timestamp (unlock_rows unittrans))) = false) as Hk.
  { destruct (ge_dt d _) eqn:E; [|reflexivity].
    apply ge_dt_index_min in E as (x & (e' & -> & He')%list_elem_of_fmap & Hx).
    pose proof (Hun e' He'). pose proof (dayofdatetime_le (timestamp e')). lia. }
  assert (visited unittrans enddate installdate d = true) as Hv.
  { apply (visited_intro _ _ _ _ inst Hi Hle). rewrite loop_bound_cases.
    destruct (unlock_rows unittrans) as [|e0 l] eqn:E.
    - apply axis_le_enddate in Hax. unfold day. lia.
    - apply Hun. left. }
  rewrite (final_status_visited _ _ _ _ _ Hk Hv).
  pose proof (counters_at_ooc_nonneg unittrans startdate enddate installdate d) as Hooc.
  unfold loop_body.
  destruct (Z.ltb_spec 0 (dayscreditremaining
                            (counters_at unittrans startdate enddate installdate d)
                          + dailytopuptotal (day_row unittrans installdate d) * 7))
    as [Hpos|Hneg]; cbn [fst].
  - eexists. split; [reflexivity|]. left. unfold classify.
    apply Z.ltb_lt in Hpos. rewrite Hpos. reflexivity.
  - eexists. split; [reflexivity|]. right.
    exists (continuousdaysooc (counters_at unittrans startdate enddate installdate d)).
    split; [exact Hooc|]. unfold classify.
    destruct (Z.ltb_spec 0 (- continuousdaysooc
                              (counters_at unittrans startdate enddate installdate d)));
      [lia|]. f_equal. lia.
Qed.

Lemma numeric_while_running_witness :
  exists v, status [topup 60 "u" 3 1; unlock (2 * day + 5) "u"] 0 (4 * day) None day
            = Some (Num v) /\
            (classify (Num v) = CreditRemaining v \/
             exists k, 0 <= k /\ classify (Num v) = OutOfCredit k).
Proof.
  apply (numeric_while_running [topup 60 "u" 3 1; unlock (2 * day + 5) "u"]
                               0 (4 * day) None day 0).
  - apply elem_of_date_range. exists 1. unfold day. lia.
  - reflexivity.
  - unfold day. lia.
  - intros e He. vm_compute in He. apply list_elem_of_singleton in He. subst e.
    vm_compute. reflexivity.
Defined.

(** ** From one day to the next *)

Lemma prev_day_on_axis (startdate enddate d : Z) :
  d ∈ date_range startdate enddate -> d <> startdate ->
  d - day ∈ date_range startdate enddate.
Proof.
  rewrite !elem_of_date_range. intros (k & Hk & -> & Hle) Hne.
  exists (k - 1). unfold day in *. lia.
Qed.

Lemma axis_gap (startdate enddate t d : Z) :
  t ∈ date_range startdate enddate -> d ∈ date_range startdate enddate ->
  t < d -> t <= d - day.
Proof.
  rewrite !elem_of_date_range. intros (k & _ & -> & _) (j & _ & -> & _) H.
  unfold day in *. lia.
Qed.

Lemma counters_at_unvisited_axis (unittrans : list transaction)
    (startdate enddate : Z) (installdate : option Z) (t : Z) :
  (forall t', t' ∈ date_range startdate enddate -> t' < t ->
              visited unittrans enddate installdate t' = false) ->
  counters_at unittrans startdate enddate installdate t = counters0.
Proof.
  intros Hn. unfold counters_at. rewrite iterrows_unvisited; [reflexivity|].
  intros r [Hlt Hr]%list_elem_of_filter. apply Hn; [|exact Hlt].
  rewrite before_loop_rows in Hr. apply (elem_of_map_day_row _ _ _ _ Hr).
Qed.

Lemma ge_dt_false_before (t t' : Z) (d : option Z) :
  ge_dt t d = false -> t' <= t -> ge_dt t' d = false.
Proof.
  destruct d as [x|]; cbn; [|reflexivity].
  rewrite !Z.leb_gt. lia.
Qed.

Lemma status_Num_inv (unittrans : list transaction) (startdate enddate : Z)
    (installdate : option Z) (d v : Z) :
  status unittrans startdate enddate installdate d = Some (Num v) ->
  d ∈ date_range startdate enddate /\
  ge_dt d (index_min (map timestamp (unlock_rows unittrans))) = false /\
  visited unittrans enddate installdate d = true /\
  (loop_body (day_row unittrans installdate d)
             (counters_at unittrans startdate enddate installdate d)).1 = Num v.
Proof.
  intros Hd.
  assert (d ∈ date_range startdate enddate) as Hax
    by (apply (status_on_axis unittrans _ _ installdate); rewrite Hd; eauto).
  split; [exact Hax|].
  rewrite (status_at _ _ _ _ _ Hax) in Hd. injection Hd as Hd.
  destruct (final_status_Num _ _ _ _ _ _ Hd) as [Hv Hb].
  split; [|auto]. revert Hd. unfold final_status.
  destruct (ge_dt d (index_min _)); [discriminate | reflexivity].
Qed.

(** The counters left by a day returned in credit. *)
Lemma after_in_credit (unittrans : list transaction) (startdate enddate : Z)
    (installdate : option Z) (d n : Z) :
  classify <$> status unittrans startdate enddate installdate d
    = Some (CreditRemaining n) ->
  d ∈ date_range startdate enddate /\
  visited unittrans enddate installdate d = true /\
  counters_at unittrans startdate enddate installdate (d + day)
  = {| dayscreditremaining := n + -1; continuousdaysooc := 0 |}.
Proof.
  intros Hd.
  destruct (status unittrans startdate enddate installdate d) as [c|] eqn:Hs;
    [|discriminate].
  injection Hd as Hd. apply classify_CreditRemaining in Hd as [-> Hn].
  destruct (status_Num_inv _ _ _ _ _ _ Hs) as (Hax & _ & Hv & Hb).
  pose proof (counters_at_ooc_nonneg unittrans startdate enddate installdate d) as Hooc.
  split; [exact Hax|]. split; [exact Hv|].
  rewrite (counters_at_next _ _ _ _ _ Hax), Hv.
  revert Hb. unfold loop_body. destruct (0 <? _); cbn [fst snd].
  - intros [= E]. f_equal. cbn [dailytopuptotal day_row] in *. lia.
  - intros [= E]. lia.
Qed.

(** The counters around a day returned out of credit. *)
Lemma around_out_of_credit (unittrans : list transaction) (startdate enddate : Z)
    (installdate : option Z) (d k : Z) :
  classify <$> status unittrans startdate enddate installdate d
    = Some (OutOfCredit k) ->
  d ∈ date_range startdate enddate /\
  ge_dt d (index_min (map timestamp (unlock_rows unittrans))) = false /\
  visited unittrans enddate installdate d = true /\
  continuousdaysooc (counters_at unittrans startdate enddate installdate d) = k.
Proof.
  intros Hd.
  destruct (status unittrans startdate enddate installdate d) as [c|] eqn:Hs;
    [|discriminate].
  injection Hd as Hd. apply classify_OutOfCredit in Hd as [-> Hk].
  destruct (status_Num_inv _ _ _ _ _ _ Hs) as (Hax & Hkept & Hv & Hb).
  split; [exact Hax|]. split; [exact Hkept|]. split; [exact Hv|].
  revert Hb. unfold loop_body.
  set (c := counters_at unittrans startdate enddate installdate d).
  destruct (Z.ltb_spec 0 (dayscreditremaining c
                          + dailytopuptotal (day_row unittrans installdate d) * 7));
    cbn [fst]; intros [= E]; cbn [dailytopuptotal day_row] in *; lia.
Qed.

(** Credit is carried over a top-up: after a day with [n] days of credit
    remaining, a next day of the range before the unlock day with a total
    top-up of [w] weeks shows [n - 1 + 7 * w] days when that is positive,
    and starts a streak otherwise. *)
Theorem topup_carries_credit (unittrans : list transaction) (startdate enddate : Z)
    (installdate : option Z) (d n w : Z) :
  classify <$> status unittrans startdate enddate installdate d
    = Some (CreditRemaining n) ->
  d + day <= enddate ->
  before_unlock unittrans (d + day) ->
  topup_total_on unittrans (d + day) = w ->
  (0 < n - 1 + 7 * w ->
   classify <$> status unittrans startdate enddate installdate (d + day)
     = Some (CreditRemaining (n - 1 + 7 * w))) /\
  (n - 1 + 7 * w <= 0 ->
   classify <$> status unittrans startdate enddate installdate (d + day)
     = Some (OutOfCredit 0)).
Proof.
  intros Hd Hle Hu Hw.
  destruct (after_in_credit _ _ _ _ _ _ Hd) as (Hax & Hv & Hc).
  pose proof (next_day_on_axis _ _ _ Hax Hle) as Hax'.
  rewrite (status_at _ _ _ _ _ Hax').
  rewrite final_status_visited by (auto using before_unlock_kept, visited_next).
  rewrite Hc. unfold loop_body. cbn [dailytopuptotal day_row dayscreditremaining
                                      continuousdaysooc].
  rewrite Hw. replace (n + -1 + w * 7) with (n - 1 + 7 * w) by lia.
  split; intros H.
  - apply Z.ltb_lt in H as H'. rewrite H'. cbn. rewrite H'. reflexivity.
  - replace (0 <? n - 1 + 7 * w) with false by (symmetry; apply Z.ltb_ge; exact H).
    reflexivity.
Qed.

Lemma topup_carries_credit_witness :
  classify <$> status [topup 60 "u" 3 1; topup (3 * day + 9) "u" 4 4]
                      0 (5 * day) None (2 * day + day)
  = Some (CreditRemaining (5 - 1 + 7 * 4)).
Proof.
  apply (topup_carries_credit [topup 60 "u" 3 1; topup (3 * day + 9) "u" 4 4]
                              0 (5 * day) None (2 * day) 5 4).
  - reflexivity.
  - vm_compute. discriminate.
  - exact I.
  - reflexivity.
  - lia.
Defined.

(** The walk starts from nothing: on the first day of the range that is
    not before the install date, be it the first day of the range or a
    later one, the status only depends on the top-up of that day,
    [CreditRemaining (7 * w)] for a positive total [w] and [OutOfCredit 0]
    otherwise.  Top-ups of earlier days, before an explicit install date
    or before the range, are never credited. *)
Theorem first_day_from_zero (unittrans : list transaction) (startdate enddate : Z)
    (installdate : option Z) (d inst : Z) :
  d ∈ date_range startdate enddate ->
  resolve_installdate unittrans installdate = Some inst ->
  inst <= d ->
  (forall t, t ∈ date_range startdate enddate -> t < d -> t < inst) ->
  before_unlock unittrans d ->
  classify <$> status unittrans startdate enddate installdate d
  = Some (if 0 <? topup_total_on unittrans d
          then CreditRemaining (7 * topup_total_on unittrans d)
          else OutOfCredit 0).
Proof.
  intros Hax Hi Hd Hfirst Hu.
  rewrite (status_at _ _ _ _ _ Hax).
  assert (visited unittrans enddate installdate d = true) as Hv.
  { apply (visited_intro _ _ _ _ inst Hi); [lia|].
    apply Z.ltb_lt. apply before_unlock_bound; [exact Hu|].
    apply axis_le_enddate in Hax. lia. }
  rewrite final_status_visited by (auto using before_unlock_kept).
  rewrite counters_at_unvisited_axis.
  2:{ intros t' Ht' Hlt. pose proof (Hfirst t' Ht' Hlt).
      unfold visited. rewrite Hi. cbn [ge_dt].
      replace (inst <=? t') with false by (symmetry; apply Z.leb_gt; lia).
      reflexivity. }
  unfold loop_body. cbn [dailytopuptotal day_row dayscreditremaining
                         continuousdaysooc counters0].
  destruct (Z.ltb_spec 0 (topup_total_on unittrans d)) as [Hpos|Hneg].
  - replace (0 <? 0 + topup_total_on unittrans d * 7) with true
      by (symmetry; apply Z.ltb_lt; lia).
    cbn. replace (0 <? 0 + topup_total_on unittrans d * 7) with true
      by (symmetry; apply Z.ltb_lt; lia).
    do 2 f_equal. lia.
  - replace (0 <? 0 + topup_total_on unittrans d * 7) with false
      by (symmetry; apply Z.ltb_ge; lia).
    reflexivity.
Qed.

Lemma first_day_from_zero_witness :
  classify <$> status [topup 60 "u" 4 4; topup (2 * day + 60) "u" 3 1]
                      (2 * day) (4 * day) None (2 * day)
  = Some (CreditRemaining 7).
Proof.
  apply (first_day_from_zero [topup 60 "u" 4 4; topup (2 * day + 60) "u" 3 1]
                             (2 * day) (4 * day) None (2 * day) 0).
  - apply elem_of_date_range. exists 0. unfold day. lia.
  - reflexivity.
  - unfold day. lia.
  - intros t (k & Hk & -> & _)%elem_of_date_range Hlt. unfold day in *. lia.
  - exact I.
Defined.

(** A streak counts consecutive days: a day returned [OutOfCredit k] with
    [k] positive follows a day returned [OutOfCredit (k - 1)]. *)
Theorem streak_is_consecutive (unittrans : list transaction) (startdate enddate : Z)
    (installdate : option Z) (d k : Z) :
  classify <$> status unittrans startdate enddate installdate d
    = Some (OutOfCredit k) ->
  0 < k ->
  classify <$> status unittrans startdate enddate installdate (d - day)
    = Some (OutOfCredit (k - 1)).
Proof.
  intros Hd Hk.
  destruct (around_out_of_credit _ _ _ _ _ _ Hd) as (Hax & Hkept & Hv & Hooc).
  destruct (Z.eq_dec d startdate) as [->|Hne].
  { rewrite counters_at_start in Hooc by lia. cbn in Hooc. lia. }
  pose proof (prev_day_on_axis _ _ _ Hax Hne) as Hax'.
  pose proof (counters_at_next unittrans startdate enddate installdate (d - day) Hax')
    as Hstep.
  replace (d - day + day) with d in Hstep by lia.
  pose proof (counters_at_ooc_nonneg unittrans startdate enddate installdate (d - day))
    as Hnn.
  destruct (visited unittrans enddate installdate (d - day)) eqn:Hv'.
  - rewrite (status_at _ _ _ _ _ Hax').
    rewrite final_status_visited;
      [|apply (ge_dt_false_before d); [exact Hkept | unfold day; lia] | exact Hv'].
    rewrite Hstep in Hooc. revert Hooc. unfold loop_body.
    destruct (0 <? _); cbn [fst snd continuousdaysooc]; intros Hooc; [lia|].
    cbn. destruct (Z.ltb_spec 0 (- continuousdaysooc
            (counters_at unittrans startdate enddate installdate (d - day)))); [lia|].
    do 2 f_equal. lia.
  - exfalso.
    destruct (visited_inv _ _ _ _ Hv) as (inst & Hi & Hle & Hb).
    assert (d - day < inst) as Hlt.
    { unfold visited in Hv'. rewrite Hi in Hv'. cbn [ge_dt] in Hv'.
      apply andb_false_iff in Hv' as [H|H].
      - apply Z.leb_gt in H. exact H.
      - apply Z.ltb_ge in H. unfold day in *. lia. }
    rewrite counters_at_unvisited_axis in Hooc; [cbn in Hooc; lia|].
    intros t' Ht' Hlt'. pose proof (axis_gap _ _ _ _ Ht' Hax Hlt').
    unfold visited. rewrite Hi. cbn [ge_dt].
    replace (inst <=? t') with false by (symmetry; apply Z.leb_gt; lia).
    reflexivity.
Qed.

Lemma streak_is_consecutive_witness :
  classify <$> status [topup 3600 "u" 3 1] 0 (10 * day) None (9 * day - day)
  = Some (OutOfCredit (2 - 1)).
Proof.
  apply (streak_is_consecutive [topup 3600 "u" 3 1] 0 (10 * day) None (9 * day) 2).
  - reflexivity.
  - lia.
Defined.

(** A streak starts after credit: a day returned [OutOfCredit 0] is either
    the first day of the range, or follows a day before the install date,
    or follows a day returned in credit. *)
Theorem streak_starts_after_credit (unittrans : list transaction)
    (startdate enddate : Z) (installdate : option Z) (d : Z) :
  classify <$> status unittrans startdate enddate installdate d
    = Some (OutOfCredit 0) ->
  d = startdate \/
  lt_dt (d - day) (resolve_installdate unittrans installdate) = true \/
  exists n, classify <$> status unittrans startdate enddate installdate (d - day)
            = Some (CreditRemaining n).
Proof.
  intros Hd.
  destruct (around_out_of_credit _ _ _ _ _ _ Hd) as (Hax & Hkept & Hv & Hooc).
  destruct (Z.eq_dec d startdate) as [->|Hne]; [left; reflexivity | right].
  pose proof (prev_day_on_axis _ _ _ Hax Hne) as Hax'.
  pose proof (counters_at_next unittrans startdate enddate installdate (d - day) Hax')
    as Hstep.
  replace (d - day + day) with d in Hstep by lia.
  pose proof (counters_at_ooc_nonneg unittrans startdate enddate installdate (d - day))
    as Hnn.
  destruct (visited_inv _ _ _ _ Hv) as (inst & Hi & Hle & Hb).
  destruct (visited unittrans enddate installdate (d - day)) eqn:Hv'.
  - right. rewrite (status_at _ _ _ _ _ Hax').
    rewrite final_status_visited;
      [|apply (ge_dt_false_before d); [exact Hkept | unfold day; lia] | exact Hv'].
    rewrite Hstep in Hooc. revert Hooc. unfold loop_body.
    destruct (Z.ltb_spec 0 (dayscreditremaining
               (counters_at unittrans startdate enddate installdate (d - day))
             + dailytopuptotal (day_row unittrans installdate (d - day)) * 7))
      as [Hpos|Hneg]; cbn [fst snd continuousdaysooc]; intros Hooc; [|lia].
    eexists. cbn [fmap option_fmap option_map]. unfold classify.
    apply Z.ltb_lt in Hpos. rewrite Hpos. reflexivity.
  - left. rewrite Hi. cbn [lt_dt]. apply Z.ltb_lt.
    unfold visited in Hv'. rewrite Hi in Hv'. cbn [ge_dt] in Hv'.
    apply andb_false_iff in Hv' as [H|H].
    + apply Z.leb_gt in H. exact H.
    + apply Z.ltb_ge in H. unfold day in *. lia.
Qed.

Lemma streak_starts_after_credit_witness :
  exists n, classify <$> status [topup 3600 "u" 3 1] 0 (10 * day) None (7 * day - day)
            = Some (CreditRemaining n).
Proof.
  destruct (streak_starts_after_credit [topup 3600 "u" 3 1] 0 (10 * day) None (7 * day))
    as [H | [H | H]].
  - reflexivity.
  - vm_compute in H. discriminate.
  - vm_compute in H. discriminate.
  - exact H.
Defined.

(** ** No credit without a top-up *)

Lemma iterrows_credit_nonpos (sel : Z -> bool) (l : list row) (c : counters) :
  (forall r, r ∈ l -> dailytopuptotal r <= 0) ->
  dayscreditremaining c <= 0 ->
  dayscreditremaining (iterrows sel l c).2 <= 0.
Proof.
  revert c. induction l as [|r l IH]; intros c Hl Hc; [exact Hc|].
  rewrite iterrows_cons. cbn [snd]. apply IH.
  - intros r' Hr'. apply Hl. right. exact Hr'.
  - destruct (sel (index r)); [|exact Hc].
    pose proof (Hl r ltac:(left)) as Hr. unfold loop_body.
    destruct (Z.ltb_spec 0 (dayscreditremaining c + dailytopuptotal r * 7)); cbn; lia.
Qed.

Lemma never_in_credit_aux (unittrans : list transaction) (startdate enddate : Z)
    (installdate : option Z) (d v : Z) :
  (forall t, t ∈ date_range startdate enddate -> t <= d ->
             topup_total_on unittrans t <= 0) ->
  status unittrans startdate enddate installdate d = Some (Num v) -> v <= 0.
Proof.
  intros Hno Hs.
  destruct (status_Num_inv _ _ _ _ _ _ Hs) as (Hax & _ & _ & Hb).
  assert (dayscreditremaining (counters_at unittrans startdate enddate installdate d)
          <= 0) as Hc.
  { unfold counters_at. apply iterrows_credit_nonpos; [|cbn; lia].
    intros r [Hlt Hr]%list_elem_of_filter. rewrite before_loop_rows in Hr.
    apply list_elem_of_fmap in Hr as (t & -> & Ht). cbn in *. apply Hno; [exact Ht|lia]. }
  pose proof (counters_at_ooc_nonneg unittrans startdate enddate installdate d) as Hooc.
  pose proof (Hno d Hax ltac:(lia)) as Hd.
  revert Hb. unfold loop_body. cbn [dailytopuptotal day_row].
  destruct (Z.ltb_spec 0 (dayscreditremaining
              (counters_at unittrans startdate enddate installdate d)
            + topup_total_on unittrans d * 7)); cbn [fst]; intros [= E]; lia.
Qed.

(** No credit without a top-up: if no day of the range up to [d] has a
    positive total top-up, day [d] is not returned in credit. *)
Theorem no_credit_without_topup (unittrans : list transaction) (startdate enddate : Z)
    (installdate : option Z) (d : Z) :
  (forall t, t ∈ date_range startdate enddate -> t <= d ->
             topup_total_on unittrans t <= 0) ->
  forall n, classify <$> status unittrans startdate enddate installdate d
            <> Some (CreditRemaining n).
Proof.
  intros Hno n Hd.
  destruct (status unittrans startdate enddate installdate d) as [c|] eqn:Hs;
    [|discriminate].
  injection Hd as Hd. apply classify_CreditRemaining in Hd as [-> Hn].
  pose proof (never_in_credit_aux _ _ _ _ _ _ Hno Hs). lia.
Qed.

Lemma no_credit_without_topup_witness :
  classify <$> status [unlock (3 * day + 5) "u"; topup (2 * day) "u" 3 1]
                      0 (4 * day) (Some 0) day
  <> Some (CreditRemaining 7).
Proof.
  apply (no_credit_without_topup [unlock (3 * day + 5) "u"; topup (2 * day) "u" 3 1]
                                 0 (4 * day) (Some 0) day).
  intros t (k & Hk & -> & _)%elem_of_date_range Hle.
  assert (k = 0 \/ k = 1) as [-> | ->] by (unfold day in *; lia); vm_compute;
    discriminate.
Defined.

(** The left join matches labels exactly: when [startdate] is not a
    midnight no label of the range meets a resampled day, no top-up is
    ever credited and no day is returned in credit. *)
Theorem unaligned_start_never_in_credit (unittrans : list transaction)
    (startdate enddate : Z) (installdate : option Z) :
  startdate mod day <> 0 ->
  forall d n, classify <$> status unittrans startdate enddate installdate d
              <> Some (CreditRemaining n).
Proof.
  intros Hun d n Hd.
  destruct (status unittrans startdate enddate installdate d) as [c|] eqn:Hs;
    [|discriminate].
  injection Hd as Hd. apply classify_CreditRemaining in Hd as [-> Hn].
  assert (n <= 0); [|lia].
  apply (never_in_credit_aux unittrans startdate enddate installdate d n); [|exact Hs].
  intros t (k & _ & -> & _)%elem_of_date_range _.
  rewrite topup_total_on_unaligned; [lia|].
  unfold day in *. Z.div_mod_to_equations. lia.
Qed.

Lemma unaligned_start_never_in_credit_witness :
  classify <$> status [topup 3600 "u" 4 4] 1800 (3 * day) None (1800 + day)
  <> Some (CreditRemaining 28).
Proof.
  apply (unaligned_start_never_in_credit [topup 3600 "u" 4 4] 1800 (3 * day) None).
  vm_compute. discriminate.
Defined.

(** ** Accounting for the credit *)

Lemma filter_ext_in {A : Type} (P Q : A -> Prop) `{forall x, Decision (P x)}
    `{forall x, Decision (Q x)} (l : list A) :
  (forall x, x ∈ l -> (P x <-> Q x)) -> filter P l = filter Q l.
Proof.
  induction l as [|a l IH]; intros Hext; [reflexivity|].
  rewrite !filter_cons.
  assert (filter P l = filter Q l) as ->
    by (apply IH; intros x Hx; apply Hext; right; exact Hx).
  pose proof (Hext a ltac:(left)) as Ha.
  destruct (decide (P a)), (decide (Q a)); tauto.
Qed.

Lemma iterrows_account (sel : Z -> bool) (l : list row) (c : counters) :
  (forall r, r ∈ l -> in_credit (unitstatus r) = false) ->
  0 <= continuousdaysooc c ->
  days_in_credit (iterrows sel l c).1 + dayscreditremaining (iterrows sel l c).2
  = dayscreditremaining c
    + 7 * foldr Z.add 0
            (map dailytopuptotal (filter (fun r => sel (index r) = true) l)).
Proof.
  unfold days_in_credit.
  revert c. induction l as [|r l IH]; intros c Hl Hc; [cbn; lia|].
  assert (forall r', r' ∈ l -> in_credit (unitstatus r') = false) as Hl'
    by (intros r' Hr'; apply Hl; right; exact Hr').
  rewrite iterrows_cons. cbn [fst snd]. rewrite !filter_cons. cbn beta.
  destruct (decide (sel (index r) = true)) as [Hsel|Hsel].
  - rewrite Hsel. cbn [map foldr]. unfold loop_body.
    destruct (Z.ltb_spec 0 (dayscreditremaining c + dailytopuptotal r * 7))
      as [Hpos|Hneg]; cbn [fst snd set_value unitstatus in_credit].
    + apply Z.ltb_lt in Hpos as Hpos'. rewrite Hpos'.
      destruct (decide (true = true)); [|congruence]. cbn [length].
      specialize (IH {| dayscreditremaining :=
                          dayscreditremaining c + dailytopuptotal r * 7 + -1;
                        continuousdaysooc := 0 |} Hl' ltac:(cbn; lia)).
      cbn [dayscreditremaining] in IH. lia.
    + replace (0 <? - continuousdaysooc c) with false
        by (symmetry; apply Z.ltb_ge; lia).
      destruct (decide (false = true)); [discriminate|].
      specialize (IH {| dayscreditremaining :=
                          dayscreditremaining c + dailytopuptotal r * 7;
                        continuousdaysooc := continuousdaysooc c + 1 |}
                     Hl' ltac:(cbn; lia)).
      cbn [dayscreditremaining] in IH. lia.
  - assert (sel (index r) = false) as Hf by (destruct (sel (index r)); congruence).
    rewrite Hf, (Hl r) by left.
    destruct (decide (false = true)); [discriminate|].
    apply IH; assumption.
Qed.

Lemma iterrows_filter_totals (P : Z -> Prop) `{forall t, Decision (P t)}
    (sel : Z -> bool) (l : list row) (c : counters) :
  map dailytopuptotal (filter (fun r => P (index r)) (iterrows sel l c).1)
  = map dailytopuptotal (filter (fun r => P (index r)) l).
Proof.
  revert c. induction l as [|r l IH]; intros c; [reflexivity|].
  rewrite iterrows_cons. cbn [fst]. rewrite !filter_cons.
  assert (index (if sel (index r) then set_value r (loop_body r c).1 else r) = index r)
    as Ei by (destruct (sel (index r)); reflexivity).
  assert (dailytopuptotal (if sel (index r) then set_value r (loop_body r c).1 else r)
          = dailytopuptotal r)
    as Et by (destruct (sel (index r)); reflexivity).
  rewrite Ei. destruct (decide (P (index r))); cbn [map]; rewrite ?Et, IH; reflexivity.
Qed.

Lemma overwrite_unlocked_none (unittrans : list transaction) (rows : list row) :
  unlock_rows unittrans = [] -> overwrite_unlocked unittrans rows = rows.
Proof.
  intros E. unfold overwrite_unlocked, loc_set. rewrite E. cbn.
  apply map_id.
Qed.

(** Accounting: for a unit that is never unlocked, each week bought from
    the install date on pays for exactly seven days in credit.  Seven
    times the weeks recorded from the install date on equals the number
    of days returned in credit plus the credit the loop is left with at
    the end of the range. *)
Theorem credit_accounting (unittrans : list transaction) (startdate enddate : Z)
    (installdate : option Z) :
  unlock_rows unittrans = [] ->
  days_in_credit (dailyhistory_rows unittrans startdate enddate installdate)
  + dayscreditremaining
      (counters_at unittrans startdate enddate installdate (enddate + day))
  = 7 * weeks_bought (resolve_installdate unittrans installdate)
                     (dailyhistory_rows unittrans startdate enddate installdate).
Proof.
  intros Hno. rewrite dailyhistory_rows_eq, (overwrite_unlocked_none _ _ Hno).
  unfold counters_at, weeks_bought.
  rewrite (filter_all (fun r => index r < enddate + day)).
  2:{ intros r Hr. rewrite before_loop_rows in Hr.
      apply elem_of_map_day_row, axis_le_enddate in Hr. unfold day. lia. }
  pose proof (iterrows_filter_totals
                (fun t => ge_dt t (resolve_installdate unittrans installdate) = true)
                (visited unittrans enddate installdate)
                (before_loop unittrans startdate enddate installdate) counters0) as E.
  cbv beta in E. rewrite E. clear E.
  rewrite iterrows_account.
  - cbn [dayscreditremaining counters0]. rewrite Z.add_0_l. do 3 f_equal.
    apply filter_ext_in. intros r Hr. rewrite before_loop_rows in Hr.
    apply elem_of_map_day_row, axis_le_enddate in Hr.
    unfold visited. rewrite loop_bound_cases, Hno.
    replace (index r <? enddate + 365 * day) with true
      by (symmetry; apply Z.ltb_lt; unfold day; lia).
    rewrite andb_true_r. reflexivity.
  - intros r Hr. rewrite before_loop_rows in Hr.
    apply list_elem_of_fmap in Hr as (t & -> & _).
    unfold day_row. cbn [unitstatus]. rewrite Hno.
    destruct (lt_dt t _); reflexivity.
  - cbn. lia.
Qed.

Lemma credit_accounting_witness :
  days_in_credit (dailyhistory_rows [topup 60 "u" 3 1; topup (3 * day + 9) "u" 4 4]
                                    0 (5 * day) None)
  + dayscreditremaining
      (counters_at [topup 60 "u" 3 1; topup (3 * day + 9) "u" 4 4]
                   0 (5 * day) None (5 * day + day))
  = 7 * weeks_bought (resolve_installdate
                        [topup 60 "u" 3 1; topup (3 * day + 9) "u" 4 4] None)
                     (dailyhistory_rows [topup 60 "u" 3 1; topup (3 * day + 9) "u" 4 4]
                                        0 (5 * day) None).
Proof.
  apply (credit_accounting [topup 60 "u" 3 1; topup (3 * day + 9) "u" 4 4]
                           0 (5 * day) None).
  reflexivity.
Defined.

(** * Further properties of the day truncation *)

(** [dayofdatetime] returns a midnight: the one of the day that holds the
    timestamp, or with [nextday] the following one.  It is the only
    midnight so placed, and truncating it again changes nothing. *)
Theorem dayofdatetime_characterised (t : Z) (nextday : bool) :
  let r := dayofdatetime t nextday in
  r mod day = 0 /\
  (if nextday then r - day <= t < r else r <= t < r + day) /\
  dayofdatetime r false = r /\
  (forall m, m mod day = 0 ->
             (if nextday then m - day <= t < m else m <= t < m + day) -> m = r).
Proof.
  cbv zeta. destruct nextday; unfold dayofdatetime, day; repeat split;
    try (Z.div_mod_to_equations; lia);
    intros m Hm Hb; Z.div_mod_to_equations; lia.
Qed.

Lemma dayofdatetime_characterised_witness :
  2 * day = dayofdatetime (day + 3600) true.
Proof.
  refine (proj2 (proj2 (proj2 (dayofdatetime_characterised (day + 3600) true)))
                (2 * day) _ _).
  - reflexivity.
  - unfold day. lia.
Defined.

(** * Further properties of the table *)

Lemma unithistorytable_inv (translog : list transaction) (table : DataFrame) :
  unithistorytable translog = Some table ->
  exists lo hi,
    index_min (map timestamp translog) = Some lo /\
    index_max (map timestamp translog) = Some hi /\
    table_startdate translog = Some (dayofdatetime lo false) /\
    table_enddate translog = Some (dayofdatetime hi false + day) /\
    table = {| df_index := date_range (dayofdatetime lo false)
                                      (dayofdatetime hi false + day);
               df_columns :=
                 map (fun g => (g.1, map unitstatus
                                       (dailyhistory_rows g.2 (dayofdatetime lo false)
                                          (dayofdatetime hi false + day) None)))
                     (groupby_unit_id translog) |}.
Proof.
  intros Ht. destruct translog as [|e l]; [discriminate|].
  destruct (table_bounds (e :: l) ltac:(discriminate)) as (lo & hi & Elo & Ehi & Hs & He).
  exists lo, hi. rewrite (unithistorytable_eq _ _ _ Hs He) in Ht.
  injection Ht as <-. auto.
Qed.

Lemma table_cell (translog : list transaction) (startdate enddate : Z)
    (u : string) (t : Z) :
  u ∈ map unit_id translog ->
  at_label {| df_index := date_range startdate enddate;
              df_columns :=
                map (fun g => (g.1, map unitstatus
                                      (dailyhistory_rows g.2 startdate enddate None)))
                    (groupby_unit_id translog) |} u t
  = status (filter (fun e => unit_id e = u) translog) startdate enddate None t.
Proof.
  intros Hu. unfold at_label. cbn [df_index df_columns].
  rewrite (column_groupby translog
             (fun ut => map unitstatus (dailyhistory_rows ut startdate enddate None))).
  rewrite decide_True by exact Hu.
  rewrite status_rows, dailyhistory_index. reflexivity.
Qed.

Lemma group_nonempty (translog : list transaction) (u : string) :
  u ∈ map unit_id translog -> filter (fun e => unit_id e = u) translog <> [].
Proof.
  intros (e & -> & He)%list_elem_of_fmap Hnil.
  assert (e ∈ filter (fun e' => unit_id e' = unit_id e) translog) as Hin
    by (apply list_elem_of_filter; auto).
  rewrite Hnil in Hin. inversion Hin.
Qed.

(** The table has no hole: for every unit of the log and every day of the
    axis the cell holds ['S'], ['U'] or a number. *)
Theorem table_has_no_null (translog : list transaction) (table : DataFrame)
    (u : string) (t : Z) :
  unithistorytable translog = Some table ->
  u ∈ map unit_id translog ->
  t ∈ df_index table ->
  exists c, at_label table u t = Some c /\ classify c <> Absent.
Proof.
  intros (lo & hi & _ & _ & _ & _ & ->)%unithistorytable_inv Hu Ht.
  cbn [df_index] in Ht. rewrite (table_cell _ _ _ _ _ Hu).
  destruct (resolve_installdate_Some (filter (fun e => unit_id e = u) translog) None)
    as [inst Hi]; [left; apply group_nonempty; exact Hu|].
  destruct (status_not_null _ _ _ _ _ _ Hi Ht) as (c & Hc & Hn).
  exists c. split; [exact Hc|]. destruct c as [| | |v]; cbn; try discriminate.
  - congruence.
  - destruct (0 <? v); discriminate.
Qed.

Lemma table_has_no_null_witness :
  exists c, at_label {| df_index := [0; day; 2 * day; 3 * day];
                        df_columns := [("a"%string, [Str_S; Num 28; Num 27; Num 26]);
                                       ("b"%string, [Num 7; Num 6; Str_U; Str_U])] |}
                     "a" day = Some c /\ classify c <> Absent.
Proof.
  apply (table_has_no_null sample_log).
  - reflexivity.
  - vm_compute. right. left.
  - vm_compute. right. left.
Defined.

Lemma status_stock (unittrans : list transaction) (startdate enddate : Z)
    (installdate : option Z) (d inst : Z) :
  d ∈ date_range startdate enddate ->
  resolve_installdate unittrans installdate = Some inst ->
  d < inst ->
  (forall e, e ∈ unlock_rows unittrans -> d < dayofdatetime (timestamp e) false) ->
  status unittrans startdate enddate installdate d = Some Str_S.
Proof.
  intros Hax Hi Hd Hun. rewrite (status_at _ _ _ _ _ Hax). f_equal.
  unfold final_status.
  replace (ge_dt d (index_min (map timestamp (unlock_rows unittrans)))) with false.
  2:{ symmetry. destruct (ge_dt d _) eqn:E; [|reflexivity].
      apply ge_dt_index_min in E as (x & (e' & -> & He')%list_elem_of_fmap & Hx).
      pose proof (Hun e' He'). pose proof (dayofdatetime_le (timestamp e')). lia. }
  unfold visited, day_row. rewrite Hi. cbn [ge_dt lt_dt unitstatus].
  replace (inst <=? d) with false by (symmetry; apply Z.leb_gt; exact Hd).
  replace (d <? inst) with true by (symmetry; apply Z.ltb_lt; exact Hd).
  cbn [andb]. destruct (unlock_rows unittrans) as [|e0 l] eqn:E; [reflexivity|].
  replace (dayofdatetime (timestamp e0) false <=? d) with false; [reflexivity|].
  symmetry. apply Z.leb_gt. apply Hun. left.
Qed.

(** In the table a unit is in stock on every day of the axis that comes
    before the calendar day of each of its events. *)
Theorem table_stock_before_first_event (translog : list transaction)
    (table : DataFrame) (u : string) (t : Z) :
  unithistorytable translog = Some table ->
  u ∈ map unit_id translog ->
  t ∈ df_index table ->
  (forall e, e ∈ translog -> unit_id e = u -> t < dayofdatetime (timestamp e) false) ->
  at_label table u t = Some Str_S.
Proof.
  intros (lo & hi & _ & _ & _ & _ & ->)%unithistorytable_inv Hu Ht Hbefore.
  cbn [df_index] in Ht. rewrite (table_cell _ _ _ _ _ Hu).
  set (unittrans := filter (fun e => unit_id e = u) translog).
  destruct (index_min (map timestamp unittrans)) as [m|] eqn:Em.
  2:{ destruct unittrans eqn:E; [|discriminate].
      exfalso. apply (group_nonempty _ _ Hu). exact E. }
  apply (status_stock _ _ _ _ _ (dayofdatetime m false)).
  - exact Ht.
  - apply default_installdate. exact Em.
  - apply index_min_elem, list_elem_of_fmap in Em as (e & -> & He).
    apply list_elem_of_filter in He as [Hid He]. apply Hbefore; assumption.
  - intros e [_ [Hid He]%list_elem_of_filter]%list_elem_of_filter.
    apply Hbefore; assumption.
Qed.

Lemma table_stock_before_first_event_witness :
  at_label {| df_index := [0; day; 2 * day; 3 * day];
              df_columns := [("a"%string, [Str_S; Num 28; Num 27; Num 26]);
                             ("b"%string, [Num 7; Num 6; Str_U; Str_U])] |}
           "a" 0 = Some Str_S.
Proof.
  apply (table_stock_before_first_event sample_log).
  - reflexivity.
  - vm_compute. right. left.
  - vm_compute. left.
  - intros e He Hid. vm_compute in He.
    repeat (apply elem_of_cons in He as [-> | He]); try discriminate Hid.
    + vm_compute. reflexivity.
    + inversion He.
Defined.

(** The table is rectangular: every column is as long as the index, and
    the index runs from the day of the first event of the log to the day
    after the day of its last event, both included. *)
Theorem table_rectangular (translog : list transaction) (table : DataFrame)
    (lo hi : Z) :
  unithistorytable translog = Some table ->
  index_min (map timestamp translog) = Some lo ->
  index_max (map timestamp translog) = Some hi ->
  length (df_index table) = Z.to_nat (hi / day - lo / day + 2) /\
  Forall (fun c => length c.2 = length (df_index table)) (df_columns table).
Proof.
  intros (lo' & hi' & Elo & Ehi & _ & _ & ->)%unithistorytable_inv Hlo Hhi.
  rewrite Hlo in Elo. rewrite Hhi in Ehi. injection Elo as <-. injection Ehi as <-.
  cbn [df_index df_columns]. split.
  - unfold date_range. rewrite length_days_from.
    assert (lo <= hi) as Hle
      by (apply (index_max_ge _ _ Hhi); exact (index_min_elem _ _ Hlo)).
    replace (dayofdatetime lo false <=? dayofdatetime hi false + day) with true
      by (symmetry; apply Z.leb_le; unfold dayofdatetime, day;
          Z.div_mod_to_equations; lia).
    f_equal. unfold dayofdatetime, day. Z.div_mod_to_equations. lia.
  - apply Forall_forall. intros c (g & -> & _)%list_elem_of_fmap. cbn [snd].
    rewrite length_map, <- (length_map index), dailyhistory_index. reflexivity.
Qed.

Lemma table_rectangular_witness :
  length [0; day; 2 * day; 3 * day] = Z.to_nat (2 * day / day - 3600 / day + 2).
Proof.
  refine (proj1 (table_rectangular sample_log
            {| df_index := [0; day; 2 * day; 3 * day];
               df_columns := [("a"%string, [Str_S; Num 28; Num 27; Num 26]);
                              ("b"%string, [Num 7; Num 6; Str_U; Str_U])] |}
            3600 (2 * day) _ _ _)); reflexivity.
Defined.

(** The columns of the table are named after the units of the log, each
    unit once, in increasing order of the identifiers. *)
Theorem table_columns_sorted (translog : list transaction) (table : DataFrame) :
  unithistorytable translog = Some table ->
  StronglySorted String.le (df_columns table).*1 /\
  NoDup (df_columns table).*1 /\
  (forall u, u ∈ (df_columns table).*1 <-> u ∈ map unit_id translog).
Proof.
  intros (lo & hi & _ & _ & _ & _ & ->)%unithistorytable_inv.
  cbn [df_columns].
  assert ((map (fun g : string * list transaction =>
                  (g.1, map unitstatus
                          (dailyhistory_rows g.2 (dayofdatetime lo false)
                             (dayofdatetime hi false + day) None)))
               (groupby_unit_id translog)).*1
          = (groupby_unit_id translog).*1) as ->.
  { rewrite <- list_fmap_compose. reflexivity. }
  split; [|split].
  - rewrite groupby_keys. apply StronglySorted_merge_sort; apply _.
  - apply NoDup_groupby_keys.
  - apply elem_of_groupby_keys.
Qed.

Lemma table_columns_sorted_witness :
  StronglySorted String.le ["a"; "b"]%string.
Proof.
  refine (proj1 (table_columns_sorted sample_log
            {| df_index := [0; day; 2 * day; 3 * day];
               df_columns := [("a"%string, [Str_S; Num 28; Num 27; Num 26]);
                              ("b"%string, [Num 7; Num 6; Str_U; Str_U])] |} _)).
  reflexivity.
Defined.

(** * Properties of the preparation of the log *)

(** ** Unit identifiers *)

Lemma length_string_app (s t : string) :
  String.length (s +:+ t) = (String.length s + String.length t)%nat.
Proof. induction s as [|a s IH]; [reflexivity|]. simpl. f_equal. exact IH. Qed.

Lemma substring_prefix (s t : string) :
  String.substring 0 (String.length s) (s +:+ t) = s.
Proof.
  induction s as [|a s IH]; simpl.
  - destruct t; reflexivity.
  - rewrite IH. reflexivity.
Qed.

Lemma substring_suffix (s t : string) (n : nat) :
  String.substring (String.length s) n (s +:+ t) = String.substring 0 n t.
Proof. induction s as [|a s IH]; simpl; [reflexivity | exact IH]. Qed.

Lemma substring_0_short (x : string) (n : nat) :
  (String.length x <= n)%nat -> String.substring 0 n x = x.
Proof.
  revert n. induction x as [|a x IH]; intros n Hn.
  - destruct n; reflexivity.
  - destruct n as [|n]; [simpl in Hn; lia|].
    simpl. f_equal. apply IH. simpl in Hn. lia.
Qed.

Lemma substring_split (x : string) (n : nat) :
  (n <= String.length x)%nat ->
  x = String.substring 0 n x +:+ String.substring n (String.length x - n) x.
Proof.
  revert n. induction x as [|a x IH]; intros n Hn.
  - simpl in Hn. replace n with 0%nat by lia. reflexivity.
  - destruct n as [|n].
    + simpl. rewrite substring_0_short by lia. reflexivity.
    + simpl.
      change (String a x
              = String a (String.substring 0 n x
                          +:+ String.substring n (String.length x - n) x)).
      f_equal. apply IH. simpl in Hn. lia.
Qed.

(** The clean-up removes one trailing [".0"] and nothing else: a text
    [s ++ ".0"] becomes [s], and a text that does not end in [".0"] is
    returned as it is. *)
Theorem clean_unit_id_spec :
  (forall s, clean_unit_id (s +:+ ".0") = s) /\
  (forall x, (forall s, x <> s +:+ ".0") -> clean_unit_id x = x) /\
  (forall x, clean_unit_id x = x \/ x = clean_unit_id x +:+ ".0").
Proof.
  assert (forall s, last_two (s +:+ ".0") = ".0"%string) as Hlast.
  { intros s. unfold last_two. rewrite length_string_app. simpl String.length.
    replace (String.length s + 2 - 2)%nat with (String.length s) by lia.
    rewrite substring_suffix. reflexivity. }
  assert (forall x, last_two x = ".0"%string -> x = all_but_last_two x +:+ ".0")
    as Hsplit.
  { intros x Hx. unfold last_two, all_but_last_two in *.
    destruct (le_lt_dec 2 (String.length x)) as [Hlen|Hlen].
    - pose proof (substring_split x (String.length x - 2) ltac:(lia)) as E.
      replace (String.length x - (String.length x - 2))%nat with 2%nat in E by lia.
      rewrite Hx in E. exact E.
    - exfalso. replace (String.length x - 2)%nat with 0%nat in Hx by lia.
      rewrite substring_0_short in Hx by lia. subst x. simpl in Hlen. lia. }
  split; [|split].
  - intros s. unfold clean_unit_id. rewrite decide_True by apply Hlast.
    unfold all_but_last_two. rewrite length_string_app. simpl String.length.
    replace (String.length s + 2 - 2)%nat with (String.length s) by lia.
    apply substring_prefix.
  - intros x Hx. unfold clean_unit_id.
    destruct (decide (last_two x = ".0"%string)) as [H|H]; [|reflexivity].
    exfalso. exact (Hx _ (Hsplit x H)).
  - intros x. unfold clean_unit_id.
    destruct (decide (last_two x = ".0"%string)) as [H|H]; [|left; reflexivity].
    right. apply Hsplit. exact H.
Qed.

Lemma clean_unit_id_spec_witness : clean_unit_id "12" = "12"%string.
Proof.
  refine (proj1 (proj2 clean_unit_id_spec) "12"%string _).
  intros s Hs.
  assert (String.length "12" = String.length (s +:+ ".0")) as Hl by (rewrite <- Hs; reflexivity).
  rewrite length_string_app in Hl.
  destruct s as [|a s]; [discriminate Hs|]. simpl in Hl. lia.
Defined.

(** ** Top-up values *)

Lemma foldl_assign_topupvalue (items : list (Z * Z)) (frame : list transaction) :
  NoDup items.*1 ->
  foldl (fun frame kv => assign_topupvalue kv.1 kv.2 frame) frame items
  = map (fun e => match (list_to_map items : gmap Z Z) !! function_code e with
                  | Some v => with_topupvalue e (PyInt v)
                  | None => e
                  end) frame.
Proof.
  revert frame. induction items as [|[k v] items IH]; intros frame Hnd.
  - cbn. symmetry. apply map_id.
  - apply NoDup_cons in Hnd as [Hk Hnd]. cbn [foldl fst snd].
    rewrite IH by exact Hnd. unfold assign_topupvalue. rewrite map_map.
    apply map_ext. intros e. cbn [list_to_map foldr uncurry].
    cbn [fst snd] in *.
    destruct (decide (function_code e = k)) as [E|Hne].
    + cbn [function_code with_topupvalue]. rewrite E.
      rewrite (not_elem_of_list_to_map_1 items k Hk), lookup_insert_eq. reflexivity.
    + rewrite lookup_insert_ne by congruence. reflexivity.
Qed.

(** After [topupvalues] every row carries the value that the dictionary
    gives to its function code, and no value when the code is not a key;
    the order in which the loop meets the keys does not matter. *)
Theorem topupvalues_lookup (translog : list transaction) (valuedict : gmap Z Z)
    (items : list (Z * Z)) :
  items ≡ₚ map_to_list valuedict ->
  topupvalues_in_order translog items
  = map (fun e => with_topupvalue e (value_for valuedict e)) translog /\
  topupvalues_in_order translog items = topupvalues translog valuedict.
Proof.
  assert (forall items', items' ≡ₚ map_to_list valuedict ->
            topupvalues_in_order translog items'
            = map (fun e => with_topupvalue e (value_for valuedict e)) translog) as H.
  { intros items' Hp. unfold topupvalues_in_order.
    assert (NoDup items'.*1) as Hnd
      by (rewrite Hp; apply NoDup_fst_map_to_list).
    rewrite (foldl_assign_topupvalue _ _ Hnd), map_map.
    rewrite (list_to_map_proper _ _ Hnd Hp), list_to_map_to_list.
    apply map_ext. intros e. unfold value_for. cbn [function_code with_topupvalue].
    destruct (valuedict !! function_code e); reflexivity. }
  intros Hp. split; [apply H; exact Hp|].
  unfold topupvalues. rewrite (H items Hp), (H (map_to_list valuedict)); reflexivity.
Qed.

Lemma topupvalues_lookup_witness :
  topupvalues_in_order [topup 60 "u" 3 0; unlock 70 "u"; topup 80 "u" 4 0]
                       [(4, 4); (3, 1)]
  = topupvalues [topup 60 "u" 3 0; unlock 70 "u"; topup 80 "u" 4 0]
                (<[3 := 1]> (<[4 := 4]> ∅)).
Proof.
  apply (topupvalues_lookup [topup 60 "u" 3 0; unlock 70 "u"; topup 80 "u" 4 0]
                            (<[3 := 1]> (<[4 := 4]> ∅)) [(4, 4); (3, 1)]).
  rewrite map_to_list_insert by reflexivity.
  rewrite map_to_list_insert by reflexivity.
  rewrite map_to_list_empty. apply perm_swap.
Defined.

Lemma topupvalues_eq (translog : list transaction) (valuedict : gmap Z Z) :
  topupvalues translog valuedict
  = map (fun e => with_topupvalue e (value_for valuedict e)) translog.
Proof.
  unfold topupvalues, topupvalues_in_order.
  rewrite (foldl_assign_topupvalue _ _ (NoDup_fst_map_to_list valuedict)), map_map.
  rewrite list_to_map_to_list.
  apply map_ext. intros e. unfold value_for. cbn [function_code with_topupvalue].
  destruct (valuedict !! function_code e); reflexivity.
Qed.

Lemma weeks_value_for (valuedict : gmap Z Z) (e : transaction) :
  weeks (with_topupvalue e (value_for valuedict e))
  = default 0 (valuedict !! function_code e).
Proof.
  unfold weeks, value_for. cbn [topupvalue with_topupvalue].
  destruct (valuedict !! function_code e); reflexivity.
Qed.

(** [topupvalues] touches no other column, and for the simulator the
    total top-up of a day becomes the sum, over the events of that day, of
    the values the dictionary gives to their function codes, an unknown
    code counting for nothing. *)
Theorem topupvalues_totals (translog : list transaction) (valuedict : gmap Z Z) :
  map timestamp (topupvalues translog valuedict) = map timestamp translog /\
  map unit_id (topupvalues translog valuedict) = map unit_id translog /\
  map function_code (topupvalues translog valuedict) = map function_code translog /\
  forall d,
    topup_total_on (topupvalues translog valuedict) d
    = foldr Z.add 0
        (map (fun e => default 0 (valuedict !! function_code e))
             (filter (fun e => dayofdatetime (timestamp e) false = d) translog)).
Proof.
  rewrite topupvalues_eq. rewrite !map_map. cbn [timestamp unit_id function_code
                                                 with_topupvalue].
  repeat split; try reflexivity.
  intros d. unfold topup_total_on.
  induction translog as [|e l IH]; [reflexivity|].
  cbn [map]. rewrite !filter_cons. cbn [timestamp with_topupvalue].
  destruct (decide (dayofdatetime (timestamp e) false = d)); [|exact IH].
  cbn [map foldr]. rewrite IH, weeks_value_for. reflexivity.
Qed.

Lemma topup_total_nonpos (unittrans : list transaction) (t : Z) :
  (forall e, e ∈ unittrans -> weeks e <= 0) -> topup_total_on unittrans t <= 0.
Proof.
  intros Hall. unfold topup_total_on.
  induction unittrans as [|e l IH]; [cbn; lia|].
  rewrite filter_cons.
  assert (foldr Z.add 0 (map weeks (filter
            (fun e => dayofdatetime (timestamp e) false = t) l)) <= 0) as Hl
    by (apply IH; intros e' He'; apply Hall; right; exact He').
  destruct (decide _); [|exact Hl].
  cbn [map foldr]. pose proof (Hall e ltac:(left)). lia.
Qed.

(** From the dictionary to the table: a unit all of whose events have
    function codes that the dictionary does not value, or values at zero
    or less, is never shown in credit in the table built from the log
    that [topupvalues] returns. *)
Theorem unvalued_codes_never_in_credit (translog : list transaction)
    (valuedict : gmap Z Z) (table : DataFrame) (u : string) :
  unithistorytable (topupvalues translog valuedict) = Some table ->
  (forall e, e ∈ translog -> unit_id e = u ->
             default 0 (valuedict !! function_code e) <= 0) ->
  forall t n, classify <$> at_label table u t <> Some (CreditRemaining n).
Proof.
  intros (lo & hi & _ & _ & _ & _ & ->)%unithistorytable_inv Hcodes t n.
  destruct (decide (u ∈ map unit_id (topupvalues translog valuedict))) as [Hu|Hu].
  - rewrite (table_cell _ _ _ _ _ Hu). intros Hd.
    destruct (status _ _ _ _ t) as [c|] eqn:Hs; [|discriminate].
    injection Hd as Hd. apply classify_CreditRemaining in Hd as [-> Hn].
    assert (n <= 0); [|lia].
    refine (never_in_credit_aux _ _ _ _ _ _ _ Hs).
    intros t' _ _. apply topup_total_nonpos.
    intros e' [Hid He']%list_elem_of_filter.
    rewrite topupvalues_eq in He'.
    apply list_elem_of_fmap in He' as (e & -> & He).
    rewrite weeks_value_for. apply Hcodes; [exact He | exact Hid].
  - unfold at_label. cbn [df_columns].
    rewrite (column_groupby _
               (fun ut => map unitstatus
                              (dailyhistory_rows ut (dayofdatetime lo false)
                                                 (dayofdatetime hi false + day) None))).
    rewrite decide_False by exact Hu. discriminate.
Qed.

Lemma unvalued_codes_never_in_credit_witness :
  classify <$> at_label
    {| df_index := [0; day; 2 * day];
       df_columns := [("a"%string, [Num 28; Num 27; Num 26]);
                      ("b"%string, [Num 0; Str_U; Str_U])] |} "b" 0
  <> Some (CreditRemaining 7).
Proof.
  apply (unvalued_codes_never_in_credit
           [topup 60 "b" 9 0; topup 90 "a" 4 0; unlock (day + 5) "b"]
           (<[3 := 1]> (<[4 := 4]> ∅))).
  - reflexivity.
  - intros e He Hid.
    repeat (apply elem_of_cons in He as [-> | He]); try discriminate Hid;
      [vm_compute; discriminate | vm_compute; discriminate | inversion He].
Defined.

(** ** Dropping columns *)

Lemma drop_columns_Some (droplist columns result : list string) :
  drop_columns droplist columns = Some result <->
  NoDup droplist /\ (forall d, d ∈ droplist -> d ∈ columns) /\
  result = filter (fun c => c ∉ droplist) columns.
Proof.
  revert columns. induction droplist as [|d rest IH]; intros columns; cbn.
  - split.
    + intros [= <-]. split; [constructor|]. split; [intros d Hd; inversion Hd|].
      symmetry. apply filter_all. intros c _ Hc. inversion Hc.
    + intros (_ & _ & ->). f_equal. symmetry. apply filter_all.
      intros c _ Hc. inversion Hc.
  - unfold drop_column. destruct (decide (d ∈ columns)) as [Hd|Hd].
    + rewrite IH. split.
      * intros (Hnd & Hsub & ->). split; [|split].
        -- constructor; [|exact Hnd]. intros Hin.
           apply Hsub, list_elem_of_filter in Hin as [Hne _]. congruence.
        -- intros d' [->|Hd']%elem_of_cons; [exact Hd|].
           apply Hsub, list_elem_of_filter in Hd' as [_ H]. exact H.
        -- rewrite list_filter_filter. apply filter_ext_in. intros c _.
           rewrite not_elem_of_cons. tauto.
      * intros (Hnd & Hsub & ->). apply NoDup_cons in Hnd as [Hn Hnd].
        split; [exact Hnd|]. split.
        -- intros d' Hd'. apply list_elem_of_filter. split.
           ++ intros ->. contradiction.
           ++ apply Hsub. right. exact Hd'.
        -- rewrite list_filter_filter. apply filter_ext_in. intros c _.
           rewrite not_elem_of_cons. tauto.
    + split; [discriminate|]. intros (_ & Hsub & _). exfalso. apply Hd, Hsub. left.
Qed.

(** The droplist is dropped label by label: the loop goes through exactly
    when every label of the list is a column and no label comes twice,
    and it then removes the columns of the list and no other. *)
Theorem drop_columns_spec (droplist columns : list string) :
  (NoDup droplist /\ (forall d, d ∈ droplist -> d ∈ columns) ->
   drop_columns droplist columns = Some (filter (fun c => c ∉ droplist) columns)) /\
  (~ NoDup droplist \/ (exists d, d ∈ droplist /\ d ∉ columns) ->
   drop_columns droplist columns = None).
Proof.
  split.
  - intros [Hnd Hsub]. apply drop_columns_Some. auto.
  - intros H. destruct (drop_columns droplist columns) as [r|] eqn:E; [|reflexivity].
    apply drop_columns_Some in E as (Hnd & Hsub & _).
    destruct H as [H | (d & Hd & Hn)]; [contradiction|].
    exfalso. apply Hn, Hsub, Hd.
Qed.

Lemma drop_columns_spec_witness :
  drop_columns ["b"; "b"]%string ["a"; "b"; "c"]%string = None.
Proof.
  apply (drop_columns_spec ["b"; "b"]%string ["a"; "b"; "c"]%string).
  left. intros Hnd. apply NoDup_cons in Hnd as [Hn _]. apply Hn. left.
Defined.

(** ** The shared default of [droplist] *)

Lemma drop_rename_index_dup (droplist : list string) (renamedict : gmap string string)
    (columns : list string) :
  ~ NoDup droplist -> drop_rename_index droplist renamedict columns = None.
Proof.
  intros Hnd. unfold drop_rename_index.
  destruct (drop_columns droplist columns) as [r|] eqn:E; [|reflexivity].
  apply drop_columns_Some in E as (H & _). contradiction.
Qed.

(** The default [droplist] remembers the calls.  A call that keeps only
    successful transactions and returns has appended ['Success'] to the
    list it was given; every later call on that list, again keeping only
    successful transactions, raises, whatever the files hold: it is asked
    to drop ['Success'] twice.  So [loadtransactionlog] can be called with
    its defaults once. *)
Theorem default_droplist_is_used_up (columns result : list string)
    (renamedict : gmap string string) (droplist droplist' : list string) :
  loadtransactionlog_columns columns true renamedict droplist
    = (droplist', Some result) ->
  droplist' = droplist ++ ["Success"%string] /\
  forall columns2 renamedict2,
    (loadtransactionlog_columns columns2 true renamedict2 droplist').2 = None.
Proof.
  unfold loadtransactionlog_columns at 1.
  repeat (destruct (decide _); [|discriminate]).
  intros [= <- _]. split; [reflexivity|].
  intros columns2 renamedict2. unfold loadtransactionlog_columns.
  repeat (destruct (decide _); [|reflexivity]). cbn [snd].
  apply drop_rename_index_dup. intros Hnd.
  apply NoDup_app in Hnd as (_ & Hdisj & _).
  apply (Hdisj "Success"%string); [|left].
  apply elem_of_app. right. left.
Qed.

Lemma default_droplist_is_used_up_witness :
  (loadtransactionlog_columns sample_columns true ∅
     (default_droplist ++ ["Success"%string])).2 = None.
Proof.
  refine (proj2 (default_droplist_is_used_up sample_columns
                   ["Function Code"; "Unit ID"]%string ∅ default_droplist
                   (default_droplist ++ ["Success"%string]) _) sample_columns ∅).
  reflexivity.
Defined.

(** ** The columns that are returned *)

Lemma filter_set_column (P : string -> Prop) `{forall c, Decision (P c)}
    (c : string) (columns : list string) :
  ~ P c -> filter P (set_column c columns) = filter P columns.
Proof.
  intros Hc. unfold set_column. destruct (decide (c ∈ columns)); [reflexivity|].
  rewrite filter_app, filter_cons_False by exact Hc. apply app_nil_r.
Qed.

(** Without renaming, a call that returns gives back the columns of the
    files and the cleaned ['Unit ID'], in their order, less the labels of
    the list [droplist] as the call leaves it and less ['timestamp'], which
    has become the index. *)
Theorem loaded_columns (columns result : list string) (successonly : bool)
    (droplist droplist' : list string) :
  loadtransactionlog_columns columns successonly ∅ droplist
    = (droplist', Some result) ->
  droplist' = (if successonly then droplist ++ ["Success"%string] else droplist) /\
  result = filter (fun c => (c ∉ droplist') /\ c <> "timestamp"%string)
                  (set_column "Unit ID" columns) /\
  (forall c, c ∈ droplist' -> c ∉ result).
Proof.
  intros Hload.
  assert (droplist' = (if successonly then droplist ++ ["Success"%string]
                       else droplist) /\
          drop_rename_index droplist' ∅
            (set_column "timestamp" (set_column "Unit ID" columns)) = Some result)
    as [Hd Hr].
  { revert Hload. unfold loadtransactionlog_columns.
    repeat (destruct (decide _); [|discriminate]).
    destruct successonly.
    - destruct (decide _); [|discriminate]. intros [= <- H]. auto.
    - intros [= <- H]. auto. }
  clear Hload.
  assert (result = filter (fun c => (c ∉ droplist') /\ c <> "timestamp"%string)
                          (set_column "Unit ID" columns)) as Hres.
  { revert Hr. unfold drop_rename_index.
    destruct (drop_columns droplist' _) as [r|] eqn:E; [|discriminate].
    apply drop_columns_Some in E as (_ & _ & ->).
    destruct (decide ((∅ : gmap string string) = ∅)); [|congruence].
    destruct (decide _); [|discriminate]. intros [= <-].
    rewrite list_filter_filter.
    rewrite (filter_ext_in (fun c => c <> "timestamp"%string /\ (c ∉ droplist'))
                           (fun c => (c ∉ droplist') /\ c <> "timestamp"%string))
      by (intros c _; tauto).
    apply filter_set_column. tauto. }
  split; [exact Hd|]. split; [exact Hres|].
  intros c Hc Hin. rewrite Hres in Hin.
  apply list_elem_of_filter in Hin as [[Hn _] _]. contradiction.
Qed.

Lemma loaded_columns_witness :
  ["Function Code"; "Unit ID"]%string
  = filter (fun c => (c ∉ default_droplist ++ ["Success"%string])
                     /\ c <> "timestamp"%string)
           (set_column "Unit ID" sample_columns).
Proof.
  refine (proj1 (proj2 (loaded_columns sample_columns
                          ["Function Code"; "Unit ID"]%string true default_droplist
                          (default_droplist ++ ["Success"%string]) _))).
  reflexivity.
Defined.

(** ** Unlocked days of a log in time order *)

Lemma unlocked_from_unlockDate_in_order_witness :
  classify <$> status [topup 60 "u" 3 1; unlock (2 * day + 5) "u"; unlock (3 * day) "u"]
                      0 (4 * day) None (2 * day)
  = Some Unlocked.
Proof.
  apply (unlocked_from_unlockDate_in_order
           [topup 60 "u" 3 1; unlock (2 * day + 5) "u"; unlock (3 * day) "u"]
           [unlock (3 * day) "u"] (unlock (2 * day + 5) "u")
           0 (4 * day) None (2 * day) (2 * day)).
  - reflexivity.
  - intros e He. apply list_elem_of_singleton in He. subst e. vm_compute. discriminate.
  - reflexivity.
  - apply elem_of_date_range. exists 2. unfold day. lia.
  - lia.
Defined.

(** * The simulator on fractions of a week *)

(** ** Whole numbers among the floats *)

Lemma Qred_inject_Z (z : Z) : Qred (inject_Z z) = inject_Z z.
Proof.
  unfold Qred, inject_Z.
  pose proof (Z.ggcd_gcd z 1) as Hg.
  pose proof (Z.ggcd_correct_divisors z 1) as Hd.
  destruct (Z.ggcd z 1) as [g [aa bb]]. cbn [fst snd] in *.
  rewrite Z.gcd_1_r in Hg. subst g. destruct Hd as [Ha Hb].
  assert (aa = z) as -> by lia. assert (bb = 1%Z) as -> by lia. reflexivity.
Qed.

Lemma fadd_inject_Z (a b : Z) : fadd (inject_Z a) (inject_Z b) = inject_Z (a + b).
Proof.
  unfold fadd. rewrite <- (Qred_inject_Z (a + b)). apply Qred_complete.
  rewrite inject_Z_plus. reflexivity.
Qed.

Lemma is_positive_inject_Z (z : Z) : is_positive (inject_Z z) = (0 <? z).
Proof.
  unfold is_positive, Qle_bool, inject_Z. cbn [Qnum Qden].
  rewrite Z.mul_1_r. cbn. destruct (Z.leb_spec z 0), (Z.ltb_spec 0 z); try reflexivity; lia.
Qed.

Lemma foldr_fadd_inject_Z (vs : list Z) :
  foldr fadd (inject_Z 0) (map inject_Z vs) = inject_Z (foldr Z.add 0 vs).
Proof.
  induction vs as [|v vs IH]; [reflexivity|].
  cbn [map foldr]. rewrite IH. apply fadd_inject_Z.
Qed.

(** ** The two simulators on whole weeks *)

Lemma f_timestamp_as_floats (unittrans : list transaction) :
  map f_timestamp (as_floats unittrans) = map timestamp unittrans.
Proof. unfold as_floats. rewrite map_map. reflexivity. Qed.

Lemma bin_values_as_floats (unittrans : list transaction) (t : Z) :
  bin_values_frac (as_floats unittrans) t
  = map inject_Z (bin_values (set_topupvalue_float unittrans) t).
Proof.
  unfold bin_values_frac, bin_values.
  induction unittrans as [|e l IH]; [reflexivity|].
  cbn [as_floats set_topupvalue_float map omap list_omap].
  fold (as_floats l). fold (set_topupvalue_float l).
  cbn [f_timestamp f_topupvalue timestamp topupvalue].
  destruct ((t <=? timestamp e) && (timestamp e <? t + day)); [|exact IH].
  destruct (float_value (astype_float (topupvalue e))) as [w|];
    cbn [fmap option_fmap option_map map]; rewrite IH; reflexivity.
Qed.

Lemma bin_sum_as_floats (unittrans : list transaction) (t : Z) :
  bin_sum_frac (as_floats unittrans) t
  = inject_Z <$> bin_sum (set_topupvalue_float unittrans) t.
Proof.
  unfold bin_sum_frac, bin_sum. rewrite bin_values_as_floats.
  destruct (bin_values (set_topupvalue_float unittrans) t) as [|v vs]; [reflexivity|].
  cbn [map fmap option_fmap option_map].
  rewrite <- (foldr_fadd_inject_Z (v :: vs)). reflexivity.
Qed.

Lemma dailytotals_as_floats (unittrans : list transaction) :
  dailytotals_frac (as_floats unittrans)
  = map (fun b => (b.1, inject_Z b.2)) (dailytotals unittrans).
Proof.
  unfold dailytotals_frac, dailytotals, resample_d_sum_frac, resample_d_sum.
  rewrite f_timestamp_as_floats, timestamp_set_topupvalue_float.
  destruct (index_min (map timestamp unittrans)) as [lo|]; [|reflexivity].
  destruct (index_max (map timestamp unittrans)) as [hi|]; [|reflexivity].
  rewrite !map_map. apply map_ext. intros t. cbn [fst snd].
  rewrite bin_sum_as_floats.
  destruct (bin_sum (set_topupvalue_float unittrans) t); reflexivity.
Qed.

Lemma loc_fmap {A B : Type} (h : A -> B) (t : Z) (l : list (Z * A)) :
  loc t (map (fun b => (b.1, h b.2)) l) = h <$> loc t l.
Proof.
  induction l as [|[t' v] l IH]; [reflexivity|].
  cbn. destruct (t' =? t); [reflexivity | exact IH].
Qed.

(** On whole weeks the float total of a day is the integer total. *)
Lemma daily_total_as_floats (unittrans : list transaction) (t : Z) :
  daily_total_frac (as_floats unittrans) t = inject_Z (topup_total_on unittrans t).
Proof.
  unfold daily_total_frac. rewrite dailytotals_as_floats, loc_fmap, <- joined_total.
  destruct (loc t (dailytotals unittrans)); reflexivity.
Qed.

Lemma resolve_installdate_as_floats (unittrans : list transaction)
    (installdate : option Z) :
  resolve_installdate_frac (as_floats unittrans) installdate
  = resolve_installdate unittrans installdate.
Proof.
  unfold resolve_installdate_frac, resolve_installdate.
  destruct installdate; [reflexivity|].
  rewrite dailytotals_as_floats, map_map. reflexivity.
Qed.

Lemma unlock_rows_as_floats (unittrans : list transaction) :
  unlock_rows_frac (as_floats unittrans) = as_floats (unlock_rows unittrans).
Proof.
  unfold unlock_rows_frac, unlock_rows.
  induction unittrans as [|e l IH]; [reflexivity|].
  cbn [as_floats map]. fold (as_floats l). rewrite !filter_cons.
  cbn [f_function_code]. destruct (decide (function_code e = 5));
    cbn [as_floats map]; rewrite IH; reflexivity.
Qed.

Lemma joined_as_floats (unittrans : list transaction) (startdate enddate : Z) :
  joined_frac (as_floats unittrans) startdate enddate
  = map row_as_float (joined unittrans startdate enddate).
Proof.
  unfold joined_frac, joined. rewrite map_map. apply map_ext. intros t.
  unfold row_as_float. cbn [index dailytopuptotal unitstatus cell_as_float].
  rewrite daily_total_as_floats, joined_total. reflexivity.
Qed.

Lemma loc_set_as_float (mask : Z -> bool) (v : cell) (l : list row) :
  loc_set_frac mask (cell_as_float v) (map row_as_float l)
  = map row_as_float (loc_set mask v l).
Proof.
  unfold loc_set_frac, loc_set. rewrite !map_map. apply map_ext. intros r.
  cbn [index_frac row_as_float]. destruct (mask (index r)); reflexivity.
Qed.

Lemma mark_stock_unlock_as_floats (unittrans : list transaction) (enddate : Z)
    (install : option Z) (l : list row) :
  mark_stock_unlock_frac (as_floats unittrans) enddate install (map row_as_float l)
  = (map row_as_float (mark_stock_unlock unittrans enddate install l).1,
     (mark_stock_unlock unittrans enddate install l).2).
Proof.
  unfold mark_stock_unlock_frac, mark_stock_unlock.
  rewrite unlock_rows_as_floats.
  change Str_S_frac with (cell_as_float Str_S).
  change Str_U_frac with (cell_as_float Str_U).
  destruct (unlock_rows unittrans) as [|e0 l0]; cbn [as_floats map fst snd f_timestamp];
    rewrite !loc_set_as_float; reflexivity.
Qed.

Lemma overwrite_unlocked_as_floats (unittrans : list transaction) (l : list row) :
  overwrite_unlocked_frac (as_floats unittrans) (map row_as_float l)
  = map row_as_float (overwrite_unlocked unittrans l).
Proof.
  unfold overwrite_unlocked_frac, overwrite_unlocked.
  rewrite unlock_rows_as_floats, f_timestamp_as_floats.
  change Str_U_frac with (cell_as_float Str_U). apply loc_set_as_float.
Qed.

(** One day of the loop on whole numbers. *)
Lemma loop_body_as_float (r : row) (c : counters) :
  loop_body_frac (row_as_float r) (counters_as_float c)
  = (cell_as_float (loop_body r c).1, counters_as_float (loop_body r c).2).
Proof.
  unfold loop_body_frac, loop_body.
  cbn [row_as_float counters_as_float dailytopuptotal_frac dayscreditremaining_frac
       continuousdaysooc_frac].
  assert (Qred (inject_Z (dayscreditremaining c)
                + inject_Z (dailytopuptotal r) * inject_Z 7)%Q
          = inject_Z (dayscreditremaining c + dailytopuptotal r * 7)) as ->.
  { rewrite <- inject_Z_mult, <- inject_Z_plus. apply Qred_inject_Z. }
  rewrite is_positive_inject_Z.
  destruct (0 <? dayscreditremaining c + dailytopuptotal r * 7);
    cbn [fst snd cell_as_float counters_as_float dayscreditremaining continuousdaysooc].
  - rewrite <- inject_Z_plus, Qred_inject_Z. reflexivity.
  - reflexivity.
Qed.

Lemma iterrows_as_float (sel : Z -> bool) (l : list row) (c : counters) :
  iterrows_frac sel (map row_as_float l) (counters_as_float c)
  = (map row_as_float (iterrows sel l c).1, counters_as_float (iterrows sel l c).2).
Proof.
  revert c. induction l as [|r l IH]; intros c; [reflexivity|].
  rewrite iterrows_cons. cbn [map iterrows_frac fst snd].
  cbn [index_frac row_as_float].
  destruct (sel (index r)).
  - rewrite loop_body_as_float, IH. reflexivity.
  - rewrite IH. reflexivity.
Qed.

Lemma dailyhistory_rows_as_floats (unittrans : list transaction)
    (startdate enddate : Z) (installdate : option Z) :
  dailyhistory_rows_frac (as_floats unittrans) startdate enddate installdate
  = map row_as_float (dailyhistory_rows unittrans startdate enddate installdate).
Proof.
  unfold dailyhistory_rows_frac, dailyhistory_rows.
  rewrite resolve_installdate_as_floats, joined_as_floats, mark_stock_unlock_as_floats.
  destruct (mark_stock_unlock unittrans enddate _ _) as [df u]. cbn [fst snd].
  change counters0_frac with (counters_as_float counters0).
  rewrite iterrows_as_float.
  destruct (iterrows _ df counters0) as [df' c']. cbn [fst snd].
  apply overwrite_unlocked_as_floats.
Qed.

(** On a log of whole weeks the simulator on floats returns the statuses
    of the simulator on integers. *)
Lemma status_frac_as_floats (unittrans : list transaction) (startdate enddate : Z)
    (installdate : option Z) (t : Z) :
  status_frac (as_floats unittrans) startdate enddate installdate t
  = cell_as_float <$> status unittrans startdate enddate installdate t.
Proof.
  unfold status_frac. rewrite dailyhistory_rows_as_floats, status_rows.
  generalize (dailyhistory_rows unittrans startdate enddate installdate).
  intros rows. induction rows as [|r rows IH]; [reflexivity|].
  cbn. destruct (index r =? t); [reflexivity | exact IH].
Qed.

Lemma filter_index_as_float (t : Z) (l : list row) :
  filter (fun r => index_frac r < t) (map row_as_float l)
  = map row_as_float (filter (fun r => index r < t) l).
Proof.
  induction l as [|r l IH]; [reflexivity|].
  cbn [map]. rewrite !filter_cons. cbn [index_frac row_as_float].
  destruct (decide (index r < t)); cbn [map]; rewrite IH; reflexivity.
Qed.

Lemma counters_at_frac_as_floats (unittrans : list transaction)
    (startdate enddate : Z) (installdate : option Z) (t : Z) :
  counters_at_frac (as_floats unittrans) startdate enddate installdate t
  = counters_as_float (counters_at unittrans startdate enddate installdate t).
Proof.
  unfold counters_at_frac, counters_at, before_loop, visited.
  rewrite resolve_installdate_as_floats, joined_as_floats, mark_stock_unlock_as_floats.
  rewrite <- (loop_bound_eq unittrans enddate
               (resolve_installdate unittrans installdate)
               (joined unittrans startdate enddate)).
  destruct (mark_stock_unlock unittrans enddate _ _) as [df u]. cbn [fst snd].
  rewrite filter_index_as_float.
  change counters0_frac with (counters_as_float counters0).
  rewrite iterrows_as_float. reflexivity.
Qed.

(** ** Debt *)

Lemma cell_as_float_Num (c : cell) (v : Z) :
  cell_as_float c = Num_frac (inject_Z v) -> c = Num v.
Proof.
  destruct c as [| | |v']; try discriminate. cbn. unfold inject_Z.
  intros [= ->]. reflexivity.
Qed.

Lemma status_frac_Num (unittrans : list transaction) (startdate enddate : Z)
    (installdate : option Z) (d v : Z) :
  status_frac (as_floats unittrans) startdate enddate installdate d
    = Some (Num_frac (inject_Z v)) <->
  status unittrans startdate enddate installdate d = Some (Num v).
Proof.
  rewrite status_frac_as_floats. split.
  - destruct (status unittrans startdate enddate installdate d) as [c|];
      [|discriminate].
    cbn. intros [= H]. apply cell_as_float_Num in H. congruence.
  - intros ->. reflexivity.
Qed.

(** The floats of a log of integers are free of debt. *)
Lemma no_debt_as_floats (unittrans : list transaction) (startdate enddate : Z)
    (installdate : option Z) :
  (forall t, t ∈ date_range startdate enddate ->
             (0 <= daily_total_frac (as_floats unittrans) t)%Q) ->
  (forall t,
     (0 <= dayscreditremaining_frac
             (counters_at_frac (as_floats unittrans) startdate enddate installdate t))%Q)
  /\
  (forall d k,
     0 <= k ->
     status_frac (as_floats unittrans) startdate enddate installdate d
       = Some (Num_frac (inject_Z (- k))) ->
     dayscreditremaining_frac
       (counters_at_frac (as_floats unittrans) startdate enddate installdate (d + day))
     = inject_Z 0) /\
  (forall d k w,
     0 <= k ->
     status_frac (as_floats unittrans) startdate enddate installdate d
       = Some (Num_frac (inject_Z (- k))) ->
     d + day <= enddate ->
     before_unlock unittrans (d + day) ->
     daily_total_frac (as_floats unittrans) (d + day) = inject_Z w ->
     0 < w ->
     status_frac (as_floats unittrans) startdate enddate installdate (d + day)
       = Some (Num_frac (inject_Z (7 * w)))).
Proof.
  intros Hnn.
  assert (forall t, t ∈ date_range startdate enddate -> 0 <= topup_total_on unittrans t)
    as Hnn'.
  { intros t Ht. rewrite Zle_Qle, <- daily_total_as_floats. apply Hnn. exact Ht. }
  destruct (credit_never_negative unittrans startdate enddate installdate Hnn')
    as (Hcredit & Hzero & Htopup).
  assert (forall d k, 0 <= k ->
            status_frac (as_floats unittrans) startdate enddate installdate d
              = Some (Num_frac (inject_Z (- k))) ->
            classify <$> status unittrans startdate enddate installdate d
              = Some (OutOfCredit k)) as Hooc.
  { intros d k Hk Hd. apply status_frac_Num in Hd. rewrite Hd. cbn.
    destruct (Z.ltb_spec 0 (- k)); [lia|]. do 2 f_equal. lia. }
  split; [|split].
  - intros t. rewrite counters_at_frac_as_floats. cbn [dayscreditremaining_frac
                                                       counters_as_float].
    change 0%Q with (inject_Z 0). rewrite <- Zle_Qle. apply Hcredit.
  - intros d k Hk Hd. rewrite counters_at_frac_as_floats.
    cbn [dayscreditremaining_frac counters_as_float].
    rewrite (Hzero d k (Hooc d k Hk Hd)). reflexivity.
  - intros d k w Hk Hd Hle Hu Hw Hpos.
    apply status_frac_Num.
    assert (topup_total_on unittrans (d + day) = w) as Hw'.
    { rewrite daily_total_as_floats in Hw. unfold inject_Z in Hw.
      injection Hw as Hw. exact Hw. }
    pose proof (Htopup d k w (Hooc d k Hk Hd) Hle Hu Hw' Hpos) as H.
    destruct (status unittrans startdate enddate installdate (d + day)) as [c|];
      [|discriminate].
    injection H as H. apply classify_CreditRemaining in H as [-> _]. reflexivity.
Qed.

Lemma as_floats_as_integers (unittrans : list float_transaction) :
  whole_weeks unittrans -> as_floats (as_integers unittrans) = unittrans.
Proof.
  intros Hw. induction Hw as [|e l He Hl IH]; [reflexivity|].
  cbn [as_integers as_floats map]. fold (as_integers l). fold (as_floats (as_integers l)).
  rewrite IH. f_equal.
  destruct e as [ts code [q|]]; cbn [f_timestamp f_function_code f_topupvalue timestamp
                                     function_code topupvalue] in *.
  - cbn. unfold whole in He. rewrite <- He. reflexivity.
  - reflexivity.
Qed.

Lemma before_unlock_as_floats (unittrans : list transaction) (t : Z) :
  before_unlock_frac (as_floats unittrans) t <-> before_unlock unittrans t.
Proof.
  unfold before_unlock_frac, before_unlock, unlockDate_frac, unlockDate.
  rewrite unlock_rows_as_floats, f_timestamp_as_floats. reflexivity.
Qed.

(** C9, as the code has it.  On a float column that holds whole numbers
    of weeks only, if the total top-up of every day of the range is
    non-negative, then the credit counter is never negative when the loop
    reaches a day; a day returned out of credit, that is with minus a
    streak [k], leaves the counter at exactly 0; and a top-up of [w] weeks
    on the following day, before the unlock day, is returned as exactly
    [7 * w] days of credit. *)
Theorem no_debt_on_whole_weeks (unittrans : list float_transaction)
    (startdate enddate : Z) (installdate : option Z) :
  whole_weeks unittrans ->
  (forall t, t ∈ date_range startdate enddate ->
             (0 <= daily_total_frac unittrans t)%Q) ->
  (forall t,
     (0 <= dayscreditremaining_frac
             (counters_at_frac unittrans startdate enddate installdate t))%Q) /\
  (forall d k,
     0 <= k ->
     status_frac unittrans startdate enddate installdate d
       = Some (Num_frac (inject_Z (- k))) ->
     dayscreditremaining_frac
       (counters_at_frac unittrans startdate enddate installdate (d + day))
     = inject_Z 0) /\
  (forall d k w,
     0 <= k ->
     status_frac unittrans startdate enddate installdate d
       = Some (Num_frac (inject_Z (- k))) ->
     d + day <= enddate ->
     before_unlock_frac unittrans (d + day) ->
     daily_total_frac unittrans (d + day) = inject_Z w ->
     0 < w ->
     status_frac unittrans startdate enddate installdate (d + day)
       = Some (Num_frac (inject_Z (7 * w)))).
Proof.
  intros Hwhole. rewrite <- (as_floats_as_integers unittrans Hwhole). intros Hnn.
  destruct (no_debt_as_floats (as_integers unittrans) startdate enddate installdate Hnn)
    as (H1 & H2 & H3).
  split; [exact H1|]. split; [exact H2|].
  intros d k w Hk Hd Hle Hu Hw Hpos.
  apply (H3 d k w Hk Hd Hle); [|exact Hw|exact Hpos].
  apply before_unlock_as_floats. exact Hu.
Qed.

Lemma no_debt_on_whole_weeks_witness :
  status_frac whole_weeks_log 0 (10 * day) None (8 * day + day)
  = Some (Num_frac (inject_Z (7 * 4))).
Proof.
  refine (proj2 (proj2 (no_debt_on_whole_weeks whole_weeks_log 0 (10 * day) None _ _))
                (8 * day) 1 4 _ _ _ _ _ _).
  - repeat constructor.
  - intros t Ht. vm_compute in Ht.
    repeat (apply elem_of_cons in Ht as [-> | Ht]); try (vm_compute; discriminate).
    inversion Ht.
  - lia.
  - reflexivity.
  - vm_compute. discriminate.
  - exact I.
  - reflexivity.
  - lia.
Defined.

(** With a fraction of a week the counter does go into debt.  Half a week
    bought on day 0 is shown as 3.5, 2.5, 1.5 and 0.5 days; the loop takes
    a whole day off the last half day and reaches day 4 with -0.5.  Day 4
    is returned out of credit with the counter still at -0.5, and the
    week bought on day 5 is returned as 6.5 days, not 7.  No total is
    negative and the unit is never unlocked. *)
Lemma no_debt_counterexample :
  (forall t, t ∈ date_range 0 (6 * day) -> (0 <= daily_total_frac half_week_log t)%Q) /\
  unlock_rows_frac half_week_log = [] /\
  before_unlock_frac half_week_log (4 * day + day) /\
  ~ whole_weeks half_week_log /\
  status_frac half_week_log 0 (6 * day) None (3 * day) = Some (Num_frac (1 # 2)) /\
  dayscreditremaining_frac (counters_at_frac half_week_log 0 (6 * day) None (4 * day))
    = (-1 # 2)%Q /\
  status_frac half_week_log 0 (6 * day) None (4 * day) = Some (Num_frac (inject_Z (- 0))) /\
  dayscreditremaining_frac (counters_at_frac half_week_log 0 (6 * day) None (4 * day + day))
    = (-1 # 2)%Q /\
  daily_total_frac half_week_log (4 * day + day) = inject_Z 1 /\
  status_frac half_week_log 0 (6 * day) None (4 * day + day) = Some (Num_frac (13 # 2)) /\
  status_frac half_week_log 0 (6 * day) None (4 * day + day)
    <> Some (Num_frac (inject_Z (7 * 1))).
Proof.
  split.
  { intros t Ht. vm_compute in Ht.
    repeat (apply elem_of_cons in Ht as [-> | Ht]); try (vm_compute; discriminate).
    inversion Ht. }
  split; [reflexivity|]. split; [exact I|]. split.
  { intros Hw. apply Forall_cons in Hw as [Hw _]. discriminate Hw. }
  repeat split; try reflexivity. vm_compute. discriminate.
Qed.
